(** * doc_to_json: the paragraph-stream parser of [main.py]

    A shallow embedding of [clean_text], [extract_url] and of the loop and the
    post-processing pass of [doc_to_json].

    Modelling conventions.
    - A Python [str] is a [string]; a character is a code point below 256
      (the Latin-1 range), which covers every character the program itself
      names.  [isspace] and [lower] are Python's, restricted to that range.
    - The regular expressions are kept as syntax trees and run by a
      backtracking matcher that explores alternatives in the order of
      Python's [re] module (greedy before skip, lazy skip before take).
    - A record is the Python dict: every key holds a dynamically typed
      [value]; operations that raise in Python return [Raise].
    - [document.paragraphs] is the list of paragraph texts; reading the
      [.docx] file, the trace [print]s and [json.dump] are outside the model. *)

From Stdlib Require Import String Ascii List Bool Arith NArith Lia Permutation.
Import ListNotations.
Open Scope string_scope.

(* ================================================================== *)
(** ** Python string primitives *)

Module Py.

Definition code (c : ascii) : N := N_of_ascii c.

(** [str.isspace] on one character; also the class [\s] of [re]. *)
Definition isspace (c : ascii) : bool :=
  let n := code c in
  ((9 <=? n) && (n <=? 13) || (28 <=? n) && (n <=? 32)
   || (n =? 133) || (n =? 160))%N.

(** [str.lower] on one character. *)
Definition lower_char (c : ascii) : ascii :=
  let n := code c in
  if ((65 <=? n) && (n <=? 90)
      || (192 <=? n) && (n <=? 222) && negb (n =? 215))%N
  then ascii_of_N (n + 32) else c.

Fixpoint lower (s : string) : string :=
  match s with
  | EmptyString => EmptyString
  | String c s' => String (lower_char c) (lower s')
  end.

Fixpoint lstrip (s : string) : string :=
  match s with
  | String c s' => if isspace c then lstrip s' else s
  | EmptyString => EmptyString
  end.

(** Removes trailing whitespace: a character is kept when something
    non-blank follows it or when it is not blank itself. *)
Fixpoint rstrip (s : string) : string :=
  match s with
  | EmptyString => EmptyString
  | String c s' =>
      match rstrip s' with
      | EmptyString => if isspace c then EmptyString else String c EmptyString
      | r => String c r
      end
  end.

(** [s.strip()] *)
Definition strip (s : string) : string := rstrip (lstrip s).

(** [s.startswith(p)] *)
Fixpoint startswith (p s : string) : bool :=
  match p, s with
  | EmptyString, _ => true
  | String a p', String b s' => Ascii.eqb a b && startswith p' s'
  | String _ _, EmptyString => false
  end.

(** [p in s] for two strings *)
Fixpoint contains (p s : string) : bool :=
  startswith p s ||
  match s with
  | EmptyString => false
  | String _ s' => contains p s'
  end.

(** [s.split(sep)] for a one-character separator: every piece, in order. *)
Fixpoint split (sep : ascii) (s : string) : list string :=
  match s with
  | EmptyString => [EmptyString]
  | String c s' =>
      if Ascii.eqb c sep then EmptyString :: split sep s'
      else match split sep s' with
           | p :: ps => String c p :: ps
           | [] => [String c EmptyString]
           end
  end.

(** [s.split(sep, 1)[1]]: the text after the first separator; [None] stands
    for the [IndexError] raised when there is no separator. *)
Fixpoint after_first (sep : ascii) (s : string) : option string :=
  match s with
  | EmptyString => None
  | String c s' => if Ascii.eqb c sep then Some s' else after_first sep s'
  end.

(** Truth value of a string: [bool(s)]. *)
Definition nonempty (s : string) : bool :=
  match s with EmptyString => false | _ => true end.

(** Truth value of a value that is a string or [None]. *)
Definition truthy_opt (o : option string) : bool :=
  match o with Some s => nonempty s | None => false end.

(** [a or b] where [a] is a string or [None] *)
Definition or_else (o : option string) (d : string) : string :=
  match o with
  | Some s => if nonempty s then s else d
  | None => d
  end.

End Py.

(* ================================================================== *)
(** ** Regular expressions *)

Module Re.

(** The fragment of [re] syntax that the program uses.  Repetition is only
    ever applied to a one-character matcher (a literal class, [\s] or [.]),
    so [Star], [StarLazy] and [Plus] take the character predicate. *)
Inductive regex : Type :=
| Eps
| Atom (p : ascii -> bool)      (* one character satisfying [p] *)
| Star (p : ascii -> bool)      (* p*  : greedy *)
| StarLazy (p : ascii -> bool)  (* p*? : lazy *)
| Plus (p : ascii -> bool)      (* p+  : greedy *)
| Opt (r : regex)               (* r?  : greedy *)
| Seq (r1 r2 : regex)
| Group (n : nat) (r : regex)   (* the n-th capturing group *)
| Bol                           (* ^ *)
| Eol.                          (* $ without MULTILINE *)

Definition captures := list (nat * string).

Fixpoint group (n : nat) (c : captures) : option string :=
  match c with
  | [] => None
  | (m, s) :: c' => if Nat.eqb m n then Some s else group n c'
  end.

(** The text consumed between two suffixes of the subject. *)
Definition consumed (before after : string) : string :=
  substring 0 (String.length before - String.length after) before.

Section Matcher.
Context {R : Type}.

Fixpoint star_greedy (p : ascii -> bool) (s : string)
         (k : string -> option R) : option R :=
  match s with
  | String c s' =>
      if p c then
        match star_greedy p s' k with
        | Some r => Some r
        | None => k s
        end
      else k s
  | EmptyString => k s
  end.

Fixpoint star_lazy (p : ascii -> bool) (s : string)
         (k : string -> option R) : option R :=
  match k s with
  | Some r => Some r
  | None =>
      match s with
      | String c s' => if p c then star_lazy p s' k else None
      | EmptyString => None
      end
  end.

(** [run r n s c k]: match [r] at the suffix [s] of a subject of length
    [n], with the captures [c] made so far, then continue with [k]; the
    first success in backtracking order is the answer. *)
Fixpoint run (r : regex) (n : nat) (s : string) (c : captures)
         (k : string -> captures -> option R) : option R :=
  match r with
  | Eps => k s c
  | Atom p =>
      match s with
      | String a s' => if p a then k s' c else None
      | EmptyString => None
      end
  | Star p => star_greedy p s (fun s' => k s' c)
  | StarLazy p => star_lazy p s (fun s' => k s' c)
  | Plus p =>
      match s with
      | String a s' => if p a then star_greedy p s' (fun s'' => k s'' c) else None
      | EmptyString => None
      end
  | Opt r1 =>
      match run r1 n s c k with
      | Some x => Some x
      | None => k s c
      end
  | Seq r1 r2 => run r1 n s c (fun s' c' => run r2 n s' c' k)
  | Group i r1 =>
      run r1 n s c (fun s' c' => k s' ((i, consumed s s') :: c'))
  | Bol => if Nat.eqb (String.length s) n then k s c else None
  | Eol =>
      match s with
      | EmptyString => k s c
      | String a EmptyString => if Ascii.eqb a "010" then k s c else None
      | _ => None
      end
  end.
End Matcher.

(** A successful match: the text before it, the matched text, the text
    after it and the groups. *)
Record match_obj := mkMatch {
  m_before : string;
  m_text : string;
  m_after : string;
  m_groups : captures
}.

(** A match of [r] that starts at the suffix [s] of a subject of length
    [n]. *)
Definition match_at (r : regex) (n : nat) (s : string) : option match_obj :=
  run r n s [] (fun s' c => Some (mkMatch "" (consumed s s') s' c)).

(** [re.match(r, s)] *)
Definition re_match (r : regex) (s : string) : option match_obj :=
  match_at r (String.length s) s.

(** One more character before the match. *)
Definition shift (a : ascii) (m : match_obj) : match_obj :=
  mkMatch (String a (m_before m)) (m_text m) (m_after m) (m_groups m).

(** [re.search(r, s)]: the first start position, left to right, at which
    the pattern matches. *)
Fixpoint search_from (r : regex) (n : nat) (s : string) : option match_obj :=
  match match_at r n s with
  | Some m => Some m
  | None =>
      match s with
      | String a s' => option_map (shift a) (search_from r n s')
      | EmptyString => None
      end
  end.

Definition re_search (r : regex) (s : string) : option match_obj :=
  search_from r (String.length s) s.

(** [re.sub(r, repl, s)] for a pattern that has no anchor and never matches
    the empty string: the matches are found left to right, each search
    resuming where the previous match ended.  [fuel] bounds the number of
    replacements; a match consumes at least one character, so the length of
    the subject is enough. *)
Fixpoint sub_loop (fuel : nat) (r : regex) (repl : match_obj -> string)
         (s : string) : string :=
  match fuel with
  | O => s
  | S fuel' =>
      match re_search r s with
      | None => s
      | Some m => m_before m ++ repl m ++ sub_loop fuel' r repl (m_after m)
      end
  end.

Definition re_sub (r : regex) (repl : match_obj -> string) (s : string) : string :=
  sub_loop (String.length s) r repl s.

(** Building patterns. *)
Definition chr (c : ascii) : regex := Atom (Ascii.eqb c).
(** A literal character under [re.IGNORECASE]. *)
Definition chr_i (c : ascii) : regex :=
  Atom (fun a => Ascii.eqb (Py.lower_char a) (Py.lower_char c)).

Fixpoint lit (s : string) : regex :=
  match s with
  | EmptyString => Eps
  | String c s' => Seq (chr c) (lit s')
  end.

Fixpoint lit_i (s : string) : regex :=
  match s with
  | EmptyString => Eps
  | String c s' => Seq (chr_i c) (lit_i s')
  end.

Fixpoint seq (rs : list regex) : regex :=
  match rs with
  | [] => Eps
  | r :: rs' => Seq r (seq rs')
  end.

(** [.] : any character but the newline *)
Definition dot (a : ascii) : bool := negb (Ascii.eqb a "010").
(** [\s] *)
Definition space (a : ascii) : bool := Py.isspace a.

End Re.

(* ================================================================== *)
(** ** The patterns of [main.py] *)

Module Pat.
Import Re.

(** One or more of the two emphasis marks, the star and the underscore. *)
Definition is_emphasis (a : ascii) : bool :=
  Ascii.eqb a "*" || Ascii.eqb a "_".
Definition emphasis : regex := Plus is_emphasis.

(** The link pattern; its tokens, separated by blanks, are
    [\[  .*?  \]  \(  ( .*? )  \)]. *)
Definition markdown_link : regex :=
  seq [chr "["; StarLazy dot; chr "]"; chr "("; Group 1 (StarLazy dot); chr ")"].

(** The class of [bare_url]: anything but white space, [>], a double
    quote, a single quote, a closing bracket and a closing parenthesis. *)
Definition url_char (a : ascii) : bool :=
  negb (Py.isspace a || Ascii.eqb a ">" || Ascii.eqb a "034"
        || Ascii.eqb a "'" || Ascii.eqb a "]" || Ascii.eqb a ")").

(** [https?://] *)
Definition scheme : regex := seq [lit "http"; Opt (chr "s"); lit "://"].

(** [https?://] followed by one or more characters of that class. *)
Definition bare_url : regex := seq [scheme; Plus url_char].

(** The header pattern, under [re.IGNORECASE]; its tokens are
    [^  ( ### \s* )?  Tool Name  \s*  :  $]. *)
Definition tool_header : regex :=
  seq [Bol; Opt (Group 1 (Seq (lit_i "###") (Star space)));
       lit_i "Tool Name"; Star space; chr_i ":"; Eol].

(** The label pattern; its tokens are
    [^  ( h \s* )?  ( .*? )  \s*  :  \s*  ( .* )?  $]
    where [h] is a run of heading marks: three for a field, two for its
    fallback, four for a subsection. *)
Definition labelled (marks : string) : regex :=
  seq [Bol; Opt (Group 1 (Seq (lit marks) (Star space)));
       Group 2 (StarLazy dot); Star space; chr ":"; Star space;
       Opt (Group 3 (Star dot)); Eol].

End Pat.

(* ================================================================== *)
(** ** [clean_text] and [extract_url] *)

(** The replacement template [\1]. *)
Definition group1 (m : Re.match_obj) : string :=
  match Re.group 1 (Re.m_groups m) with Some g => g | None => "" end.

Definition clean_text (text : string) : string :=
  let text := Re.re_sub Pat.emphasis (fun _ => "") text in
  let text := Re.re_sub Pat.markdown_link group1 text in
  Py.strip text.

Definition extract_url (text : string) : option string :=
  match Re.re_search Pat.markdown_link text with
  | Some markdown_match => Some (group1 markdown_match)
  | None =>
      match Re.re_search Pat.bare_url text with
      | Some url_match => Some (Re.m_text url_match)
      | None => None
      end
  end.

(* ================================================================== *)
(** ** Data model *)

(** The keys of a record, in the order of [FIELDS]. *)
Inductive field : Type :=
| Tool_Name | Website_Link | Logo | Screenshots | Short_Description
| Full_Description | Slug | Meta_Title | Meta_Description
| Category | Product_Type | Tags.

Definition field_name (f : field) : string :=
  match f with
  | Tool_Name => "Tool Name" | Website_Link => "Website Link"
  | Logo => "Logo" | Screenshots => "Screenshots"
  | Short_Description => "Short Description"
  | Full_Description => "Full Description" | Slug => "Slug"
  | Meta_Title => "Meta Title" | Meta_Description => "Meta Description"
  | Category => "Category" | Product_Type => "Product Type" | Tags => "Tags"
  end.

Definition field_eqb (a b : field) : bool :=
  match a, b with
  | Tool_Name, Tool_Name | Website_Link, Website_Link | Logo, Logo
  | Screenshots, Screenshots | Short_Description, Short_Description
  | Full_Description, Full_Description | Slug, Slug
  | Meta_Title, Meta_Title | Meta_Description, Meta_Description
  | Category, Category | Product_Type, Product_Type | Tags, Tags => true
  | _, _ => false
  end.

Definition FIELDS : list field :=
  [Tool_Name; Website_Link; Logo; Screenshots; Short_Description;
   Full_Description; Slug; Meta_Title; Meta_Description;
   Category; Product_Type; Tags].

Definition ARRAY_FIELDS : list field := [Category; Tags; Screenshots].
Definition URL_FIELDS : list field := [Website_Link; Logo; Screenshots].

(** [f in fs] *)
Definition field_in (f : field) (fs : list field) : bool :=
  existsb (field_eqb f) fs.

(** The keys of the dict under "Full Description". *)
Inductive subsection : Type :=
| Introduction | Key_Features | Use_Cases | How_It_Works
| Why_Choose | Future_Vision | Conclusion.

Definition subsection_name (s : subsection) : string :=
  match s with
  | Introduction => "Introduction" | Key_Features => "Key Features"
  | Use_Cases => "Use Cases" | How_It_Works => "How It Works"
  | Why_Choose => "Why Choose" | Future_Vision => "Future Vision"
  | Conclusion => "Conclusion"
  end.

Definition FULL_DESCRIPTION_SUBSECTIONS : list subsection :=
  [Introduction; Key_Features; Use_Cases; How_It_Works;
   Why_Choose; Future_Vision; Conclusion].

(** The dict of subsection texts. *)
Record subsections : Type := mkSubsections {
  s_introduction : string; s_key_features : string; s_use_cases : string;
  s_how_it_works : string; s_why_choose : string; s_future_vision : string;
  s_conclusion : string
}.

Definition sub_get (k : subsection) (d : subsections) : string :=
  match k with
  | Introduction => s_introduction d | Key_Features => s_key_features d
  | Use_Cases => s_use_cases d | How_It_Works => s_how_it_works d
  | Why_Choose => s_why_choose d | Future_Vision => s_future_vision d
  | Conclusion => s_conclusion d
  end.

Definition sub_set (k : subsection) (v : string) (d : subsections) : subsections :=
  let '(mkSubsections a b c e f g h) := d in
  match k with
  | Introduction => mkSubsections v b c e f g h
  | Key_Features => mkSubsections a v c e f g h
  | Use_Cases => mkSubsections a b v e f g h
  | How_It_Works => mkSubsections a b c v f g h
  | Why_Choose => mkSubsections a b c e v g h
  | Future_Vision => mkSubsections a b c e f v h
  | Conclusion => mkSubsections a b c e f g v
  end.

Definition sub_map (f : string -> string) (d : subsections) : subsections :=
  let '(mkSubsections a b c e g h i) := d in
  mkSubsections (f a) (f b) (f c) (f e) (f g) (f h) (f i).

(** What a key of a record can hold at run time. *)
Inductive value : Type :=
| VStr (s : string)
| VList (l : list string)
| VDict (d : subsections).

(** [bool(v)]; the dict of subsections always has its seven keys. *)
Definition truthy (v : value) : bool :=
  match v with
  | VStr s => Py.nonempty s
  | VList l => match l with [] => false | _ => true end
  | VDict _ => true
  end.

(** The record ("tool"): the dict with the twelve keys of [FIELDS].
    [k_none] is the entry under the key [None], which the assignment
    [current_tool[current_key] = ...] creates when [current_key] is [None]. *)
Record tool : Type := mkTool {
  k_tool_name : value; k_website_link : value; k_logo : value;
  k_screenshots : value; k_short_description : value;
  k_full_description : value; k_slug : value; k_meta_title : value;
  k_meta_description : value; k_category : value; k_product_type : value;
  k_tags : value; k_none : option value
}.

(** [t[f]] *)
Definition get (f : field) (t : tool) : value :=
  match f with
  | Tool_Name => k_tool_name t | Website_Link => k_website_link t
  | Logo => k_logo t | Screenshots => k_screenshots t
  | Short_Description => k_short_description t
  | Full_Description => k_full_description t | Slug => k_slug t
  | Meta_Title => k_meta_title t | Meta_Description => k_meta_description t
  | Category => k_category t | Product_Type => k_product_type t
  | Tags => k_tags t
  end.

(** [t[f] = v] *)
Definition set (f : field) (v : value) (t : tool) : tool :=
  let '(mkTool a b c d e g h i j k l m n) := t in
  match f with
  | Tool_Name => mkTool v b c d e g h i j k l m n
  | Website_Link => mkTool a v c d e g h i j k l m n
  | Logo => mkTool a b v d e g h i j k l m n
  | Screenshots => mkTool a b c v e g h i j k l m n
  | Short_Description => mkTool a b c d v g h i j k l m n
  | Full_Description => mkTool a b c d e v h i j k l m n
  | Slug => mkTool a b c d e g v i j k l m n
  | Meta_Title => mkTool a b c d e g h v j k l m n
  | Meta_Description => mkTool a b c d e g h i v k l m n
  | Category => mkTool a b c d e g h i j v l m n
  | Product_Type => mkTool a b c d e g h i j k v m n
  | Tags => mkTool a b c d e g h i j k l v n
  end.

(** [t[key] = v] where [key] is [current_key], possibly [None]. *)
Definition set_item (key : option field) (v : value) (t : tool) : tool :=
  match key with
  | Some f => set f v t
  | None =>
      let '(mkTool a b c d e g h i j k l m _) := t in
      mkTool a b c d e g h i j k l m (Some v)
  end.

Definition empty_subsections : subsections := mkSubsections "" "" "" "" "" "" "".

(** The fresh record of a new-record marker:
    [{field: [] if field in ARRAY_FIELDS else "" for field in FIELDS}] with
    the dict of empty subsections under "Full Description". *)
Definition new_tool : tool :=
  mkTool (VStr "") (VStr "") (VStr "") (VList []) (VStr "")
         (VDict empty_subsections) (VStr "") (VStr "") (VStr "")
         (VList []) (VStr "") (VList []) None.

(** Exceptions. *)
Inductive exn : Type := TypeError | AttributeError | IndexError.

Inductive result (A : Type) : Type :=
| Ok (a : A)
| Raise (e : exn).
Arguments Ok {A} a.
Arguments Raise {A} e.

Definition bind {A B : Type} (r : result A) (f : A -> result B) : result B :=
  match r with
  | Ok a => f a
  | Raise e => Raise e
  end.

Notation "x <- r ;; k" := (bind r (fun x => k))
  (at level 61, r at next level, right associativity).

(** [t[f].append(s)] *)
Definition append_to (f : field) (s : string) (t : tool) : result tool :=
  match get f t with
  | VList l => Ok (set f (VList (l ++ [s])) t)
  | _ => Raise AttributeError
  end.

(** [t[f].extend(l')] *)
Definition extend (f : field) (l' : list string) (t : tool) : result tool :=
  match get f t with
  | VList l => Ok (set f (VList (l ++ l')) t)
  | _ => Raise AttributeError
  end.

(** The characters of a string, as Python iterates over it. *)
Fixpoint chars (s : string) : list string :=
  match s with
  | EmptyString => []
  | String c s' => String c EmptyString :: chars s'
  end.

(** [t[f] += s] for a string [s]: concatenation on a string, in-place
    extension by the characters of [s] on a list, [TypeError] on a dict. *)
Definition iadd_str (f : field) (s : string) (t : tool) : result tool :=
  match get f t with
  | VStr x => Ok (set f (VStr (x ++ s)) t)
  | VList l => Ok (set f (VList (l ++ chars s)) t)
  | VDict _ => Raise TypeError
  end.

(** [t["Full Description"][k] = v] *)
Definition fd_assign (k : subsection) (v : string) (t : tool) : result tool :=
  match get Full_Description t with
  | VDict d => Ok (set Full_Description (VDict (sub_set k v d)) t)
  | _ => Raise TypeError
  end.

(** [t["Full Description"][k] += s] *)
Definition fd_iadd (k : subsection) (s : string) (t : tool) : result tool :=
  match get Full_Description t with
  | VDict d => Ok (set Full_Description (VDict (sub_set k (sub_get k d ++ s) d)) t)
  | _ => Raise TypeError
  end.

(** The cursor of the loop, with the output collection. *)
Record state : Type := mkState {
  all_tools : list tool;
  current_tool : option tool;
  current_key : option field;
  current_subsection : option subsection;
  in_full_description : bool;
  in_screenshots : bool;
  partial_url : option string;
  expect_tool_name_value : bool
}.

Definition initial_state : state :=
  mkState [] None None None false false None false.

(* ================================================================== *)
(** ** The loop body of [doc_to_json] *)

Definition set_tool (t : tool) (st : state) : state :=
  mkState (all_tools st) (Some t) (current_key st) (current_subsection st)
          (in_full_description st) (in_screenshots st) (partial_url st)
          (expect_tool_name_value st).

Definition set_partial_url (p : option string) (st : state) : state :=
  mkState (all_tools st) (current_tool st) (current_key st)
          (current_subsection st) (in_full_description st)
          (in_screenshots st) p (expect_tool_name_value st).

Definition set_in_screenshots (b : bool) (st : state) : state :=
  mkState (all_tools st) (current_tool st) (current_key st)
          (current_subsection st) (in_full_description st) b
          (partial_url st) (expect_tool_name_value st).

Definition set_current_subsection (s : option subsection) (st : state) : state :=
  mkState (all_tools st) (current_tool st) (current_key st) s
          (in_full_description st) (in_screenshots st) (partial_url st)
          (expect_tool_name_value st).

Definition set_expect (b : bool) (st : state) : state :=
  mkState (all_tools st) (current_tool st) (current_key st)
          (current_subsection st) (in_full_description st)
          (in_screenshots st) (partial_url st) b.

(** A field line moves the cursor: [current_key], the two mode flags, and
    [current_subsection = None]. *)
Definition enter_field (f : field) (fd ss : bool) (st : state) : state :=
  mkState (all_tools st) (current_tool st) (Some f) None fd ss
          (partial_url st) (expect_tool_name_value st).

Definition is_match (o : option Re.match_obj) : bool :=
  match o with Some _ => true | None => false end.

(** [m.group(n)] of a group that takes part in every match. *)
Definition group_text (n : nat) (m : Re.match_obj) : string :=
  match Re.group n (Re.m_groups m) with Some g => g | None => "" end.

(** [m.group(3).strip() if m.group(3) else ""] *)
Definition inline_value (m : Re.match_obj) : string :=
  match Re.group 3 (Re.m_groups m) with
  | Some g => if Py.nonempty g then Py.strip g else ""
  | None => ""
  end.

Definition is_new_tool (line : string) : bool :=
  let cleaned_line := clean_text line in
  is_match (Re.re_match Pat.tool_header cleaned_line).

(** [[v.strip() for v in text.split(",") if v.strip()]] *)
Definition comma_items (text : string) : list string :=
  filter Py.nonempty (map Py.strip (Py.split "," text)).

(** The recurring
    [if current_key == "Screenshots": current_tool["Screenshots"].append(url)
     else: current_tool[current_key] = url]. *)
Definition assign_url (key : option field) (url : string) (t : tool) : result tool :=
  match key with
  | Some Screenshots => append_to Screenshots url t
  | _ => Ok (set_item key (VStr url) t)
  end.

(** Lines 99-115: a partial URL is pending ([pending] is its text). *)
Definition pending_url_line (st : state) (t : tool) (pending : string)
           (line cleaned_line : string) : result state :=
  if is_match (Re.re_match Pat.scheme line) then
    t' <- assign_url (current_key st) pending t ;;
    Ok (set_partial_url (extract_url cleaned_line) (set_tool t' st))
  else
    let pending' := pending ++ " " ++ cleaned_line in
    let complete_url := extract_url pending' in
    if Py.truthy_opt complete_url then
      t' <- assign_url (current_key st) (Py.or_else complete_url "") t ;;
      Ok (set_partial_url None (set_tool t' st))
    else Ok (set_partial_url (Some pending') st).

(** Line 118: the label pattern with three marks, else with two. *)
Definition field_match (line : string) : option Re.match_obj :=
  match Re.re_match (Pat.labelled "###") line with
  | Some m => Some m
  | None => Re.re_match (Pat.labelled "##") line
  end.

(** Lines 120-121: the field whose name equals the label, case ignored. *)
Definition matched_field (m : Re.match_obj) : option field :=
  let field_candidate := clean_text (Py.strip (group_text 2 m)) in
  find (fun f => String.eqb (Py.lower (field_name f)) (Py.lower field_candidate))
       FIELDS.

(** Lines 125-144: a line that declares the field [f] with the inline
    value [v]. *)
Definition field_line (st : state) (t : tool) (f : field) (v : string) : state :=
  let st := enter_field f (field_eqb f Full_Description)
                        (field_eqb f Screenshots) st in
  if Py.nonempty v then
    if field_in f ARRAY_FIELDS then
      set_tool (set f (VList (comma_items v)) t) st
    else if field_in f URL_FIELDS then
      let url := extract_url v in
      if Py.truthy_opt url then
        if field_eqb f Screenshots
        then set_tool (set Screenshots (VList [Py.or_else url ""]) t) st
        else set_tool (set f (VStr (Py.or_else url "")) t) st
      else set_partial_url (Some v) st
    else set_tool (set f (VStr v) t) st
  else st.

(** Lines 146-158: a line whose lower-cased text starts with "logo:". *)
Definition logo_line (st : state) (t : tool) (cleaned_line : string) : result state :=
  let st := enter_field Logo false false st in
  match Py.after_first ":" cleaned_line with
  | None => Raise IndexError
  | Some rest =>
      let v := Py.strip rest in
      let url := extract_url v in
      if Py.truthy_opt url then
        Ok (set_tool (set Logo (VStr (Py.or_else url "")) t) st)
      else if Py.nonempty v then Ok (set_partial_url (Some v) st)
      else Ok st
  end.

(** Lines 160-172: a line whose lower-cased text starts with
    "screenshots:". *)
Definition screenshots_line (st : state) (t : tool) (cleaned_line : string) : result state :=
  let st := enter_field Screenshots false true st in
  match Py.after_first ":" cleaned_line with
  | None => Raise IndexError
  | Some rest =>
      let v := Py.strip rest in
      let url := extract_url v in
      if Py.truthy_opt url then
        t' <- append_to Screenshots (Py.or_else url "") t ;;
        Ok (set_tool t' st)
      else if Py.nonempty v then Ok (set_partial_url (Some v) st)
      else Ok st
  end.

(** Lines 174-183: the screenshots list is being read. *)
Definition screenshots_mode (st : state) (t : tool) (cleaned_line : string) : result state :=
  let url := extract_url cleaned_line in
  if Py.truthy_opt url then
    t' <- append_to Screenshots (Py.or_else url "") t ;;
    Ok (set_tool t' st)
  else if is_match (Re.re_match Pat.scheme cleaned_line) then
    Ok (set_partial_url (Some cleaned_line) st)
  else Ok (set_in_screenshots false st).

(** Lines 186-193: the label pattern with four marks. *)
Definition subsection_match (line : string) : option Re.match_obj :=
  Re.re_match (Pat.labelled "####") line.

(** Lines 188-192: the first subsection whose name is a prefix of the
    label, case ignored. *)
Definition matched_subsection (m : Re.match_obj) : option subsection :=
  let subsection_candidate := clean_text (Py.strip (group_text 2 m)) in
  find (fun s => Py.startswith (Py.lower (subsection_name s))
                               (Py.lower subsection_candidate))
       FULL_DESCRIPTION_SUBSECTIONS.

(** The subsection a line declares, with its inline value. *)
Definition subsection_decl (line : string) : option (subsection * string) :=
  match subsection_match line with
  | Some m =>
      match matched_subsection m with
      | Some s => Some (s, inline_value m)
      | None => None
      end
  | None => None
  end.

(** Lines 185-201: inside "Full Description". *)
Definition full_description_mode (st : state) (t : tool)
           (line cleaned_line : string) : result state :=
  match subsection_decl line with
  | Some (s, v) =>
      let st := set_current_subsection (Some s) st in
      t' <- fd_assign s v t ;;
      Ok (set_tool t' st)
  | None =>
      match current_subsection st with
      | Some s =>
          t' <- fd_iadd s (" " ++ cleaned_line) t ;;
          Ok (set_tool t' st)
      | None => Ok st
      end
  end.

(** Lines 203-217: a general continuation of the current field. *)
Definition general_continuation (st : state) (t : tool)
           (cleaned_line : string) : result state :=
  match current_key st with
  | Some key =>
      if negb (in_screenshots st) && negb (in_full_description st) then
        if field_in key ARRAY_FIELDS then
          t' <- extend key (comma_items cleaned_line) t ;;
          Ok (set_tool t' st)
        else if field_in key URL_FIELDS then
          if negb (truthy (get key t)) then
            let url := extract_url cleaned_line in
            if Py.truthy_opt url then
              t' <- assign_url (Some key) (Py.or_else url "") t ;;
              Ok (set_tool t' st)
            else Ok (set_partial_url (Some cleaned_line) st)
          else Ok st
        else
          t' <- iadd_str key (" " ++ cleaned_line) t ;;
          Ok (set_tool t' st)
      else Ok st
  | None => Ok st
  end.

(** Lines 76-78: the open record is pushed when its "Tool Name" is truthy. *)
Definition close_record (st : state) : list tool :=
  match current_tool st with
  | Some t => if truthy (get Tool_Name t) then (all_tools st ++ [t])%list else all_tools st
  | None => all_tools st
  end.

(** Lines 118-124: the field a line declares, with its inline value. *)
Definition field_decl (line : string) : option (field * string) :=
  match field_match line with
  | Some m =>
      match matched_field m with
      | Some f => Some (f, inline_value m)
      | None => None
      end
  | None => None
  end.

(** Lines 117-217: a line for an open record [t] with no URL pending. *)
Definition classify_line (st : state) (t : tool) (line cleaned_line : string)
  : result state :=
  match field_decl line with
  | Some (f, v) => Ok (field_line st t f v)
  | None =>
      if Py.startswith "logo:" (Py.lower line) then logo_line st t cleaned_line
      else if Py.startswith "screenshots:" (Py.lower line)
      then screenshots_line st t cleaned_line
      else if in_screenshots st then screenshots_mode st t cleaned_line
      else if in_full_description st
      then full_description_mode st t line cleaned_line
      else general_continuation st t cleaned_line
  end.

(** One iteration of [for para in document.paragraphs], on the text of the
    paragraph. *)
Definition step (st : state) (para_text : string) : result state :=
  let line := Py.strip para_text in
  if negb (Py.nonempty line) then Ok st
  else
    let cleaned_line := clean_text line in
    if is_new_tool line then
      Ok (mkState (close_record st) (Some new_tool) (Some Tool_Name) None
                  false false None true)
    else if expect_tool_name_value st then
      match current_tool st with
      | Some t =>
          Ok (set_expect false (set_tool (set Tool_Name (VStr cleaned_line) t) st))
      | None => Raise TypeError
      end
    else
      match current_tool st with
      | None => Ok st
      | Some t =>
          if Py.truthy_opt (partial_url st) then
            pending_url_line st t (Py.or_else (partial_url st) "") line cleaned_line
          else classify_line st t line cleaned_line
      end.

(** The whole loop. *)
Fixpoint run_lines (st : state) (paragraphs : list string) : result state :=
  match paragraphs with
  | [] => Ok st
  | p :: ps => st' <- step st p ;; run_lines st' ps
  end.

(** Lines 219-227: the last record. *)
Definition finish (st : state) : result (list tool) :=
  match current_tool st with
  | Some t =>
      if truthy (get Tool_Name t) then
        t' <- (if Py.truthy_opt (partial_url st)
                  && match current_key st with
                     | Some key => field_in key URL_FIELDS
                     | None => false
                     end
               then assign_url (current_key st) (Py.or_else (partial_url st) "") t
               else Ok t) ;;
        Ok (all_tools st ++ [t'])%list
      else Ok (all_tools st)
  | None => Ok (all_tools st)
  end.

(** The records before post-processing. *)
Definition parse (paragraphs : list string) : result (list tool) :=
  st <- run_lines initial_state paragraphs ;; finish st.

(* ================================================================== *)
(** ** Post-processing *)

(** [list(set(xs))] lists the distinct elements of [xs] in an order that
    Python does not specify.  The pass takes that listing as a parameter
    [to_list]; [distinct] is one such listing, and [set_listing] says what
    every one of them satisfies. *)
Definition distinct (xs : list string) : list string := nodup string_dec xs.

Definition set_listing (to_list : list string -> list string) : Prop :=
  forall xs, NoDup (to_list xs) /\ (forall x, In x (to_list xs) <-> In x xs).

(** Line 233: [list(set(filter(None, v)))].  Iterating over a string gives
    its characters, over the dict its keys. *)
Definition dedup (to_list : list string -> list string) (v : value) : value :=
  match v with
  | VList l => VList (to_list (filter Py.nonempty l))
  | VStr s => VList (to_list (chars s))
  | VDict _ => VList (to_list (map subsection_name FULL_DESCRIPTION_SUBSECTIONS))
  end.

(** [extract_url(url) or url] *)
Definition resolve_url (url : string) : string :=
  Py.or_else (extract_url url) url.

(** Lines 237-240 *)
Definition resolve_urls (v : value) : value :=
  match v with
  | VList l => VList (map resolve_url l)
  | VStr s => VStr (resolve_url s)
  | VDict d => VDict d
  end.

(** Lines 242-243: [for subsection in tool["Full Description"]: ...].  A
    string or list iterates over its items, and indexing it by an item
    raises. *)
Definition normalize_subsections (t : tool) : result tool :=
  match get Full_Description t with
  | VDict d =>
      Ok (set Full_Description
              (VDict (sub_map (fun x => Py.strip (clean_text x)) d)) t)
  | VStr EmptyString => Ok t
  | VList [] => Ok t
  | _ => Raise TypeError
  end.

(** [word in v] *)
Definition py_in (word : string) (v : value) : bool :=
  match v with
  | VStr s => Py.contains word s
  | VList l => existsb (String.eqb word) l
  | VDict _ => existsb (fun k => String.eqb word (subsection_name k))
                       FULL_DESCRIPTION_SUBSECTIONS
  end.

(** [word in tool["Short Description"] or
     word in tool["Full Description"]["Introduction"]] *)
Definition mentions (word : string) (t : tool) : result bool :=
  if py_in word (get Short_Description t) then Ok true
  else match get Full_Description t with
       | VDict d => Ok (Py.contains word (sub_get Introduction d))
       | _ => Raise TypeError
       end.

(** Lines 250-256 *)
Definition default_category (t : tool) : result tool :=
  if negb (truthy (get Category t)) then
    w <- mentions "Writing" t ;;
    if w : bool then Ok (set Category (VList ["AI Writing Assistant"]) t)
    else
      i <- mentions "Image" t ;;
      if i : bool then Ok (set Category (VList ["AI Image Generation Tool"]) t)
      else Ok (set Category (VList ["AI Tool"]) t)
  else Ok t.

(** Lines 246-247 *)
Definition default_product_type (t : tool) : tool :=
  if negb (truthy (get Product_Type t))
  then set Product_Type (VStr "AI Tool") t else t.

(** The body of [for tool in all_tools] (lines 231-256). *)
Definition post_process_tool (to_list : list string -> list string) (t : tool)
  : result tool :=
  let t := fold_left (fun t f => set f (dedup to_list (get f t)) t) ARRAY_FIELDS t in
  let t := fold_left (fun t f => set f (resolve_urls (get f t)) t) URL_FIELDS t in
  t <- normalize_subsections t ;;
  default_category (default_product_type t).

Fixpoint post_process (to_list : list string -> list string) (ts : list tool)
  : result (list tool) :=
  match ts with
  | [] => Ok []
  | t :: ts' =>
      t' <- post_process_tool to_list t ;;
      ts'' <- post_process to_list ts' ;;
      Ok (t' :: ts'')
  end.

(** The records that [doc_to_json] hands to [json.dump]; [Raise] when an
    exception reaches the handler of the function, which writes nothing. *)
Definition doc_to_json (to_list : list string -> list string)
           (paragraphs : list string) : result (list tool) :=
  ts <- parse paragraphs ;; post_process to_list ts.

(* ================================================================== *)
(** ** Notions used by the statements *)

(** A record with a non-empty "Tool Name" string. *)
Definition named (t : tool) : Prop :=
  exists s, get Tool_Name t = VStr s /\ s <> "".

Definition is_str (v : value) : bool :=
  match v with VStr _ => true | _ => false end.
Definition is_list (v : value) : bool :=
  match v with VList _ => true | _ => false end.
Definition is_dict (v : value) : bool :=
  match v with VDict _ => true | _ => false end.

(** The run-time type a key is meant to hold. *)
Definition fits (f : field) (v : value) : bool :=
  match f with
  | Category | Tags | Screenshots => is_list v
  | Full_Description => is_dict v || is_str v
  | _ => is_str v
  end.

(** The run-time types the loop maintains: the list fields hold lists, the
    other fields strings, and "Full Description" holds the dict of
    subsections or, after a line that gives it an inline value, a string. *)
Definition well_typed (t : tool) : bool :=
  is_str (get Tool_Name t) && is_str (get Website_Link t)
  && is_str (get Logo t) && is_list (get Screenshots t)
  && is_str (get Short_Description t)
  && (is_dict (get Full_Description t) || is_str (get Full_Description t))
  && is_str (get Slug t) && is_str (get Meta_Title t)
  && is_str (get Meta_Description t) && is_list (get Category t)
  && is_str (get Product_Type t) && is_list (get Tags t)
  && match k_none t with None => true | Some _ => false end.

Definition is_some {A : Type} (o : option A) : bool :=
  match o with Some _ => true | None => false end.

(** What holds of the cursor between two iterations of the loop. *)
Definition cursor_ok (st : state) : bool :=
  match current_tool st with
  | None => negb (expect_tool_name_value st)
  | Some t =>
      well_typed t
      && (negb (is_some (current_subsection st))
          || is_dict (get Full_Description t))
  end
  && (negb (Py.truthy_opt (partial_url st))
      || match current_key st with
         | Some k => field_in k URL_FIELDS
         | None => false
         end)
  && (negb (in_screenshots st)
      || match current_key st with
         | Some k => field_eqb k Screenshots
         | None => false
         end)
  && Bool.eqb (in_full_description st)
              (match current_key st with
               | Some k => field_eqb k Full_Description
               | None => false
               end).

(** The states the loop can be in. *)
Inductive reachable : state -> Prop :=
| reach_initial : reachable initial_state
| reach_step : forall st para_text st',
    reachable st -> step st para_text = Ok st' -> reachable st'.

(** A line that is no new-record marker, declares no field and no
    subsection and has neither of the two special prefixes. *)
Definition unrecognized (line : string) : bool :=
  negb (is_new_tool line)
  && negb (is_some (field_decl line))
  && negb (Py.startswith "logo:" (Py.lower line))
  && negb (Py.startswith "screenshots:" (Py.lower line))
  && negb (is_some (subsection_decl line)).

(** The keyword rule for an empty "Category", in the words of the
    specification: "Writing" in either text wins, else "Image", else the
    generic category. *)
Definition category_rule (short_description introduction : string) : string :=
  if Py.contains "Writing" short_description || Py.contains "Writing" introduction
  then "AI Writing Assistant"
  else if Py.contains "Image" short_description || Py.contains "Image" introduction
  then "AI Image Generation Tool"
  else "AI Tool".

(** Two records that agree outside the URL fields and the subsection
    texts: the same scalar fields, the same categories and tags up to
    order. *)
Definition same_items (a b : value) : Prop :=
  match a, b with
  | VList l1, VList l2 => Permutation l1 l2
  | _, _ => a = b
  end.

Definition settled (t1 t2 : tool) : Prop :=
  get Tool_Name t2 = get Tool_Name t1
  /\ get Short_Description t2 = get Short_Description t1
  /\ get Slug t2 = get Slug t1
  /\ get Meta_Title t2 = get Meta_Title t1
  /\ get Meta_Description t2 = get Meta_Description t1
  /\ get Product_Type t2 = get Product_Type t1
  /\ same_items (get Category t1) (get Category t2)
  /\ same_items (get Tags t1) (get Tags t2).

(** Sample inputs. *)
Definition scenario_a : list string :=
  ["Tool Name:"; "Acme"; "Website Link: https://acme.example/a"].

Definition split_url_lines : list string :=
  ["Website Link: https://acme"; ".example/path"].

(** A cursor inside the screenshots list of an open record. *)
Definition widget : tool := set Tool_Name (VStr "Widget") new_tool.
Definition in_list_state : state :=
  mkState [] (Some widget) (Some Screenshots) None false true None false.

(** A record whose screenshot entry is a link around a longer text and
    whose introduction is a link that ends in a link. *)
Definition wrapped_link_lines : list string :=
  ["Tool Name:"; "Acme";
   "Screenshots: [shot](see http://x.example/1.png now)";
   "Full Description:"; "Introduction: [a]([b](c))"].

(** The text under "Introduction", when "Full Description" is the dict. *)
Definition introduction (t : tool) : option string :=
  match get Full_Description t with
  | VDict d => Some (s_introduction d)
  | _ => None
  end.

(** A pending fragment followed by a line that is only a scheme. *)
Definition scheme_only_lines : list string :=
  ["Tool Name:"; "Acme"; "Website Link: www.acme.example"; "https://"].

(** *** Notions about matches and strings *)

(** A pattern without [^]. *)
Fixpoint anchor_free (r : Re.regex) : bool :=
  match r with
  | Re.Bol => false
  | Re.Opt r1 | Re.Group _ r1 => anchor_free r1
  | Re.Seq r1 r2 => anchor_free r1 && anchor_free r2
  | _ => true
  end.

(** [s'] is what remains of [s] after some prefix. *)
Definition suffix (s' s : string) : Prop := exists p, s = p ++ s'.

(** [g] is a piece of [s]. *)
Definition within (g s : string) : Prop := exists p q, s = p ++ g ++ q.

(** Every capture is a piece of the subject. *)
Definition captured_in (s : string) (c : Re.captures) : Prop :=
  forall i g, In (i, g) c -> within g s.

Fixpoint all_chars (q : ascii -> bool) (s : string) : bool :=
  match s with
  | EmptyString => true
  | String a s' => q a && all_chars q s'
  end.

Definition no_emphasis (s : string) : bool :=
  all_chars (fun a => negb (Pat.is_emphasis a)) s.

(** A character that neither pattern of [clean_text] can start at and that
    [strip] keeps. *)
Definition plain (a : ascii) : bool :=
  negb (Pat.is_emphasis a) && negb (Ascii.eqb "[" a) && negb (Py.isspace a).

(** A lower-case letter or the colon. *)
Definition label_char (a : ascii) : bool :=
  let n := Py.code a in ((97 <=? n) && (n <=? 122) || (n =? 58))%N.

Definition has_colon (s : string) : bool :=
  negb (all_chars (fun a => negb (Ascii.eqb a ":")) s).

(** What an iteration that does not raise leaves behind in the branches
    below the marker test: a cursor that is in order and the same output
    collection. *)
Definition kept (st : state) (r : result state) : Prop :=
  match r with
  | Ok st' => cursor_ok st' = true /\ all_tools st' = all_tools st
  | Raise _ => False
  end.

(** A record fit for the output collection. *)
Definition emitted_ok (t : tool) : Prop :=
  well_typed t = true /\ truthy (get Tool_Name t) = true.

(** The cursor at the end of [scenario_a]. *)
Definition scenario_a_cursor : state :=
  mkState [] (Some (set Website_Link (VStr "https://acme.example/a")
                        (set Tool_Name (VStr "Acme") new_tool)))
          (Some Website_Link) None false false None false.

(** A cursor on an open record with a fragment pending. *)
Definition pending_state : state :=
  mkState [] (Some (set Tool_Name (VStr "Acme") new_tool)) (Some Website_Link)
          None false false (Some "www.acme.example") false.

(** An open record with nothing pending. *)
Definition open_state : state :=
  mkState [] (Some (set Tool_Name (VStr "Acme") new_tool)) (Some Tool_Name)
          None false false None false.

(** What lines 242-243 leave under "Full Description". *)
Definition fd_after (g : value) : value :=
  match g with
  | VDict d => VDict (sub_map (fun x => Py.strip (clean_text x)) d)
  | v => v
  end.

(** The values on which the loop of lines 242-243 does not raise: the
    dict, the empty string and the empty list. *)
Definition fd_iterable (g : value) : bool :=
  match g with
  | VDict _ => true
  | VStr s => negb (Py.nonempty s)
  | VList l => match l with [] => true | _ => false end
  end.

(** A record as the parser leaves it, with "Writing" in its description. *)
Definition writing_tool : tool :=
  set Short_Description (VStr "A Writing helper")
      (set Tool_Name (VStr "Quill") new_tool).

(** The rule of lines 246-247, between a record and its processed form. *)
Definition product_type_rule (t t' : tool) : Prop :=
  get Product_Type t'
  = if truthy (get Product_Type t) then get Product_Type t else VStr "AI Tool".

Definition has_product_type (t : tool) : Prop :=
  exists s, get Product_Type t = VStr s /\ s <> "".

(** A list as [dedup] leaves it: no entry twice, no empty entry. *)
Definition tidy (l : list string) : Prop :=
  NoDup l /\ forall x, In x l -> Py.nonempty x = true.

(** *** Notions used by the further properties *)

(** A character that a link target can hold: anything but the closing
    parenthesis and the newline. *)
Definition target_char (a : ascii) : bool :=
  negb (Ascii.eqb ")" a) && Re.dot a.

(** A bare URL: a scheme followed by one or more characters of the class
    of [bare_url]. *)
Definition url_shaped (u : string) : Prop :=
  exists rest,
    (u = "http://" ++ rest \/ u = "https://" ++ rest)
    /\ rest <> "" /\ all_chars Pat.url_char rest = true.

(** [s[n:]] *)
Fixpoint drop_chars (n : nat) (s : string) : string :=
  match n, s with
  | S n', String _ s' => drop_chars n' s'
  | _, _ => s
  end.

(** A character that [clean_text] has no pattern for. *)
Definition unmarked (a : ascii) : bool :=
  negb (Pat.is_emphasis a) && negb (Ascii.eqb "[" a).

(** How one line can change what an open record holds under
    "Full Description": not at all, from a dict to a dict, or to the
    inline value of a line that declares the field. *)
Definition fd_change (line : string) (t t' : tool) : Prop :=
  get Full_Description t' = get Full_Description t
  \/ (is_dict (get Full_Description t) = true
      /\ is_dict (get Full_Description t') = true)
  \/ (exists v, field_decl line = Some (Full_Description, v)
                /\ Py.nonempty v = true
                /\ get Full_Description t' = VStr v).

(** A name, once there, stays. *)
Definition name_kept (t t' : tool) : Prop :=
  truthy (get Tool_Name t) = true -> truthy (get Tool_Name t') = true.

(** What a line below the marker test does to an open record [t]. *)
Definition carried (line : string) (st : state) (t : tool) (r : result state) : Prop :=
  match r with
  | Ok st' =>
      exists t', current_tool st' = Some t' /\ fd_change line t t'
                 /\ name_kept t t'
                 /\ expect_tool_name_value st' = expect_tool_name_value st
  | Raise _ => True
  end.

(** The name is awaited only on a record that is still fresh. *)
Definition fresh_ok (st : state) : Prop :=
  expect_tool_name_value st = true -> current_tool st = Some new_tool.

(** A paragraph that is a new-record marker. *)
Definition is_marker (para_text : string) : bool :=
  is_new_tool (Py.strip para_text).

(** The records in the collection plus the open one. *)
Definition weight (st : state) : nat :=
  List.length (all_tools st) + (if is_some (current_tool st) then 1 else 0).

(** A cursor with one record collected and a second one open. *)
Definition second_record_state : state :=
  mkState [set Tool_Name (VStr "Acme") new_tool]
          (Some (set Tool_Name (VStr "Bolt") new_tool)) (Some Tool_Name)
          None false false None false.

(** A paragraph that declares "Full Description" with an inline value. *)
Definition inline_full_description (para_text : string) : bool :=
  match field_decl (Py.strip para_text) with
  | Some (Full_Description, v) => Py.nonempty v
  | _ => false
  end.

(** Every record of the state holds the dict under "Full Description". *)
Definition fd_dicts (st : state) : Prop :=
  Forall (fun t => is_dict (get Full_Description t) = true) (all_tools st)
  /\ (forall t, current_tool st = Some t ->
      is_dict (get Full_Description t) = true).

(** A named record that holds a non-empty string under
    "Full Description". *)
Definition bad (t : tool) : Prop :=
  truthy (get Tool_Name t) = true
  /\ exists v, get Full_Description t = VStr v /\ Py.nonempty v = true.

(** A state with a [bad] record, emitted or open. *)
Definition doomed (st : state) : Prop :=
  (exists t, In t (all_tools st) /\ bad t)
  \/ (exists t, current_tool st = Some t /\ bad t).

(** The keys that post-processing does not write. *)
Definition untouched (t t' : tool) : Prop :=
  get Tool_Name t' = get Tool_Name t
  /\ get Short_Description t' = get Short_Description t
  /\ get Slug t' = get Slug t
  /\ get Meta_Title t' = get Meta_Title t
  /\ get Meta_Description t' = get Meta_Description t.

(** The list fields of a processed record. *)
Definition lists_tidy (t : tool) : Prop :=
  (exists lc, get Category t = VList lc /\ tidy lc /\ lc <> [])
  /\ (exists lt, get Tags t = VList lt /\ tidy lt)
  /\ (exists ls, get Screenshots t = VList ls
                 /\ forall x, In x ls -> Py.nonempty x = true).

(** "Full Description" as the loop can leave it: the dict, or a non-empty
    string. *)
Definition fd_good (t : tool) : Prop :=
  is_dict (get Full_Description t) = true
  \/ exists v, get Full_Description t = VStr v /\ Py.nonempty v = true.

Definition fd_goods (st : state) : Prop :=
  Forall fd_good (all_tools st)
  /\ (forall t, current_tool st = Some t -> fd_good t).

(** A record of the final output. *)
Definition output_ok (t : tool) : Prop :=
  well_typed t = true
  /\ named t /\ has_product_type t
  /\ is_dict (get Full_Description t) = true
  /\ lists_tidy t.

(** The cursor [st] with the records [pre] put before its collection. *)
Definition prepend (pre : list tool) (st : state) : state :=
  mkState (pre ++ all_tools st)%list (current_tool st) (current_key st)
          (current_subsection st) (in_full_description st) (in_screenshots st)
          (partial_url st) (expect_tool_name_value st).

Definition map_result {A B : Type} (f : A -> B) (r : result A) : result B :=
  match r with
  | Ok x => Ok (f x)
  | Raise e => Raise e
  end.

(** A character that can stand in a label: any but the colon and the
    newline. *)
Definition label_part (a : ascii) : bool := Re.dot a && negb (Ascii.eqb ":" a).

(** The label of the text before the first colon: what follows the three
    heading marks and their blanks when the text starts with them, else the
    text itself. *)
Definition label_text (g : string) : string :=
  if Py.startswith "###" g then Py.lstrip (drop_chars 3 g) else g.

(** The part of the label pattern after its optional heading marks, and
    the part of that after the colon. *)
Definition value_re : Re.regex :=
  Re.Seq (Re.Star Re.space)
         (Re.Seq (Re.Opt (Re.Group 3 (Re.Star Re.dot))) (Re.Seq Re.Eol Re.Eps)).

Definition label_re : Re.regex :=
  Re.Seq (Re.Group 2 (Re.StarLazy Re.dot))
         (Re.Seq (Re.Star Re.space) (Re.Seq (Re.chr ":") value_re)).

(** The field that a label names, letter case ignored (line 121). *)
Definition field_named (label : string) : option field :=
  find (fun f => String.eqb (Py.lower (field_name f)) (Py.lower label)) FIELDS.

(** A letter of either case or the blank: the characters of the field
    names. *)
Definition name_char (a : ascii) : bool :=
  let n := Py.code (Py.lower_char a) in
  ((97 <=? n) && (n <=? 122) || (n =? 32))%N.

(** What may stand before the label of a field line: nothing, or the three
    heading marks and blanks. *)
Definition heading_marks (h : string) : bool :=
  match h with
  | "" => true
  | _ => Py.startswith "###" h
         && all_chars (fun a => Re.space a && Re.dot a) (drop_chars 3 h)
  end.

(** A paragraph with a line break in it, as a soft return in the document
    gives. *)
Definition logo_two_lines : string :=
  "Logo: see" ++ String "010" "https://x.example/logo.png".

(** Two characters with which no marker starts: the first is no heading
    mark, and the two are not the first letters of "Tool Name". *)
Definition not_header_start (a b : ascii) : bool :=
  negb (Ascii.eqb (Py.lower_char a) "#")
  && negb (Ascii.eqb (Py.lower_char a) "t" && Ascii.eqb (Py.lower_char b) "o").

(** The header of a record, as a test on the cleaned line: after the three
    heading marks and their blanks, if there are any, the words "tool name"
    in any letter case, blanks, and a colon that ends the line. *)
Definition header_shape (s : string) : bool :=
  let s1 := label_text s in
  Py.startswith "tool name" (Py.lower s1)
  && String.eqb (Py.lstrip (drop_chars 9 s1)) ":".

(** The header pattern after its optional heading marks. *)
Definition name_re : Re.regex :=
  Re.seq [Re.lit_i "Tool Name"; Re.Star Re.space; Re.chr_i ":"; Re.Eol].

(** A URL text that a second re-extraction leaves as the first one made
    it. *)
Definition url_settled (u : string) : Prop :=
  resolve_url (resolve_url u) = resolve_url u.

(** The same for a value under a URL key. *)
Definition link_settled (v : value) : Prop :=
  resolve_urls (resolve_urls v) = resolve_urls v.

(** A record whose "Website Link" and "Logo" settle in one pass. *)
Definition links_ok (t : tool) : Prop :=
  link_settled (get Website_Link t) /\ link_settled (get Logo t).

(** The cursor holds only such records, and a pending fragment settles in
    one pass too. *)
Definition links_inv (st : state) : Prop :=
  Forall links_ok (all_tools st)
  /\ (forall t, current_tool st = Some t -> links_ok t)
  /\ (forall p, partial_url st = Some p -> url_settled p).

(** What a line leaves behind, when it does not raise. *)
Definition links_res (r : result state) : Prop :=
  match r with
  | Ok st' => links_inv st'
  | Raise _ => True
  end.

(** Two records with the same "Website Link" and "Logo". *)
Definition links_kept (t1 t2 : tool) : Prop :=
  get Website_Link t2 = get Website_Link t1 /\ get Logo t2 = get Logo t1.

(** A record with links in its URL fields. *)
Definition linked_site_lines : list string :=
  ["Tool Name:"; "Acme";
   "Website Link: [home](see https://acme.example now)";
   "Screenshots: [shot](see http://x.example/1.png now)"].

Definition linked_site_raw : list tool :=
  match parse linked_site_lines with Ok ts => ts | Raise _ => [] end.

Definition linked_site_once : list tool :=
  match post_process distinct linked_site_raw with Ok ts => ts | Raise _ => [] end.

(** A record that no document gives: the parser stores under "Website
    Link" what [extract_url] returns, never the link itself. *)
Definition unparsed_link_record : tool :=
  set Website_Link (VStr "[home](see https://acme.example now)")
      (set Tool_Name (VStr "Acme") new_tool).

(* ================================================================== *)
(** * Properties *)

(** ** Records as dicts *)

Lemma get_set_same : forall f v t, get f (set f v t) = v.
Proof. intros f v [] ; destruct f; reflexivity. Qed.

Lemma get_set_other : forall f g v t, f <> g -> get g (set f v t) = get g t.
Proof. intros f g v [] Hfg; destruct f, g; try reflexivity; congruence. Qed.

Lemma k_none_set : forall f v t, k_none (set f v t) = k_none t.
Proof. intros f v []; destruct f; reflexivity. Qed.

Lemma field_eqb_eq : forall a b, field_eqb a b = true <-> a = b.
Proof. intros a b; split; [destruct a, b; simpl; congruence | intros ->; destruct b; reflexivity]. Qed.

Lemma field_eqb_refl : forall a, field_eqb a a = true.
Proof. destruct a; reflexivity. Qed.

Lemma field_eq_dec : forall a b : field, {a = b} + {a <> b}.
Proof. decide equality. Qed.

Lemma well_typed_fits : forall t f, well_typed t = true -> fits f (get f t) = true.
Proof.
  intros t f H. unfold well_typed in H.
  repeat (apply andb_prop in H; destruct H as [H ?]).
  destruct f; simpl; assumption.
Qed.

Lemma well_typed_intro : forall t,
  (forall f, fits f (get f t) = true) -> k_none t = None -> well_typed t = true.
Proof.
  intros t H Hn. unfold well_typed.
  pose proof (H Tool_Name). pose proof (H Website_Link). pose proof (H Logo).
  pose proof (H Screenshots). pose proof (H Short_Description).
  pose proof (H Full_Description). pose proof (H Slug). pose proof (H Meta_Title).
  pose proof (H Meta_Description). pose proof (H Category).
  pose proof (H Product_Type). pose proof (H Tags). simpl in *.
  rewrite Hn. repeat (apply andb_true_intro; split); auto.
Qed.

Lemma well_typed_none : forall t, well_typed t = true -> k_none t = None.
Proof.
  intros t H. unfold well_typed in H. apply andb_prop in H. destruct H as [_ H].
  destruct (k_none t); [discriminate | reflexivity].
Qed.

Lemma well_typed_set : forall t f v,
  well_typed t = true -> fits f v = true -> well_typed (set f v t) = true.
Proof.
  intros t f v Ht Hv. apply well_typed_intro.
  - intro g. destruct (field_eq_dec f g) as [<- | Hne].
    + rewrite get_set_same. exact Hv.
    + rewrite get_set_other by exact Hne. apply well_typed_fits, Ht.
  - rewrite k_none_set. apply well_typed_none, Ht.
Qed.

Lemma well_typed_new : well_typed new_tool = true.
Proof. reflexivity. Qed.

(** ** The matcher *)

Import Re.

Lemma star_greedy_ext : forall (R : Type) p s (k k' : string -> option R),
  (forall s', k s' = k' s') -> star_greedy p s k = star_greedy p s k'.
Proof.
  intros R p s k k' Hk. induction s as [|a s IH]; simpl.
  - apply Hk.
  - rewrite IH, Hk. reflexivity.
Qed.

Lemma star_lazy_ext : forall (R : Type) p s (k k' : string -> option R),
  (forall s', k s' = k' s') -> star_lazy p s k = star_lazy p s k'.
Proof.
  intros R p s k k' Hk. induction s as [|a s IH]; simpl.
  - rewrite Hk. reflexivity.
  - rewrite IH, Hk. reflexivity.
Qed.

Lemma run_anchor_free : forall (R : Type) r n n' s c (k k' : string -> captures -> option R),
  anchor_free r = true -> (forall s' c', k s' c' = k' s' c') ->
  run r n s c k = run r n' s c k'.
Proof.
  intros R r n n'. induction r; intros s c k k' Hr Hk; simpl in *.
  - apply Hk.
  - destruct s as [|a s]; [reflexivity|]. destruct (p a); [apply Hk | reflexivity].
  - apply star_greedy_ext. intro; apply Hk.
  - apply star_lazy_ext. intro; apply Hk.
  - destruct s as [|a s]; [reflexivity|]. destruct (p a); [|reflexivity].
    apply star_greedy_ext. intro; apply Hk.
  - rewrite (IHr s c k k' Hr Hk), Hk. reflexivity.
  - apply andb_prop in Hr. destruct Hr as [H1 H2].
    apply IHr1; [exact H1|]. intros s' c'. apply IHr2; assumption.
  - apply IHr; [exact Hr|]. intros s' c'. apply Hk.
  - discriminate.
  - destruct s as [|a [|b s]]; [apply Hk| |reflexivity].
    destruct (Ascii.eqb a "010"); [apply Hk | reflexivity].
Qed.

Lemma match_at_anchor_free : forall r n n' s,
  anchor_free r = true -> match_at r n s = match_at r n' s.
Proof. intros. unfold match_at. apply run_anchor_free; auto. Qed.

Lemma search_from_anchor_free : forall r n n' s,
  anchor_free r = true -> search_from r n s = search_from r n' s.
Proof.
  intros r n n' s Hr. induction s as [|a s IH]; simpl;
    rewrite (match_at_anchor_free r n n' _ Hr); [reflexivity|].
  rewrite IH. reflexivity.
Qed.

(** A character at which the pattern cannot start is copied by [re.sub]. *)
Lemma sub_loop_skip : forall r repl fuel a s,
  anchor_free r = true ->
  (forall n, match_at r n (String a s) = None) ->
  (forall m, repl (shift a m) = repl m) ->
  sub_loop (S fuel) r repl (String a s) = String a (sub_loop (S fuel) r repl s).
Proof.
  intros r repl fuel a s Hr Hno Hrepl.
  cbn [sub_loop]. unfold re_search. cbn [search_from].
  rewrite Hno.
  rewrite (search_from_anchor_free r _ (String.length s) s Hr).
  destruct (search_from r (String.length s) s) as [m|]; simpl.
  - rewrite Hrepl. reflexivity.
  - reflexivity.
Qed.


(** *** Substrings *)

Lemma length_app : forall p q, String.length (p ++ q) = String.length p + String.length q.
Proof. induction p as [|a p IH]; intro q; simpl; [reflexivity | rewrite IH; reflexivity]. Qed.

Lemma app_empty_r : forall p, p ++ "" = p.
Proof. induction p as [|a p IH]; simpl; [reflexivity | rewrite IH; reflexivity]. Qed.

Lemma app_assoc : forall p q r : string, (p ++ q) ++ r = p ++ (q ++ r).
Proof. induction p as [|a p IH]; intros; simpl; [reflexivity | rewrite IH; reflexivity]. Qed.

Lemma substring_prefix : forall p q, substring 0 (String.length p) (p ++ q) = p.
Proof.
  induction p as [|a p IH]; intro q; simpl.
  - destruct q; reflexivity.
  - rewrite IH. reflexivity.
Qed.

Lemma consumed_app : forall p s', consumed (p ++ s') s' = p.
Proof.
  intros p s'. unfold consumed. rewrite length_app.
  replace (String.length p + String.length s' - String.length s') with (String.length p) by lia.
  apply substring_prefix.
Qed.

Lemma suffix_refl : forall s, suffix s s.
Proof. intro s; exists ""; reflexivity. Qed.

Lemma suffix_trans : forall a b c, suffix a b -> suffix b c -> suffix a c.
Proof.
  intros a b c [p ->] [q ->]. exists (q ++ p). symmetry; apply app_assoc.
Qed.

Lemma suffix_cons : forall a s' s, suffix s' s -> suffix s' (String a s).
Proof. intros a s' s [p ->]. exists (String a p). reflexivity. Qed.

Lemma suffix_length : forall s' s, suffix s' s -> String.length s' <= String.length s.
Proof. intros s' s [p ->]. rewrite length_app. lia. Qed.

Lemma within_suffix : forall g s' s, within g s' -> suffix s' s -> within g s.
Proof.
  intros g s' s [p [q ->]] [p' ->]. exists (p' ++ p), q. symmetry; apply app_assoc.
Qed.

Lemma star_greedy_suffix : forall (R : Type) p s (k : string -> option R) x,
  star_greedy p s k = Some x -> exists s', k s' = Some x /\ suffix s' s.
Proof.
  intros R p s k x. induction s as [|a s IH]; simpl; intro H.
  - exists ""; split; [exact H | apply suffix_refl].
  - destruct (p a).
    + destruct (star_greedy p s k) as [y|] eqn:E.
      * inversion H; subst y. destruct (IH eq_refl) as [s' [Hk Hs]].
        exists s'; split; [exact Hk | apply suffix_cons, Hs].
      * exists (String a s); split; [exact H | apply suffix_refl].
    + exists (String a s); split; [exact H | apply suffix_refl].
Qed.

Lemma star_lazy_suffix : forall (R : Type) p s (k : string -> option R) x,
  star_lazy p s k = Some x -> exists s', k s' = Some x /\ suffix s' s.
Proof.
  intros R p s k x. induction s as [|a s IH]; simpl; intro H.
  - destruct (k "") eqn:E; [|discriminate].
    exists ""; split; [congruence | apply suffix_refl].
  - destruct (k (String a s)) eqn:E.
    + exists (String a s); split; [congruence | apply suffix_refl].
    + destruct (p a); [|discriminate].
      destruct (IH H) as [s' [Hk Hs]].
      exists s'; split; [exact Hk | apply suffix_cons, Hs].
Qed.

Lemma run_suffix : forall (R : Type) r n s0 s c (k : string -> captures -> option R) x,
  suffix s s0 -> captured_in s0 c ->
  run r n s c k = Some x ->
  exists s' c', k s' c' = Some x /\ suffix s' s /\ captured_in s0 c'.
Proof.
  intros R r n s0. induction r; intros s c k x Hs Hc H; simpl in H.
  - exists s, c; auto using suffix_refl.
  - destruct s as [|a s]; [discriminate|]. destruct (p a); [|discriminate].
    exists s, c; repeat split; auto. apply suffix_cons, suffix_refl.
  - apply star_greedy_suffix in H. destruct H as [s' [Hk Hs']].
    exists s', c; auto.
  - apply star_lazy_suffix in H. destruct H as [s' [Hk Hs']].
    exists s', c; auto.
  - destruct s as [|a s]; [discriminate|]. destruct (p a); [|discriminate].
    apply star_greedy_suffix in H. destruct H as [s' [Hk Hs']].
    exists s', c; repeat split; auto. apply suffix_cons, Hs'.
  - destruct (run r n s c k) as [y|] eqn:E.
    + inversion H; subst y. apply (IHr s c k x Hs Hc E).
    + exists s, c; auto using suffix_refl.
  - apply (IHr1 s c _ x Hs Hc) in H. destruct H as [s1 [c1 [H [Hs1 Hc1]]]].
    apply (IHr2 s1 c1 k x) in H; auto.
    + destruct H as [s2 [c2 [H [Hs2 Hc2]]]].
      exists s2, c2; repeat split; auto. eapply suffix_trans; eauto.
    + eapply suffix_trans; eauto.
  - apply (IHr s c _ x Hs Hc) in H. destruct H as [s1 [c1 [H [Hs1 Hc1]]]].
    eexists s1, _; split; [exact H|]. split; [exact Hs1|].
    intros i g [Hin | Hin].
    + inversion Hin; subst. destruct Hs1 as [p ->]. rewrite consumed_app.
      apply within_suffix with (s' := p ++ s1); [|exact Hs].
      exists "", s1. reflexivity.
    + apply (Hc1 i g Hin).
  - destruct (String.length s =? n)%nat; [|discriminate]. exists s, c; auto using suffix_refl.
  - destruct s as [|a [|b s]]; [exists "", c; auto using suffix_refl| |discriminate].
    destruct (Ascii.eqb a "010"); [|discriminate].
    eexists _, c; eauto using suffix_refl.
Qed.

(** What a match at a position is made of. *)
Lemma match_at_parts : forall r n s m,
  match_at r n s = Some m ->
  m_before m = "" /\ s = m_text m ++ m_after m /\ captured_in s (m_groups m).
Proof.
  intros r n s m H. unfold match_at in H.
  apply (run_suffix _ r n s) in H; [|apply suffix_refl|intros i g []].
  destruct H as [s' [c' [H [[p ->] Hc]]]]. inversion H; subst m; simpl.
  rewrite consumed_app. auto.
Qed.

Lemma captured_in_cons : forall a s c, captured_in s c -> captured_in (String a s) c.
Proof.
  intros a s c H i g Hin. destruct (H i g Hin) as [p [q ->]].
  exists (String a p), q. reflexivity.
Qed.

(** What a match found by a search is made of. *)
Lemma search_from_parts : forall r n s m,
  search_from r n s = Some m ->
  s = m_before m ++ m_text m ++ m_after m /\ captured_in s (m_groups m).
Proof.
  intros r n s. induction s as [|a s IH]; intros m H; simpl in H.
  - destruct (match_at r n "") as [m'|] eqn:E; [|discriminate].
    inversion H; subst m'. apply match_at_parts in E. destruct E as [-> [E Hc]]. auto.
  - destruct (match_at r n (String a s)) as [m'|] eqn:E.
    + inversion H; subst m'. apply match_at_parts in E. destruct E as [-> [E Hc]]. auto.
    + destruct (search_from r n s) as [m'|]; [|discriminate].
      inversion H; subst m; simpl. destruct (IH m' eq_refl) as [Hs Hc].
      split; [f_equal; exact Hs | apply captured_in_cons, Hc].
Qed.

Lemma all_chars_app : forall q p s,
  all_chars q (p ++ s) = all_chars q p && all_chars q s.
Proof.
  intros q p s. induction p as [|a p IH]; simpl; [reflexivity|].
  rewrite IH. apply andb_assoc.
Qed.

Lemma all_chars_within : forall q g s, within g s -> all_chars q s = true -> all_chars q g = true.
Proof.
  intros q g s [p [r ->]] H. rewrite !all_chars_app in H.
  apply andb_prop in H. destruct H as [_ H]. apply andb_prop in H. tauto.
Qed.

(** *** Searching for a run of characters *)

Lemma star_greedy_total : forall (R : Type) p s (k : string -> option R),
  (forall s', k s' <> None) -> star_greedy p s k <> None.
Proof.
  intros R p s k Hk. induction s as [|a s IH]; simpl; [apply Hk|].
  destruct (p a); [|apply Hk].
  destruct (star_greedy p s k); [discriminate | apply Hk].
Qed.

Lemma match_at_plus : forall p n a s,
  match_at (Plus p) n (String a s) = None <-> p a = false.
Proof.
  intros p n a s. unfold match_at. simpl. destruct (p a); split; try congruence.
  intro H. exfalso. revert H. apply star_greedy_total. discriminate.
Qed.

Lemma match_at_plus_empty : forall p n, match_at (Plus p) n "" = None.
Proof. reflexivity. Qed.

Lemma search_plus_none : forall p n s,
  search_from (Plus p) n s = None <-> all_chars (fun a => negb (p a)) s = true.
Proof.
  intros p n s. induction s as [|a s IH]; simpl.
  - tauto.
  - destruct (match_at (Plus p) n (String a s)) eqn:E.
    + split; [discriminate|]. intro H. apply andb_prop in H. destruct H as [H _].
      assert (p a = false) by (destruct (p a); [discriminate | reflexivity]).
      apply (match_at_plus p n a s) in H0. congruence.
    + apply match_at_plus in E. rewrite E. simpl. rewrite <- IH.
      destruct (search_from (Plus p) n s); simpl; split; congruence.
Qed.

Lemma search_plus_before : forall p n s m,
  search_from (Plus p) n s = Some m ->
  all_chars (fun a => negb (p a)) (m_before m) = true.
Proof.
  intros p n s. induction s as [|a s IH]; intros m H; simpl in H.
  - discriminate.
  - destruct (match_at (Plus p) n (String a s)) eqn:E.
    + inversion H; subst. apply match_at_parts in E. destruct E as [-> _]. reflexivity.
    + apply match_at_plus in E.
      destruct (search_from (Plus p) n s) as [m'|]; [|discriminate].
      inversion H; subst m; simpl. rewrite E, (IH m' eq_refl). reflexivity.
Qed.

(** A pattern that starts with a character consumes at least one. *)
Lemma match_at_atom_first : forall p r n s m,
  match_at (Seq (Atom p) r) n s = Some m ->
  String.length (m_after m) < String.length s.
Proof.
  intros p r n s m H. unfold match_at in H. simpl in H.
  destruct s as [|a s]; [discriminate|]. destruct (p a); [|discriminate].
  apply (run_suffix _ r n s) in H; [|apply suffix_refl|intros i g []].
  destruct H as [s' [c' [H [Hs _]]]]. inversion H; subst m; simpl.
  apply suffix_length in Hs. lia.
Qed.

Lemma match_at_plus_shorter : forall p n s m,
  match_at (Plus p) n s = Some m ->
  String.length (m_after m) < String.length s.
Proof.
  intros p n s m H. unfold match_at in H. simpl in H.
  destruct s as [|a s]; [discriminate|]. destruct (p a); [|discriminate].
  apply star_greedy_suffix in H. destruct H as [s' [H Hs]]. inversion H; subst m; simpl.
  apply suffix_length in Hs. lia.
Qed.

Lemma search_from_shorter : forall r n s m,
  (forall s' m', match_at r n s' = Some m' -> String.length (m_after m') < String.length s') ->
  search_from r n s = Some m ->
  String.length (m_after m) < String.length s.
Proof.
  intros r n s m Hr. revert m. induction s as [|a s IH]; intros m H; simpl in H.
  - destruct (match_at r n "") eqn:E; [|discriminate]. inversion H; subst.
    apply Hr in E. exact E.
  - destruct (match_at r n (String a s)) eqn:E.
    + inversion H; subst. apply Hr in E. exact E.
    + destruct (search_from r n s) as [m'|]; [|discriminate].
      inversion H; subst m; simpl. specialize (IH m' eq_refl). lia.
Qed.

(** *** [re.sub] keeps the characters of its subject *)

Lemma sub_loop_chars : forall q r repl,
  (forall s m, all_chars q s = true -> captured_in s (m_groups m) ->
               all_chars q (repl m) = true) ->
  forall fuel s, all_chars q s = true -> all_chars q (sub_loop fuel r repl s) = true.
Proof.
  intros q r repl Hrepl. induction fuel as [|fuel IH]; intros s Hs; simpl; [exact Hs|].
  unfold re_search. destruct (search_from r (String.length s) s) as [m|] eqn:E; [|exact Hs].
  apply search_from_parts in E. destruct E as [E Hc].
  pose proof Hs as Hs'. rewrite E in Hs'. rewrite !all_chars_app in Hs'.
  apply andb_prop in Hs'. destruct Hs' as [H1 H2]. apply andb_prop in H2. destruct H2 as [H2 H3].
  rewrite !all_chars_app, H1, (Hrepl s m Hs Hc), (IH _ H3). reflexivity.
Qed.

Lemma sub_loop_no_match : forall fuel r repl s,
  re_search r s = None -> sub_loop fuel r repl s = s.
Proof. intros [|fuel] r repl s H; simpl; [|rewrite H]; reflexivity. Qed.

(** Deleting every run of [p]-characters leaves none. *)
Lemma sub_plus_clean : forall p fuel s,
  String.length s <= fuel ->
  all_chars (fun a => negb (p a)) (sub_loop fuel (Plus p) (fun _ => "") s) = true.
Proof.
  intros p. induction fuel as [|fuel IH]; intros s Hlen; simpl.
  - destruct s; [reflexivity | simpl in Hlen; lia].
  - unfold re_search. destruct (search_from (Plus p) (String.length s) s) as [m|] eqn:E.
    + rewrite all_chars_app. rewrite (search_plus_before _ _ _ _ E). simpl.
      apply IH. apply search_from_shorter in E; [lia|].
      intros; eapply match_at_plus_shorter; eauto.
    + apply search_plus_none in E. exact E.
Qed.

(** *** [strip] *)

Lemma all_chars_lstrip : forall q s, all_chars q s = true -> all_chars q (Py.lstrip s) = true.
Proof.
  intros q s. induction s as [|a s IH]; simpl; [auto|].
  intro H. destruct (Py.isspace a); [|exact H].
  apply andb_prop in H. apply IH. tauto.
Qed.

Lemma all_chars_rstrip : forall q s, all_chars q s = true -> all_chars q (Py.rstrip s) = true.
Proof.
  intros q s. induction s as [|a s IH]; simpl; [auto|].
  intro H. apply andb_prop in H. destruct H as [Ha Hs]. specialize (IH Hs).
  destruct (Py.rstrip s).
  - destruct (Py.isspace a); simpl; [reflexivity | rewrite Ha; reflexivity].
  - cbn [all_chars]. rewrite Ha. exact IH.
Qed.

Lemma all_chars_strip : forall q s, all_chars q s = true -> all_chars q (Py.strip s) = true.
Proof. intros. apply all_chars_rstrip, all_chars_lstrip. assumption. Qed.

Lemma rstrip_idem : forall s, Py.rstrip (Py.rstrip s) = Py.rstrip s.
Proof.
  induction s as [|a s IH]; simpl; [reflexivity|].
  destruct (Py.rstrip s) as [|b r] eqn:E.
  - destruct (Py.isspace a) eqn:Ea; simpl; [reflexivity | rewrite Ea; reflexivity].
  - cbn [Py.rstrip]. cbn [Py.rstrip] in IH. rewrite IH. reflexivity.
Qed.

Lemma rstrip_head : forall a s,
  Py.isspace a = false -> exists r, Py.rstrip (String a s) = String a r.
Proof.
  intros a s Ha. simpl. destruct (Py.rstrip s); [rewrite Ha|]; eauto.
Qed.

Lemma lstrip_head : forall s,
  Py.lstrip s = "" \/ exists a r, Py.lstrip s = String a r /\ Py.isspace a = false.
Proof.
  induction s as [|a s IH]; simpl; [auto|].
  destruct (Py.isspace a) eqn:Ea; [exact IH | right; eauto].
Qed.

Lemma lstrip_nonspace : forall a s, Py.isspace a = false -> Py.lstrip (String a s) = String a s.
Proof. intros a s Ha. simpl. rewrite Ha. reflexivity. Qed.

Lemma strip_idem : forall s, Py.strip (Py.strip s) = Py.strip s.
Proof.
  intro s. unfold Py.strip.
  destruct (lstrip_head s) as [E | [a [r [E Ha]]]]; rewrite E.
  - reflexivity.
  - destruct (rstrip_head a r Ha) as [r' E']. rewrite E'.
    rewrite (lstrip_nonspace a r' Ha). rewrite <- E'. apply rstrip_idem.
Qed.

(** *** [clean_text] *)

Lemma group1_chars : forall q s m,
  all_chars q s = true -> captured_in s (m_groups m) -> all_chars q (group1 m) = true.
Proof.
  intros q s m Hs Hc. unfold group1.
  destruct (group 1 (m_groups m)) as [g|] eqn:E; [|reflexivity].
  assert (Hin : In (1, g) (m_groups m)).
  { clear Hc. induction (m_groups m) as [|[i g'] c IH]; simpl in E; [discriminate|].
    destruct (Nat.eqb i 1) eqn:Ei.
    - apply Nat.eqb_eq in Ei. inversion E; subst. left; reflexivity.
    - right. apply IH, E. }
  eapply all_chars_within; [apply (Hc 1 g Hin) | exact Hs].
Qed.

Lemma clean_text_no_emphasis : forall s, no_emphasis (clean_text s) = true.
Proof.
  intro s. unfold clean_text, no_emphasis.
  apply all_chars_strip. unfold re_sub at 1.
  apply sub_loop_chars.
  - intros; eapply group1_chars; eauto.
  - apply (sub_plus_clean Pat.is_emphasis). apply Nat.le_refl.
Qed.

Lemma remove_emphasis_id : forall s,
  no_emphasis s = true -> re_sub Pat.emphasis (fun _ => "") s = s.
Proof.
  intros s H. unfold re_sub. apply sub_loop_no_match.
  unfold re_search. apply search_plus_none. exact H.
Qed.

(** A normalised text without link pattern is a fixed point. *)
Lemma clean_text_fixed : forall s,
  re_search Pat.markdown_link (clean_text s) = None ->
  clean_text (clean_text s) = clean_text s.
Proof.
  intros s H. unfold clean_text at 1.
  rewrite remove_emphasis_id by apply clean_text_no_emphasis.
  unfold re_sub. rewrite sub_loop_no_match by exact H.
  unfold clean_text. apply strip_idem.
Qed.

Lemma search_from_match : forall r n s m,
  search_from r n s = Some m ->
  exists s' m', match_at r n s' = Some m' /\ m_text m = m_text m'
                /\ m_after m = m_after m' /\ m_groups m = m_groups m'.
Proof.
  intros r n s. induction s as [|a s IH]; intros m H; simpl in H.
  - destruct (match_at r n "") eqn:E; [|discriminate]. inversion H; subst. eauto 6.
  - destruct (match_at r n (String a s)) eqn:E.
    + inversion H; subst. eauto 6.
    + destruct (search_from r n s) as [m1|]; [|discriminate].
      inversion H; subst m; simpl. apply (IH m1 eq_refl).
Qed.

(** The target of a link is at least four characters shorter than the
    link: the two brackets and the two parentheses. *)
Lemma link_target_shorter : forall n s m,
  match_at Pat.markdown_link n s = Some m ->
  String.length (group1 m) + 4 <= String.length (m_text m).
Proof.
  intros n s m H. unfold match_at, Pat.markdown_link in H.
  cbn -[Ascii.eqb consumed] in H.
  destruct s as [|a s1]; [discriminate|].
  destruct (Ascii.eqb "[" a); [|discriminate].
  apply star_lazy_suffix in H. destruct H as [s' [H Hq]]. destruct Hq as [q ->].
  destruct s' as [|b [|c s3]]; try discriminate.
  - destruct (Ascii.eqb "]" b); discriminate.
  - destruct (Ascii.eqb "]" b); [|discriminate].
    destruct (Ascii.eqb "(" c); [|discriminate].
    apply star_lazy_suffix in H. destruct H as [s'' [H Hp]]. destruct Hp as [p ->].
    destruct s'' as [|d s4]; [discriminate|].
    destruct (Ascii.eqb ")" d); [|discriminate].
    inversion H; subst m; clear H. unfold group1; cbn -[consumed].
    rewrite consumed_app.
    change (String a (q ++ String b (String c (p ++ String d s4))))
      with (String a (q ++ String b (String c (p ++ String d s4)))).
    replace (String a (q ++ String b (String c (p ++ String d s4))))
      with ((String a (q ++ String b (String c (p ++ String d "")))) ++ s4).
    + rewrite consumed_app. simpl. rewrite length_app. simpl. rewrite length_app. simpl. lia.
    + simpl. f_equal. rewrite app_assoc. simpl. do 3 f_equal. rewrite app_assoc. reflexivity.
Qed.

Lemma lstrip_length : forall s, String.length (Py.lstrip s) <= String.length s.
Proof.
  induction s as [|a s IH]; simpl; [lia|]. destruct (Py.isspace a); simpl; lia.
Qed.

Lemma rstrip_length : forall s, String.length (Py.rstrip s) <= String.length s.
Proof.
  induction s as [|a s IH]; simpl; [lia|].
  destruct (Py.rstrip s); [destruct (Py.isspace a)|]; simpl in *; lia.
Qed.

Lemma strip_length : forall s, String.length (Py.strip s) <= String.length s.
Proof.
  intro s. unfold Py.strip. pose proof (rstrip_length (Py.lstrip s)).
  pose proof (lstrip_length s). lia.
Qed.

Lemma sub_link_length : forall fuel s,
  String.length (sub_loop fuel Pat.markdown_link group1 s) <= String.length s.
Proof.
  induction fuel as [|fuel IH]; intro s; simpl; [lia|].
  unfold re_search. destruct (search_from _ _ s) as [m|] eqn:E; [|lia].
  pose proof (search_from_parts _ _ _ _ E) as [Hs _].
  apply search_from_match in E. destruct E as [s' [m' [E [Ht [Ha Hg]]]]].
  apply link_target_shorter in E.
  assert (Hg1 : group1 m = group1 m') by (unfold group1; rewrite Hg; reflexivity).
  apply (f_equal String.length) in Hs. rewrite !length_app in *.
  specialize (IH (m_after m)). rewrite Hg1, Ht in *. lia.
Qed.

(** A normalised text that still holds a link pattern gets shorter. *)
Lemma clean_text_shrinks : forall s m,
  re_search Pat.markdown_link (clean_text s) = Some m ->
  String.length (clean_text (clean_text s)) < String.length (clean_text s).
Proof.
  intros s m H. unfold clean_text at 1.
  rewrite remove_emphasis_id by apply clean_text_no_emphasis.
  eapply Nat.le_lt_trans; [apply strip_length|].
  unfold re_sub. destruct (String.length (clean_text s)) as [|fuel] eqn:El.
  - destruct (clean_text s); [discriminate H | discriminate El].
  - cbn [sub_loop]. rewrite H. rewrite <- El.
    pose proof (search_from_parts _ _ _ _ H) as [Hs _].
    apply search_from_match in H. destruct H as [s' [m' [E [Ht [Ha Hg]]]]].
    apply link_target_shorter in E.
    assert (Hg1 : group1 m = group1 m') by (unfold group1; rewrite Hg; reflexivity).
    apply (f_equal String.length) in Hs. rewrite !length_app in *.
    pose proof (sub_link_length fuel (m_after m)). rewrite Hg1, Ht in *. lia.
Qed.

Lemma lower_char_label : forall a,
  label_char (Py.lower_char a) = true ->
  plain a = true /\ Ascii.eqb a ":" = Ascii.eqb (Py.lower_char a) ":".
Proof.
  intros [[] [] [] [] [] [] [] []]; vm_compute; intro H; split;
    solve [reflexivity | discriminate H].
Qed.

Lemma startswith_lower : forall p line,
  Py.startswith p (Py.lower line) = true ->
  exists pre r, line = pre ++ r /\ Py.lower pre = p.
Proof.
  induction p as [|b p IH]; intros line H.
  - exists "", line. auto.
  - destruct line as [|a line]; [discriminate|]. simpl in H.
    apply andb_prop in H. destruct H as [Hb H].
    apply Ascii.eqb_eq in Hb. destruct (IH line H) as [pre [r [-> Hp]]].
    exists (String a pre), r. simpl. rewrite Hp, Hb. auto.
Qed.

Lemma lower_label : forall pre,
  all_chars label_char (Py.lower pre) = true ->
  all_chars plain pre = true /\ has_colon pre = has_colon (Py.lower pre).
Proof.
  unfold has_colon. induction pre as [|a pre IH]; simpl; intro H; [auto|].
  apply andb_prop in H. destruct H as [Ha H].
  destruct (lower_char_label a Ha) as [Hp Hc]. destruct (IH H) as [IH1 IH2].
  rewrite Hp, IH1, Hc. split; [reflexivity|].
  destruct (Ascii.eqb (Py.lower_char a) ":"); simpl; [reflexivity|].
  exact IH2.
Qed.

Lemma plain_parts : forall a, plain a = true ->
  Pat.is_emphasis a = false /\ Ascii.eqb "[" a = false /\ Py.isspace a = false.
Proof.
  intros a H. unfold plain in H.
  destruct (Pat.is_emphasis a), (Ascii.eqb "[" a), (Py.isspace a); try discriminate; auto.
Qed.

Lemma match_at_link_start : forall n a s,
  Ascii.eqb "[" a = false -> match_at Pat.markdown_link n (String a s) = None.
Proof.
  intros n a s H. unfold match_at, Pat.markdown_link. cbn -[Ascii.eqb consumed].
  rewrite H. reflexivity.
Qed.

Lemma sub_emphasis_prefix : forall pre fuel r,
  all_chars plain pre = true ->
  sub_loop (S fuel) Pat.emphasis (fun _ => "") (pre ++ r)
  = pre ++ sub_loop (S fuel) Pat.emphasis (fun _ => "") r.
Proof.
  induction pre as [|a pre IH]; intros fuel r H; [reflexivity|].
  simpl in H. apply andb_prop in H. destruct H as [Ha H].
  apply plain_parts in Ha. destruct Ha as [Ha _].
  change (String a pre ++ r) with (String a (pre ++ r)).
  rewrite sub_loop_skip; [rewrite IH by exact H; reflexivity|reflexivity| |reflexivity].
  intro n. apply match_at_plus. exact Ha.
Qed.

Lemma sub_link_prefix : forall pre fuel r,
  all_chars plain pre = true ->
  sub_loop (S fuel) Pat.markdown_link group1 (pre ++ r)
  = pre ++ sub_loop (S fuel) Pat.markdown_link group1 r.
Proof.
  induction pre as [|a pre IH]; intros fuel r H; [reflexivity|].
  simpl in H. apply andb_prop in H. destruct H as [Ha H].
  apply plain_parts in Ha. destruct Ha as [_ [Ha _]].
  change (String a pre ++ r) with (String a (pre ++ r)).
  rewrite sub_loop_skip; [rewrite IH by exact H; reflexivity|reflexivity| |reflexivity].
  intro n. apply match_at_link_start. exact Ha.
Qed.

Lemma app_is_empty : forall p q : string, p ++ q = "" -> p = "" /\ q = "".
Proof. intros [|a p] q H; [auto | discriminate]. Qed.

Lemma rstrip_prefix : forall pre r,
  all_chars plain pre = true -> exists r', Py.rstrip (pre ++ r) = pre ++ r'.
Proof.
  induction pre as [|a pre IH]; intros r H.
  - exists (Py.rstrip r). reflexivity.
  - simpl in H. apply andb_prop in H. destruct H as [Ha H].
    apply plain_parts in Ha. destruct Ha as [_ [_ Ha]].
    destruct (IH r H) as [r' E]. simpl. rewrite E.
    destruct (pre ++ r') eqn:E'.
    + rewrite Ha. apply app_is_empty in E'. destruct E' as [-> ->]. exists "". reflexivity.
    + exists r'. rewrite <- E'. reflexivity.
Qed.

Lemma after_first_prefix : forall pre r,
  has_colon pre = true -> Py.after_first ":" (pre ++ r) <> None.
Proof.
  unfold has_colon. induction pre as [|a pre IH]; intros r H; [discriminate|].
  simpl in *. destruct (Ascii.eqb a ":"); [discriminate|]. apply IH. exact H.
Qed.

(** A label in plain characters survives [clean_text]. *)
Lemma clean_text_prefix : forall pre r,
  pre <> "" -> all_chars plain pre = true ->
  exists r', clean_text (pre ++ r) = pre ++ r'.
Proof.
  intros pre r Hne H. unfold clean_text, re_sub.
  destruct pre as [|a pre]; [congruence|].
  cbn [String.length append]. change (String a (pre ++ r)) with (String a pre ++ r).
  rewrite sub_emphasis_prefix by exact H.
  cbn [String.length append]. change (String a (pre ++ ?x)) with (String a pre ++ x).
  rewrite sub_link_prefix by exact H.
  unfold Py.strip. cbn [append]. rewrite lstrip_nonspace.
  - apply (rstrip_prefix (String a pre)). exact H.
  - simpl in H. apply andb_prop in H. destruct H as [Ha _]. apply plain_parts in Ha. tauto.
Qed.

(** Lines 152 and 166 never raise: the colon of the prefix is still there
    after [clean_text]. *)
Lemma special_prefix_colon : forall p line,
  all_chars label_char p = true -> has_colon p = true ->
  Py.startswith p (Py.lower line) = true ->
  Py.after_first ":" (clean_text line) <> None.
Proof.
  intros p line Hl Hc H. apply startswith_lower in H.
  destruct H as [pre [r [-> Hp]]]. subst p.
  apply lower_label in Hl. destruct Hl as [Hpl Hcol]. rewrite <- Hcol in Hc.
  destruct (clean_text_prefix pre r) as [r' E]; [|exact Hpl|].
  - intros ->. discriminate Hc.
  - rewrite E. apply after_first_prefix. exact Hc.
Qed.

(** ** The cursor *)

Section Cursor.

#[local] Arguments get : simpl never.
#[local] Arguments set : simpl never.
#[local] Arguments well_typed : simpl never.
#[local] Arguments clean_text : simpl never.
#[local] Arguments extract_url : simpl never.
#[local] Arguments field_in : simpl never.
#[local] Arguments comma_items : simpl never.
#[local] Arguments assign_url : simpl never.

Lemma assign_url_typed : forall k u t,
  well_typed t = true -> field_in k URL_FIELDS = true ->
  exists t', assign_url (Some k) u t = Ok t' /\ well_typed t' = true
             /\ get Full_Description t' = get Full_Description t.
Proof.
  intros k u t Ht Hk.
  destruct k; try discriminate Hk; cbv [assign_url set_item].
  - eexists; split; [reflexivity|]. split.
    + apply well_typed_set; auto.
    + apply get_set_other; discriminate.
  - eexists; split; [reflexivity|]. split.
    + apply well_typed_set; auto.
    + apply get_set_other; discriminate.
  - unfold append_to. pose proof (well_typed_fits t Screenshots Ht) as Hf. cbv [fits] in Hf.
    destruct (get Screenshots t); try discriminate Hf.
    eexists; split; [reflexivity|]. split.
    + apply well_typed_set; auto.
    + apply get_set_other; discriminate.
Qed.

Lemma cursor_ok_intro : forall all t k cs fd ss pu ex,
  well_typed t = true ->
  (is_some cs = true -> is_dict (get Full_Description t) = true) ->
  (Py.truthy_opt pu = true -> match k with Some k => field_in k URL_FIELDS | None => false end = true) ->
  (ss = true -> match k with Some k => field_eqb k Screenshots | None => false end = true) ->
  fd = match k with Some k => field_eqb k Full_Description | None => false end ->
  cursor_ok (mkState all (Some t) k cs fd ss pu ex) = true.
Proof.
  intros all t k cs fd ss pu ex Ht Hcs Hpu Hss Hfd. unfold cursor_ok.
  cbn [current_tool current_subsection partial_url current_key
       in_screenshots in_full_description].
  rewrite Ht. subst fd. rewrite eqb_reflx.
  assert (A1 : negb (is_some cs) || is_dict (get Full_Description t) = true)
    by (destruct (is_some cs); simpl; auto).
  assert (A2 : negb (Py.truthy_opt pu)
               || match k with Some k => field_in k URL_FIELDS | None => false end = true)
    by (destruct (Py.truthy_opt pu); simpl; auto).
  assert (A3 : negb ss
               || match k with Some k => field_eqb k Screenshots | None => false end = true)
    by (destruct ss; simpl; auto).
  rewrite A1, A2, A3. reflexivity.
Qed.

Lemma cursor_ok_open : forall st t,
  cursor_ok st = true -> current_tool st = Some t ->
  well_typed t = true
  /\ (is_some (current_subsection st) = true -> is_dict (get Full_Description t) = true)
  /\ (Py.truthy_opt (partial_url st) = true ->
      exists k, current_key st = Some k /\ field_in k URL_FIELDS = true)
  /\ (in_screenshots st = true -> current_key st = Some Screenshots)
  /\ in_full_description st =
     match current_key st with Some k => field_eqb k Full_Description | None => false end.
Proof.
  intros st t H Ht. unfold cursor_ok in H. rewrite Ht in H.
  apply andb_prop in H; destruct H as [H H0].
  apply andb_prop in H; destruct H as [H H1].
  apply andb_prop in H; destruct H as [H H2].
  apply andb_prop in H; destruct H as [H H3].
  split; [exact H|]. split; [|split; [|split]].
  - intro Hs. rewrite Hs in H3. exact H3.
  - intro Hp. rewrite Hp in H2. simpl in H2.
    destruct (current_key st); [eauto | discriminate].
  - intro Hs. rewrite Hs in H1. simpl in H1.
    destruct (current_key st); [|discriminate]. apply field_eqb_eq in H1. congruence.
  - apply eqb_prop. assumption.
Qed.

Lemma cursor_ok_closed : forall st,
  cursor_ok st = true -> current_tool st = None -> expect_tool_name_value st = false.
Proof.
  intros st H Ht. unfold cursor_ok in H. rewrite Ht in H.
  repeat (apply andb_prop in H; destruct H as [H _]).
  destruct (expect_tool_name_value st); [discriminate | reflexivity].
Qed.

Lemma field_in_url : forall k,
  field_in k URL_FIELDS = true -> k = Website_Link \/ k = Logo \/ k = Screenshots.
Proof. destruct k; intro H; try discriminate H; auto. Qed.

Lemma screenshots_is_list : forall t,
  well_typed t = true -> exists l, get Screenshots t = VList l.
Proof.
  intros t Ht. pose proof (well_typed_fits t Screenshots Ht) as H. cbv [fits] in H.
  destruct (get Screenshots t); try discriminate H. eauto.
Qed.

Ltac open_cursor st t Hok Hct :=
  let Ht := fresh "Ht" in let Hcs := fresh "Hcs" in let Hpu := fresh "Hpu" in
  let Hss := fresh "Hss" in let Hfd := fresh "Hfd" in
  destruct (cursor_ok_open st t Hok Hct) as (Ht & Hcs & Hpu & Hss & Hfd).

Ltac close_cursor :=
  cbn; split; [|reflexivity]; apply cursor_ok_intro; cbn; auto;
  try discriminate.

Lemma pending_url_line_kept : forall st t pending line cleaned_line,
  cursor_ok st = true -> current_tool st = Some t ->
  Py.truthy_opt (partial_url st) = true ->
  kept st (pending_url_line st t pending line cleaned_line).
Proof.
  intros st t pending line cl Hok Hct Hp.
  open_cursor st t Hok Hct.
  destruct (Hpu Hp) as [k [Hk Hurl]].
  destruct st as [all ct ck cs fd ss pu ex]. cbn in *. subst ct ck.
  unfold pending_url_line. cbn [current_key].
  assert (Hss' : ss = true -> field_eqb k Screenshots = true).
  { intro E. specialize (Hss E). inversion Hss. reflexivity. }
  destruct (is_match _).
  - destruct (assign_url_typed k pending t Ht Hurl) as [t' [E [Ht' Hfd']]].
    rewrite E. close_cursor. rewrite Hfd'. exact Hcs.
  - destruct (Py.truthy_opt (extract_url _)).
    + destruct (assign_url_typed k (Py.or_else (extract_url (pending ++ " " ++ cl)) "") t Ht Hurl)
        as [t' [E [Ht' Hfd']]].
      rewrite E. close_cursor. rewrite Hfd'. exact Hcs.
    + close_cursor.
Qed.

Lemma field_line_kept : forall st t f v,
  cursor_ok st = true -> current_tool st = Some t ->
  Py.truthy_opt (partial_url st) = false ->
  kept st (Ok (field_line st t f v)).
Proof.
  intros st t f v Hok Hct Hp.
  open_cursor st t Hok Hct.
  destruct st as [all ct ck cs fd ss pu ex]. cbn in *. subst ct.
  unfold field_line, enter_field. cbn.
  destruct (Py.nonempty v).
  - destruct (field_in f ARRAY_FIELDS) eqn:Ea.
    + close_cursor; try (rewrite Hp; discriminate).
      apply well_typed_set; [exact Ht|]. destruct f; try discriminate Ea; reflexivity.
    + destruct (field_in f URL_FIELDS) eqn:Eu.
      * destruct (Py.truthy_opt (extract_url v)).
        -- destruct (field_eqb f Screenshots) eqn:Es.
           ++ apply field_eqb_eq in Es. subst f. discriminate Ea.
           ++ close_cursor; try (rewrite Hp; discriminate).
              apply well_typed_set; [exact Ht|].
              destruct f; try discriminate Ea; try discriminate Eu; reflexivity.
        -- close_cursor.
      * close_cursor; try (rewrite Hp; discriminate).
        apply well_typed_set; [exact Ht|].
        destruct f; try discriminate Ea; try discriminate Eu; reflexivity.
  - close_cursor. rewrite Hp; discriminate.
Qed.

Lemma logo_line_kept : forall st t cleaned_line,
  cursor_ok st = true -> current_tool st = Some t ->
  Py.truthy_opt (partial_url st) = false ->
  Py.after_first ":" cleaned_line <> None ->
  kept st (logo_line st t cleaned_line).
Proof.
  intros st t cl Hok Hct Hp Hcolon.
  open_cursor st t Hok Hct.
  destruct st as [all ct ck cs fd ss pu ex]. cbn in *. subst ct.
  unfold logo_line, enter_field. cbn.
  destruct (Py.after_first ":" cl) as [rest|]; [|congruence].
  destruct (Py.truthy_opt (extract_url _)).
  - close_cursor; try (rewrite Hp; discriminate).
    apply well_typed_set; [exact Ht | reflexivity].
  - destruct (Py.nonempty _); close_cursor.
Qed.

Lemma screenshots_line_kept : forall st t cleaned_line,
  cursor_ok st = true -> current_tool st = Some t ->
  Py.truthy_opt (partial_url st) = false ->
  Py.after_first ":" cleaned_line <> None ->
  kept st (screenshots_line st t cleaned_line).
Proof.
  intros st t cl Hok Hct Hp Hcolon.
  open_cursor st t Hok Hct.
  destruct st as [all ct ck cs fd ss pu ex]. cbn in *. subst ct.
  unfold screenshots_line, enter_field. cbn.
  destruct (Py.after_first ":" cl) as [rest|]; [|congruence].
  destruct (Py.truthy_opt (extract_url _)).
  - unfold append_to. destruct (screenshots_is_list t Ht) as [l ->].
    close_cursor; try (rewrite Hp; discriminate).
    apply well_typed_set; [exact Ht | reflexivity].
  - destruct (Py.nonempty _); close_cursor.
Qed.

Lemma screenshots_mode_kept : forall st t cleaned_line,
  cursor_ok st = true -> current_tool st = Some t ->
  Py.truthy_opt (partial_url st) = false ->
  in_screenshots st = true ->
  kept st (screenshots_mode st t cleaned_line).
Proof.
  intros st t cl Hok Hct Hp Hin.
  open_cursor st t Hok Hct. specialize (Hss Hin).
  destruct st as [all ct ck cs fd ss pu ex]. cbn in *. subst ct ck ss.
  unfold screenshots_mode.
  destruct (Py.truthy_opt (extract_url _)).
  - unfold append_to. destruct (screenshots_is_list t Ht) as [l E]. rewrite E.
    close_cursor; try (rewrite Hp; discriminate).
    + apply well_typed_set; [exact Ht | reflexivity].
    + rewrite get_set_other by discriminate. exact Hcs.
  - destruct (is_match _); close_cursor.
Qed.

(** Inside "Full Description" the only failure is the assignment of line
    197 to a string. *)
Lemma full_description_mode_kept : forall st t line cleaned_line,
  cursor_ok st = true -> current_tool st = Some t ->
  Py.truthy_opt (partial_url st) = false ->
  match full_description_mode st t line cleaned_line with
  | Ok st' => cursor_ok st' = true /\ all_tools st' = all_tools st
  | Raise e =>
      e = TypeError /\ is_some (subsection_decl line) = true
      /\ is_dict (get Full_Description t) = false
  end.
Proof.
  intros st t line cl Hok Hct Hp.
  open_cursor st t Hok Hct.
  destruct st as [all ct ck cs fd ss pu ex]. cbn in *. subst ct.
  unfold full_description_mode. cbn.
  destruct (subsection_decl line) as [[s v]|].
  - unfold fd_assign. destruct (get Full_Description t) eqn:E; cbn;
      [repeat split; reflexivity | repeat split; reflexivity |].
    split; [|reflexivity]. apply cursor_ok_intro; cbn; auto.
    + apply well_typed_set; [exact Ht | reflexivity].
    + intros _. rewrite get_set_same. reflexivity.
    + rewrite Hp; discriminate.
    + intro Es. rewrite (Hss Es). reflexivity.
  - destruct cs as [s|]; cbn.
    + unfold fd_iadd. specialize (Hcs eq_refl).
      destruct (get Full_Description t) eqn:E; try discriminate Hcs.
      close_cursor; try (rewrite Hp; discriminate).
      * apply well_typed_set; [exact Ht | reflexivity].
      * intros _. rewrite get_set_same. reflexivity.
      * intro Es. rewrite (Hss Es). reflexivity.
    + close_cursor; try (rewrite Hp; discriminate).
      intro Es. rewrite (Hss Es). reflexivity.
Qed.

Lemma general_continuation_kept : forall st t cleaned_line,
  cursor_ok st = true -> current_tool st = Some t ->
  Py.truthy_opt (partial_url st) = false ->
  kept st (general_continuation st t cleaned_line).
Proof.
  intros st t cl Hok Hct Hp.
  open_cursor st t Hok Hct.
  destruct st as [all ct ck cs fd ss pu ex]. cbn in *. subst ct.
  unfold general_continuation. cbn.
  destruct ck as [k|]; [|split; [exact Hok | reflexivity]].
  destruct (negb ss && negb fd) eqn:Emode; [|split; [exact Hok | reflexivity]].
  apply andb_prop in Emode. destruct Emode as [Ess Efd].
  apply negb_true_iff in Ess, Efd. subst ss.
  assert (Hnfd : field_eqb k Full_Description = false) by congruence.
  pose proof (well_typed_fits t k Ht) as Hk.
  destruct (field_in k ARRAY_FIELDS) eqn:Ea.
  - unfold extend.
    assert (Hl : is_list (get k t) = true)
      by (destruct k; try discriminate Ea; exact Hk).
    destruct (get k t) eqn:E; try discriminate Hl.
    close_cursor; try (rewrite Hp; discriminate).
    + apply well_typed_set; [exact Ht|]. destruct k; try discriminate Ea; reflexivity.
    + rewrite get_set_other; [exact Hcs|]. intros ->. discriminate Ea.
  - destruct (field_in k URL_FIELDS) eqn:Eu.
    + destruct (negb (truthy (get k t))); [|split; [exact Hok | reflexivity]].
      destruct (Py.truthy_opt (extract_url cl)).
      * destruct (assign_url_typed k (Py.or_else (extract_url cl) "") t Ht Eu)
          as [t' [E [Ht' Hfd']]].
        rewrite E. close_cursor; try (rewrite Hp; discriminate).
        rewrite Hfd'. exact Hcs.
      * close_cursor.
    + unfold iadd_str.
      assert (Hs : is_str (get k t) = true).
      { destruct k; try discriminate Ea; try discriminate Eu; try exact Hk.
        discriminate Hnfd. }
      destruct (get k t) eqn:E; try discriminate Hs.
      close_cursor; try (rewrite Hp; discriminate).
      * apply well_typed_set; [exact Ht|].
        destruct k; try discriminate Ea; try discriminate Eu; reflexivity.
      * rewrite get_set_other; [exact Hcs|]. intros ->. discriminate Hnfd.
Qed.

Lemma classify_line_kept : forall st t line cleaned_line,
  cursor_ok st = true -> current_tool st = Some t ->
  Py.truthy_opt (partial_url st) = false ->
  cleaned_line = clean_text line ->
  match classify_line st t line cleaned_line with
  | Ok st' => cursor_ok st' = true /\ all_tools st' = all_tools st
  | Raise e =>
      e = TypeError /\ in_full_description st = true
      /\ is_some (subsection_decl line) = true
      /\ is_dict (get Full_Description t) = false
  end.
Proof.
  intros st t line cl Hok Hct Hp ->. unfold classify_line.
  destruct (field_decl line) as [[f v]|].
  { apply (field_line_kept st t f v Hok Hct Hp). }
  destruct (Py.startswith "logo:" (Py.lower line)) eqn:El.
  { pose proof (logo_line_kept st t (clean_text line) Hok Hct Hp) as H.
    assert (Hc : Py.after_first ":" (clean_text line) <> None)
      by (apply (special_prefix_colon "logo:"); auto).
    specialize (H Hc).
    destruct (logo_line st t (clean_text line)); [exact H | destruct H]. }
  destruct (Py.startswith "screenshots:" (Py.lower line)) eqn:Es.
  { pose proof (screenshots_line_kept st t (clean_text line) Hok Hct Hp) as H.
    assert (Hc : Py.after_first ":" (clean_text line) <> None)
      by (apply (special_prefix_colon "screenshots:"); auto).
    specialize (H Hc).
    destruct (screenshots_line st t (clean_text line)); [exact H | destruct H]. }
  destruct (in_screenshots st) eqn:Ess.
  { pose proof (screenshots_mode_kept st t (clean_text line) Hok Hct Hp Ess) as H.
    destruct (screenshots_mode st t (clean_text line)); [exact H | destruct H]. }
  destruct (in_full_description st) eqn:Efd.
  { pose proof (full_description_mode_kept st t line (clean_text line) Hok Hct Hp) as H.
    destruct (full_description_mode st t line (clean_text line)); [exact H | tauto]. }
  pose proof (general_continuation_kept st t (clean_text line) Hok Hct Hp) as H.
  destruct (general_continuation st t (clean_text line)); [exact H | destruct H].
Qed.

Lemma is_new_tool_empty : is_new_tool "" = false.
Proof. reflexivity. Qed.

(** One iteration: the cursor stays in order, the output collection grows
    only at a marker, and the only exception is the [TypeError] of line 197
    on a string-valued "Full Description". *)
Lemma step_spec : forall st para_text,
  cursor_ok st = true ->
  match step st para_text with
  | Ok st' =>
      cursor_ok st' = true
      /\ all_tools st' = if is_new_tool (Py.strip para_text)
                         then close_record st else all_tools st
  | Raise e =>
      e = TypeError /\ in_full_description st = true
      /\ is_some (subsection_decl (Py.strip para_text)) = true
      /\ exists t, current_tool st = Some t
                   /\ is_dict (get Full_Description t) = false
  end.
Proof.
  intros st p Hok. unfold step.
  destruct (Py.nonempty (Py.strip p)) eqn:Ene; cbn [negb].
  2:{ destruct (Py.strip p); [|discriminate Ene]. rewrite is_new_tool_empty. auto. }
  destruct (is_new_tool (Py.strip p)) eqn:Enew.
  { split; reflexivity. }
  destruct (expect_tool_name_value st) eqn:Eex.
  { destruct (current_tool st) as [t|] eqn:Ect.
    - destruct (cursor_ok_open st t Hok Ect) as (Ht & Hcs & Hpu & Hss & Hfd).
      destruct st as [all ct ck cs fd ss pu ex]. cbn in *. subst ct.
      split; [|reflexivity]. apply cursor_ok_intro; cbn; auto.
      + apply well_typed_set; [exact Ht | reflexivity].
      + rewrite get_set_other by discriminate. exact Hcs.
      + intro Hp. destruct (Hpu Hp) as [k [-> Hk]]. exact Hk.
      + intro Es. rewrite (Hss Es). reflexivity.
    - rewrite (cursor_ok_closed st Hok Ect) in Eex. discriminate. }
  destruct (current_tool st) as [t|] eqn:Ect; [|auto].
  destruct (Py.truthy_opt (partial_url st)) eqn:Ep.
  - pose proof (pending_url_line_kept st t (Py.or_else (partial_url st) "")
                  (Py.strip p) (clean_text (Py.strip p)) Hok Ect Ep) as H.
    destruct (pending_url_line _ _ _ _ _); [exact H | destruct H].
  - pose proof (classify_line_kept st t (Py.strip p) _ Hok Ect Ep eq_refl) as H.
    destruct (classify_line _ _ _ _); [exact H|].
    destruct H as (? & ? & ? & ?). eauto 6.
Qed.

Lemma cursor_ok_initial : cursor_ok initial_state = true.
Proof. reflexivity. Qed.

Lemma reachable_cursor_ok : forall st, reachable st -> cursor_ok st = true.
Proof.
  induction 1 as [|st p st' _ IH Hstep]; [reflexivity|].
  pose proof (step_spec st p IH) as H. rewrite Hstep in H. tauto.
Qed.

Lemma emitted_ok_named : forall t, emitted_ok t -> named t.
Proof.
  intros t [Ht Hn]. pose proof (well_typed_fits t Tool_Name Ht) as H. cbv [fits] in H.
  destruct (get Tool_Name t) as [s| |] eqn:E; try discriminate H.
  unfold named. rewrite E. exists s. split; [reflexivity|]. intros ->. discriminate Hn.
Qed.

Lemma close_record_ok : forall st,
  cursor_ok st = true -> Forall emitted_ok (all_tools st) ->
  Forall emitted_ok (close_record st).
Proof.
  intros st Hok Hall. unfold close_record.
  destruct (current_tool st) as [t|] eqn:Ect; [|exact Hall].
  destruct (truthy (get Tool_Name t)) eqn:En; [|exact Hall].
  apply Forall_app. split; [exact Hall|]. constructor; [|constructor].
  split; [|exact En]. apply (cursor_ok_open st t Hok Ect).
Qed.

Lemma reachable_tools : forall st, reachable st -> Forall emitted_ok (all_tools st).
Proof.
  induction 1 as [|st p st' Hr IH Hstep]; [constructor|].
  pose proof (reachable_cursor_ok st Hr) as Hok.
  pose proof (step_spec st p Hok) as H. rewrite Hstep in H. destruct H as [_ ->].
  destruct (is_new_tool _); [apply close_record_ok; assumption | exact IH].
Qed.

Lemma run_lines_reachable : forall paragraphs st st',
  reachable st -> run_lines st paragraphs = Ok st' -> reachable st'.
Proof.
  induction paragraphs as [|p ps IH]; intros st st' Hr H; simpl in H.
  - inversion H; subst. exact Hr.
  - destruct (step st p) as [st1|e] eqn:E; [|discriminate H].
    apply (IH st1 st'); [|exact H]. eapply reach_step; eauto.
Qed.

Lemma assign_url_other : forall k u t t' g,
  assign_url (Some k) u t = Ok t' -> g <> k -> get g t' = get g t.
Proof.
  intros k u t t' g H Hg. unfold assign_url, append_to, set_item in H.
  destruct k; try (inversion H; subst t'; apply get_set_other; congruence).
  destruct (get Screenshots t); inversion H; subst t'.
  apply get_set_other; congruence.
Qed.

(** The end of input: [finish] never raises on a cursor in order. *)
Lemma finish_ok : forall st,
  cursor_ok st = true -> Forall emitted_ok (all_tools st) ->
  exists ts, finish st = Ok ts /\ Forall emitted_ok ts.
Proof.
  intros st Hok Hall. unfold finish.
  destruct (current_tool st) as [t|] eqn:Ect; [|eauto].
  destruct (truthy (get Tool_Name t)) eqn:En; [|eauto].
  destruct (cursor_ok_open st t Hok Ect) as (Ht & _).
  destruct (Py.truthy_opt (partial_url st)
            && match current_key st with
               | Some key => field_in key URL_FIELDS
               | None => false
               end) eqn:Ep.
  - apply andb_prop in Ep. destruct Ep as [_ Ek].
    destruct (current_key st) as [k|]; [|discriminate Ek].
    destruct (assign_url_typed k (Py.or_else (partial_url st) "") t Ht Ek)
      as [t' [E [Ht' _]]].
    rewrite E. cbn [bind]. eexists; split; [reflexivity|].
    apply Forall_app. split; [exact Hall|]. constructor; [|constructor].
    split; [exact Ht'|].
    rewrite (assign_url_other _ _ _ _ Tool_Name E); [exact En|].
    intros <-. discriminate Ek.
  - cbn [bind]. eexists; split; [reflexivity|].
    apply Forall_app. split; [exact Hall|]. constructor; [|constructor].
    split; assumption.
Qed.

(** C1. Every record the parser appends to the output collection has a
    non-empty "Tool Name" string, at every point of the input and at its
    end; and an open record whose "Tool Name" is empty is appended neither
    by the next marker ([close_record]) nor by the end of input
    ([finish]). *)
Theorem emitted_records_named : forall paragraphs st,
  run_lines initial_state paragraphs = Ok st ->
  Forall named (all_tools st)
  /\ (exists ts, finish st = Ok ts /\ Forall named ts)
  /\ (forall t, current_tool st = Some t -> truthy (get Tool_Name t) = false ->
      close_record st = all_tools st /\ finish st = Ok (all_tools st)).
Proof.
  intros ps st Hrun.
  assert (Hr : reachable st) by (eapply run_lines_reachable; [constructor | exact Hrun]).
  pose proof (reachable_cursor_ok st Hr) as Hok.
  pose proof (reachable_tools st Hr) as Hall.
  split; [|split].
  - eapply Forall_impl; [|exact Hall]. apply emitted_ok_named.
  - destruct (finish_ok st Hok Hall) as [ts [E Hts]].
    exists ts. split; [exact E|]. eapply Forall_impl; [|exact Hts]. apply emitted_ok_named.
  - intros t Ect En. unfold close_record, finish. rewrite Ect, En. auto.
Qed.

Lemma emitted_records_named_witness :
  run_lines initial_state scenario_a = Ok scenario_a_cursor
  /\ Forall named (all_tools scenario_a_cursor)
  /\ (exists ts, finish scenario_a_cursor = Ok ts /\ Forall named ts)
  /\ (forall t, current_tool scenario_a_cursor = Some t ->
      truthy (get Tool_Name t) = false ->
      close_record scenario_a_cursor = all_tools scenario_a_cursor
      /\ finish scenario_a_cursor = Ok (all_tools scenario_a_cursor)).
Proof.
  split; [vm_compute; reflexivity|].
  apply (emitted_records_named scenario_a). vm_compute. reflexivity.
Defined.

(** C9. A line that matches no recognised pattern never raises, whatever
    its content and whatever state the loop is in: the iteration returns
    a next state. *)
Theorem unrecognized_line_never_raises : forall st para_text,
  reachable st ->
  unrecognized (Py.strip para_text) = true ->
  exists st', step st para_text = Ok st'.
Proof.
  intros st p Hr Hu.
  pose proof (step_spec st p (reachable_cursor_ok st Hr)) as H.
  destruct (step st p) as [st'|e]; [eauto|].
  destruct H as (_ & _ & Hs & _). unfold unrecognized in Hu.
  rewrite Hs in Hu. rewrite andb_false_r in Hu. discriminate Hu.
Qed.

Lemma pending_state_reachable : reachable pending_state.
Proof.
  apply (run_lines_reachable ["Tool Name:"; "Acme"; "Website Link: www.acme.example"]
                             initial_state); [constructor | vm_compute; reflexivity].
Qed.

Lemma unrecognized_line_never_raises_witness :
  exists st', step pending_state "(no label here)" = Ok st'.
Proof.
  apply unrecognized_line_never_raises;
    [exact pending_state_reachable | vm_compute; reflexivity].
Defined.

(** C10. A marker that closes a record pushes the record as it stands and
    resets the cursor, the pending fragment included: the fragment is not
    assigned to any field of the closed record. *)
Theorem marker_discards_pending_url : forall st t para_text,
  current_tool st = Some t ->
  truthy (get Tool_Name t) = true ->
  is_new_tool (Py.strip para_text) = true ->
  step st para_text
  = Ok (mkState (all_tools st ++ [t]) (Some new_tool) (Some Tool_Name) None
                false false None true).
Proof.
  intros st t p Hct Hn Hnew. unfold step.
  destruct (Py.strip p) eqn:E; [discriminate Hnew|].
  cbn [Py.nonempty negb]. rewrite Hnew.
  unfold close_record. rewrite Hct, Hn. reflexivity.
Qed.

Lemma marker_discards_pending_url_witness :
  step pending_state "### Tool Name:"
  = Ok (mkState [set Tool_Name (VStr "Acme") new_tool] (Some new_tool)
                (Some Tool_Name) None false false None true).
Proof.
  apply (marker_discards_pending_url pending_state); reflexivity.
Defined.

(** The end of input, by contrast, assigns the pending fragment. *)
Lemma finish_assigns_pending_url :
  finish pending_state
  = Ok [set Website_Link (VStr "www.acme.example")
            (set Tool_Name (VStr "Acme") new_tool)].
Proof. reflexivity. Qed.

(** C3, as stated, fails: in the screenshots list a line that is not a URL
    is not handed to the general continuation, which would have added it
    to the list. *)
Lemma screenshots_exit_not_reprocessed :
  step in_list_state "plain words" = Ok (set_in_screenshots false in_list_state)
  /\ general_continuation (set_in_screenshots false in_list_state) widget
                          (clean_text "plain words")
     = Ok (set_tool (set Screenshots (VList ["plain words"]) widget)
                    (set_in_screenshots false in_list_state))
  /\ step in_list_state "plain words"
     <> general_continuation (set_in_screenshots false in_list_state) widget
                             (clean_text "plain words").
Proof.
  split; [|split]; vm_compute; [reflexivity | reflexivity | discriminate].
Qed.

(** C3, amended. In the screenshots list, with no URL pending, a line that
    no earlier rule takes, that yields no URL and that does not start with
    a scheme only leaves the mode: the record and the rest of the cursor
    are as before, and the line is consumed. *)
Theorem screenshots_exit_consumes_line : forall st t para_text,
  let line := Py.strip para_text in
  Py.nonempty line = true ->
  is_new_tool line = false ->
  expect_tool_name_value st = false ->
  current_tool st = Some t ->
  Py.truthy_opt (partial_url st) = false ->
  field_decl line = None ->
  Py.startswith "logo:" (Py.lower line) = false ->
  Py.startswith "screenshots:" (Py.lower line) = false ->
  in_screenshots st = true ->
  Py.truthy_opt (extract_url (clean_text line)) = false ->
  is_match (Re.re_match Pat.scheme (clean_text line)) = false ->
  step st para_text = Ok (set_in_screenshots false st).
Proof.
  intros st t p line Hne Hnew Hex Hct Hp Hf Hl Hs Hin Hu Hm.
  unfold step. fold line. rewrite Hne, Hnew, Hex, Hct, Hp. cbn [negb].
  unfold classify_line. rewrite Hf, Hl, Hs, Hin.
  unfold screenshots_mode. rewrite Hu, Hm. reflexivity.
Qed.

Lemma screenshots_exit_consumes_line_witness :
  step in_list_state "plain words" = Ok (set_in_screenshots false in_list_state).
Proof.
  apply (screenshots_exit_consumes_line in_list_state widget); reflexivity.
Defined.

(** Lines 100-105 in general: the pending fragment goes to the field in
    progress, and what is pending next is whatever [extract_url] returns
    for the line, [None] included. *)
Lemma pending_scheme_line_step : forall st t para_text,
  let line := Py.strip para_text in
  Py.nonempty line = true ->
  is_new_tool line = false ->
  expect_tool_name_value st = false ->
  current_tool st = Some t ->
  Py.truthy_opt (partial_url st) = true ->
  is_match (Re.re_match Pat.scheme line) = true ->
  step st para_text
  = (t' <- assign_url (current_key st) (Py.or_else (partial_url st) "") t ;;
     Ok (set_partial_url (extract_url (clean_text line)) (set_tool t' st))).
Proof.
  intros st t p line Hne Hnew Hex Hct Hp Hm.
  unfold step. fold line. rewrite Hne, Hnew, Hex, Hct, Hp. cbn [negb].
  unfold pending_url_line. rewrite Hm. reflexivity.
Qed.

(** C6, at the failing input: the pending fragment is assigned, but the
    line "https://", from which no URL extracts, does not become the new
    pending fragment; nothing is pending afterwards. *)
Theorem scheme_line_drops_new_fragment :
  step pending_state "https://"
  = Ok (mkState [] (Some (set Website_Link (VStr "www.acme.example")
                              (set Tool_Name (VStr "Acme") new_tool)))
                (Some Website_Link) None false false None false)
  /\ run_lines initial_state scheme_only_lines = step pending_state "https://".
Proof. split; vm_compute; reflexivity. Qed.

(** C2, as stated, fails: the two lines leave the first fragment in
    "Website Link", not the concatenation. *)
Lemma split_url_not_joined :
  exists t,
    doc_to_json distinct ("Tool Name:" :: "Acme" :: split_url_lines) = Ok [t]
    /\ get Website_Link t = VStr "https://acme"
    /\ get Website_Link t <> VStr "https://acme.example/path".
Proof.
  eexists. split; [vm_compute; reflexivity|].
  split; [reflexivity | discriminate].
Qed.

(** C2, amended. Inside any open record with nothing pending, the two
    lines set "Website Link" to the first fragment, which extracts as a
    URL on its own; the second line finds the field filled and is ignored,
    nothing is left pending, and post-processing keeps the value. *)
Theorem split_url_first_fragment : forall st t,
  current_tool st = Some t ->
  expect_tool_name_value st = false ->
  Py.truthy_opt (partial_url st) = false ->
  exists st' t',
    run_lines st split_url_lines = Ok st'
    /\ current_tool st' = Some t'
    /\ get Website_Link t' = VStr "https://acme"
    /\ resolve_urls (get Website_Link t') = VStr "https://acme"
    /\ partial_url st' = partial_url st.
Proof.
  intros st t Hct Hex Hp.
  exists (field_line st t Website_Link "https://acme"),
         (set Website_Link (VStr "https://acme") t).
  assert (E1 : step st "Website Link: https://acme"
               = Ok (field_line st t Website_Link "https://acme")).
  { unfold step.
    change (Py.strip "Website Link: https://acme") with "Website Link: https://acme".
    cbn [Py.nonempty negb].
    replace (is_new_tool "Website Link: https://acme") with false
      by (vm_compute; reflexivity).
    rewrite Hex, Hct, Hp. unfold classify_line.
    replace (field_decl "Website Link: https://acme")
      with (Some (Website_Link, "https://acme")) by (vm_compute; reflexivity).
    reflexivity. }
  assert (E0 : field_line st t Website_Link "https://acme"
               = mkState (all_tools st)
                         (Some (set Website_Link (VStr "https://acme") t))
                         (Some Website_Link) None false false (partial_url st)
                         (expect_tool_name_value st)).
  { unfold field_line. cbn [Py.nonempty].
    replace (field_in Website_Link ARRAY_FIELDS) with false by reflexivity.
    replace (field_in Website_Link URL_FIELDS) with true by reflexivity.
    replace (extract_url "https://acme") with (Some "https://acme")
      by (vm_compute; reflexivity).
    reflexivity. }
  assert (E2 : step (field_line st t Website_Link "https://acme") ".example/path"
               = Ok (field_line st t Website_Link "https://acme")).
  { rewrite E0. unfold step.
    change (Py.strip ".example/path") with ".example/path".
    cbn [Py.nonempty negb expect_tool_name_value current_tool partial_url].
    replace (is_new_tool ".example/path") with false by (vm_compute; reflexivity).
    rewrite Hex, Hp. unfold classify_line.
    replace (field_decl ".example/path") with (@None (field * string))
      by (vm_compute; reflexivity).
    replace (Py.startswith "logo:" (Py.lower ".example/path")) with false
      by (vm_compute; reflexivity).
    replace (Py.startswith "screenshots:" (Py.lower ".example/path")) with false
      by (vm_compute; reflexivity).
    cbn [in_screenshots in_full_description].
    unfold general_continuation.
    cbn [current_key in_screenshots in_full_description negb andb].
    replace (field_in Website_Link ARRAY_FIELDS) with false by reflexivity.
    replace (field_in Website_Link URL_FIELDS) with true by reflexivity.
    rewrite get_set_same. reflexivity. }
  unfold split_url_lines, run_lines. rewrite E1. cbn [bind]. rewrite E2. cbn [bind].
  split; [reflexivity|]. rewrite E0. cbn [current_tool partial_url].
  split; [reflexivity|]. rewrite get_set_same.
  split; [reflexivity|]. split; [vm_compute; reflexivity | reflexivity].
Qed.

Lemma split_url_first_fragment_witness :
  exists st' t',
    run_lines open_state split_url_lines = Ok st'
    /\ current_tool st' = Some t'
    /\ get Website_Link t' = VStr "https://acme"
    /\ resolve_urls (get Website_Link t') = VStr "https://acme"
    /\ partial_url st' = partial_url open_state.
Proof.
  apply (split_url_first_fragment open_state (set Tool_Name (VStr "Acme") new_tool));
    reflexivity.
Defined.

End Cursor.

(** ** The post-processing pass *)

(** The three steps before the defaults, on a record given by its keys. *)
Lemma post_process_tool_unfold : forall to_list a b c d e g h i j k l m n,
  post_process_tool to_list (mkTool a b c d e g h i j k l m n)
  = (t <- normalize_subsections
            (mkTool a (resolve_urls b) (resolve_urls c)
                    (resolve_urls (dedup to_list d)) e g h i j
                    (dedup to_list k) l (dedup to_list m) n) ;;
     default_category (default_product_type t)).
Proof. reflexivity. Qed.

Lemma normalize_subsections_spec : forall t,
  normalize_subsections t
  = if fd_iterable (get Full_Description t)
    then Ok (set Full_Description (fd_after (get Full_Description t)) t)
    else Raise TypeError.
Proof.
  intros [a b c d e g h i j k l m n]. unfold normalize_subsections. cbn.
  destruct g as [[|? ?]|[|? ?]|?]; reflexivity.
Qed.

Lemma default_category_spec : forall t t',
  default_category t = Ok t' ->
  (forall f, f <> Category -> get f t' = get f t)
  /\ (truthy (get Category t) = true -> get Category t' = get Category t)
  /\ (truthy (get Category t) = false ->
      exists c, get Category t' = VList [c]
                /\ In c ["AI Writing Assistant"; "AI Image Generation Tool"; "AI Tool"]).
Proof.
  intros t t' H. unfold default_category in H.
  destruct (truthy (get Category t)) eqn:Ec; cbn [negb] in H.
  - inversion H; subst t'. repeat split; auto. discriminate.
  - destruct (mentions "Writing" t) as [[|]|] eqn:Ew; cbn [bind] in H; try discriminate H.
    + inversion H; subst t'. split; [|split].
      * intros f Hf. apply get_set_other. congruence.
      * discriminate.
      * intros _. eexists. rewrite get_set_same. split; [reflexivity|]. simpl; auto.
    + destruct (mentions "Image" t) as [[|]|] eqn:Ei; cbn [bind] in H; try discriminate H;
        inversion H; subst t'; (split; [|split]);
        try (intros f Hf; apply get_set_other; congruence); try discriminate;
        intros _; eexists; rewrite get_set_same; (split; [reflexivity|]); simpl; auto.
Qed.

Lemma default_product_type_spec : forall t,
  (forall f, f <> Product_Type -> get f (default_product_type t) = get f t)
  /\ get Product_Type (default_product_type t)
     = if truthy (get Product_Type t) then get Product_Type t else VStr "AI Tool".
Proof.
  intro t. unfold default_product_type.
  destruct (truthy (get Product_Type t)); cbn [negb].
  - auto.
  - split; [|apply get_set_same]. intros f Hf. apply get_set_other. congruence.
Qed.

(** What one pass does to each key outside the URL fields. *)
Lemma post_process_tool_fields : forall to_list t t',
  post_process_tool to_list t = Ok t' ->
  get Tool_Name t' = get Tool_Name t
  /\ get Short_Description t' = get Short_Description t
  /\ get Slug t' = get Slug t
  /\ get Meta_Title t' = get Meta_Title t
  /\ get Meta_Description t' = get Meta_Description t
  /\ get Product_Type t'
     = (if truthy (get Product_Type t) then get Product_Type t else VStr "AI Tool")
  /\ get Tags t' = dedup to_list (get Tags t)
  /\ get Full_Description t' = fd_after (get Full_Description t)
  /\ fd_iterable (get Full_Description t) = true
  /\ (truthy (dedup to_list (get Category t)) = true ->
      get Category t' = dedup to_list (get Category t))
  /\ (truthy (dedup to_list (get Category t)) = false ->
      exists c, get Category t' = VList [c]
                /\ In c ["AI Writing Assistant"; "AI Image Generation Tool"; "AI Tool"]).
Proof.
  intros to_list [a b c d e g h i j k l m n] t' H.
  rewrite post_process_tool_unfold, normalize_subsections_spec in H.
  cbn [get k_full_description] in H.
  destruct (fd_iterable g) eqn:Eg; [|discriminate H]. cbn [bind] in H.
  apply default_category_spec in H. destruct H as (Hother & Hcat1 & Hcat2).
  match type of Hother with
  | forall f, _ -> _ = get f (default_product_type ?t0) =>
      destruct (default_product_type_spec t0) as [Hp1 Hp2]
  end.
  rewrite (Hp1 Category) in Hcat1, Hcat2 by discriminate.
  repeat match goal with |- _ /\ _ => split end;
    try (rewrite Hother by discriminate; rewrite Hp1 by discriminate; reflexivity).
  - rewrite Hother by discriminate. rewrite Hp2. reflexivity.
  - exact Eg.
  - exact Hcat1.
  - exact Hcat2.
Qed.

Lemma set_listing_nil : forall to_list, set_listing to_list -> to_list [] = [].
Proof.
  intros to_list H. destruct (H []) as [_ Hin].
  destruct (to_list []) as [|x l]; [reflexivity|].
  destruct (proj1 (Hin x) (or_introl eq_refl)).
Qed.

(** C7. A record whose "Category" is empty gets the one category that the
    keyword rule picks from its "Short Description" and from its
    "Introduction" as post-processing leaves it (normalised): "Writing"
    first, then "Image", then the generic one.  With "Writing" in the
    "Short Description" the result is the writing-assistant category. *)
Theorem category_defaulted_by_keyword : forall to_list t sd d,
  set_listing to_list ->
  get Short_Description t = VStr sd ->
  get Full_Description t = VDict d ->
  get Category t = VList [] ->
  exists t' d',
    post_process_tool to_list t = Ok t'
    /\ get Short_Description t' = VStr sd
    /\ get Full_Description t' = VDict d'
    /\ s_introduction d' = Py.strip (clean_text (s_introduction d))
    /\ get Category t' = VList [category_rule sd (s_introduction d')]
    /\ (Py.contains "Writing" sd = true ->
        get Category t' = VList ["AI Writing Assistant"]).
Proof.
  intros to_list [a b c e0 e g h i j k l m n] sd d Hl Hsd Hfd Hcat.
  cbn [get k_short_description k_full_description k_category] in Hsd, Hfd, Hcat.
  subst e g k.
  exists (set Category
              (VList [category_rule sd (Py.strip (clean_text (s_introduction d)))])
              (default_product_type
                 (mkTool a (resolve_urls b) (resolve_urls c)
                         (resolve_urls (dedup to_list e0)) (VStr sd)
                         (VDict (sub_map (fun x => Py.strip (clean_text x)) d))
                         h i j (VList []) l (dedup to_list m) n))),
         (sub_map (fun x => Py.strip (clean_text x)) d).
  assert (Hintro : s_introduction (sub_map (fun x => Py.strip (clean_text x)) d)
                   = Py.strip (clean_text (s_introduction d)))
    by (destruct d; reflexivity).
  assert (Hpost : post_process_tool to_list
                    (mkTool a b c e0 (VStr sd) (VDict d) h i j (VList []) l m n)
                  = Ok (set Category
                          (VList [category_rule sd (Py.strip (clean_text (s_introduction d)))])
                          (default_product_type
                             (mkTool a (resolve_urls b) (resolve_urls c)
                                     (resolve_urls (dedup to_list e0)) (VStr sd)
                                     (VDict (sub_map (fun x => Py.strip (clean_text x)) d))
                                     h i j (VList []) l (dedup to_list m) n)))).
  { rewrite post_process_tool_unfold. cbn [dedup filter]. rewrite (set_listing_nil _ Hl).
    cbn [normalize_subsections get k_full_description set bind].
    unfold default_category.
    rewrite (proj1 (default_product_type_spec _) Category) by discriminate.
    cbn [get k_category truthy negb]. unfold mentions.
    rewrite !(proj1 (default_product_type_spec _) Short_Description) by discriminate.
    rewrite !(proj1 (default_product_type_spec _) Full_Description) by discriminate.
    cbn [get k_short_description k_full_description py_in sub_get].
    rewrite Hintro. unfold category_rule.
    destruct (Py.contains "Writing" sd); cbn [bind orb]; [reflexivity|].
    destruct (Py.contains "Writing" (Py.strip (clean_text (s_introduction d))));
      cbn [bind]; [reflexivity|].
    destruct (Py.contains "Image" sd); cbn [bind orb]; [reflexivity|].
    destruct (Py.contains "Image" (Py.strip (clean_text (s_introduction d))));
      reflexivity. }
  split; [exact Hpost|].
  split; [rewrite get_set_other by discriminate;
          rewrite (proj1 (default_product_type_spec _)) by discriminate; reflexivity|].
  split; [rewrite get_set_other by discriminate;
          rewrite (proj1 (default_product_type_spec _)) by discriminate; reflexivity|].
  split; [exact Hintro|].
  rewrite get_set_same, Hintro. split; [reflexivity|].
  intro Hw. unfold category_rule. rewrite Hw. reflexivity.
Qed.

Lemma distinct_listing : set_listing distinct.
Proof.
  intro xs. unfold distinct. split; [apply NoDup_nodup|].
  intro x. apply nodup_In.
Qed.

Lemma category_defaulted_by_keyword_witness :
  exists t' d',
    post_process_tool distinct writing_tool = Ok t'
    /\ get Short_Description t' = VStr "A Writing helper"
    /\ get Full_Description t' = VDict d'
    /\ s_introduction d' = Py.strip (clean_text "")
    /\ get Category t' = VList [category_rule "A Writing helper" (s_introduction d')]
    /\ (Py.contains "Writing" "A Writing helper" = true ->
        get Category t' = VList ["AI Writing Assistant"]).
Proof.
  apply (category_defaulted_by_keyword distinct writing_tool "A Writing helper"
                                       empty_subsections);
    [exact distinct_listing | reflexivity | reflexivity | reflexivity].
Defined.

Lemma parse_emitted_ok : forall paragraphs raw,
  parse paragraphs = Ok raw -> Forall emitted_ok raw.
Proof.
  intros ps raw H. unfold parse in H.
  destruct (run_lines initial_state ps) as [st|e] eqn:E; [|discriminate H].
  cbn [bind] in H.
  assert (Hr : reachable st) by (eapply run_lines_reachable; [constructor | exact E]).
  destruct (finish_ok st (reachable_cursor_ok st Hr) (reachable_tools st Hr))
    as [ts [E' Hts]].
  congruence.
Qed.

Lemma product_type_after : forall to_list t t',
  emitted_ok t -> post_process_tool to_list t = Ok t' ->
  product_type_rule t t' /\ has_product_type t'.
Proof.
  intros to_list t t' [Ht _] H.
  apply post_process_tool_fields in H.
  destruct H as (_ & _ & _ & _ & _ & Hpt & _).
  split; [exact Hpt|]. unfold has_product_type. rewrite Hpt.
  pose proof (well_typed_fits t Product_Type Ht) as Hf. cbv [fits] in Hf.
  destruct (get Product_Type t) as [s| |]; try discriminate Hf.
  destruct s; cbn.
  - exists "AI Tool". split; [reflexivity | discriminate].
  - eexists. split; [reflexivity | discriminate].
Qed.

(** C8. Whatever the input, post-processing gives each parsed record the
    "Product Type" it had, or "AI Tool" when it had none, and every record
    of the final output has a non-empty "Product Type" string. *)
Theorem product_type_never_empty : forall to_list paragraphs raw out,
  parse paragraphs = Ok raw ->
  post_process to_list raw = Ok out ->
  Forall2 product_type_rule raw out /\ Forall has_product_type out.
Proof.
  intros to_list ps raw out Hparse. apply parse_emitted_ok in Hparse.
  revert out. induction Hparse as [|t raw Ht Hraw IH]; intros out H; simpl in H.
  - inversion H; subst. split; constructor.
  - destruct (post_process_tool to_list t) as [t'|] eqn:Et; [|discriminate H].
    cbn [bind] in H.
    destruct (post_process to_list raw) as [out'|] eqn:Er; [|discriminate H].
    cbn [bind] in H. inversion H; subst out.
    destruct (product_type_after to_list t t' Ht Et) as [H1 H2].
    destruct (IH out' eq_refl) as [H3 H4].
    split; constructor; assumption.
Qed.

Lemma product_type_never_empty_witness :
  exists raw out,
    parse scenario_a = Ok raw /\ post_process distinct raw = Ok out
    /\ Forall2 product_type_rule raw out /\ Forall has_product_type out.
Proof.
  eexists. eexists.
  assert (Hp : parse scenario_a
               = Ok [set Website_Link (VStr "https://acme.example/a")
                         (set Tool_Name (VStr "Acme") new_tool)])
    by (vm_compute; reflexivity).
  split; [exact Hp|]. split; [vm_compute; reflexivity|].
  apply (product_type_never_empty distinct scenario_a);
    [exact Hp | vm_compute; reflexivity].
Defined.

Lemma chars_nonempty : forall s x, In x (chars s) -> Py.nonempty x = true.
Proof.
  induction s as [|a s IH]; simpl; intros x H; [destruct H|].
  destruct H as [<- | H]; [reflexivity | apply IH, H].
Qed.

Lemma dedup_tidy : forall to_list v,
  set_listing to_list -> exists l, dedup to_list v = VList l /\ tidy l.
Proof.
  intros to_list v Hl. unfold dedup, tidy.
  destruct v as [s|l|d]; eexists; (split; [reflexivity|]);
    (split; [apply Hl|]); intros x Hx; apply (proj1 (proj2 (Hl _) x)) in Hx.
  - eapply chars_nonempty; eauto.
  - apply filter_In in Hx. tauto.
  - simpl in Hx. repeat (destruct Hx as [<- | Hx]; [reflexivity|]). destruct Hx.
Qed.

Lemma filter_tidy : forall l,
  (forall x, In x l -> Py.nonempty x = true) -> filter Py.nonempty l = l.
Proof.
  induction l as [|x l IH]; intro H; simpl; [reflexivity|].
  rewrite (H x (or_introl eq_refl)), IH; [reflexivity|].
  intros y Hy. apply H. right. exact Hy.
Qed.

(** A second [dedup] can only reorder. *)
Lemma dedup_again : forall to_list l,
  set_listing to_list -> tidy l ->
  dedup to_list (VList l) = VList (to_list l) /\ Permutation l (to_list l).
Proof.
  intros to_list l Hl [Hnd Hne]. unfold dedup. rewrite (filter_tidy l Hne).
  split; [reflexivity|].
  apply NoDup_Permutation; [exact Hnd | apply Hl|].
  intro x. symmetry. apply Hl.
Qed.

Lemma fd_after_iterable : forall g,
  fd_iterable g = true -> fd_iterable (fd_after g) = true.
Proof. intros [s|l|d] H; exact H. Qed.

(** A pass succeeds on a record whose "Full Description" can be iterated
    and whose "Category" is not empty. *)
Lemma post_process_tool_runs : forall to_list t,
  fd_iterable (get Full_Description t) = true ->
  truthy (dedup to_list (get Category t)) = true ->
  exists t', post_process_tool to_list t = Ok t'.
Proof.
  intros to_list [a b c d e g h i j k l m n] Hfd Hcat.
  cbn [get k_full_description k_category] in Hfd, Hcat.
  rewrite post_process_tool_unfold, normalize_subsections_spec.
  cbn [get k_full_description]. rewrite Hfd. cbn [bind].
  unfold default_category.
  rewrite (proj1 (default_product_type_spec _) Category) by discriminate.
  cbn [get set k_category]. rewrite Hcat. cbn [negb]. eauto.
Qed.

Lemma post_process_tool_settles : forall to_list t t1,
  set_listing to_list ->
  post_process_tool to_list t = Ok t1 ->
  exists t2, post_process_tool to_list t1 = Ok t2 /\ settled t1 t2.
Proof.
  intros to_list t t1 Hl H1.
  apply post_process_tool_fields in H1.
  destruct H1 as (_ & _ & _ & _ & _ & Hpt & Htags & Hfd & Hit & Hc1 & Hc2).
  destruct (dedup_tidy to_list (get Tags t) Hl) as [lt [Et Tt]].
  assert (Hcat : exists lc, get Category t1 = VList lc /\ tidy lc /\ lc <> []).
  { destruct (dedup_tidy to_list (get Category t) Hl) as [lc [Ec Tc]].
    destruct (truthy (dedup to_list (get Category t))) eqn:Etr.
    - exists lc. rewrite (Hc1 eq_refl), Ec. split; [reflexivity|]. split; [exact Tc|].
      rewrite Ec in Etr. intros ->. discriminate Etr.
    - destruct (Hc2 eq_refl) as [c [Ecat Hin]]. exists [c].
      split; [exact Ecat|]. split; [|discriminate].
      split; [repeat constructor; intros []|].
      intros x [<- | []]. simpl in Hin.
      repeat (destruct Hin as [<- | Hin]; [reflexivity|]). destruct Hin. }
  destruct Hcat as [lc [Ec [Tc Hne]]].
  destruct (dedup_again to_list lc Hl Tc) as [Edc Pc].
  destruct (dedup_again to_list lt Hl Tt) as [Edt Pt].
  assert (Htr : truthy (dedup to_list (get Category t1)) = true).
  { rewrite Ec, Edc. destruct (to_list lc) eqn:E; [|reflexivity].
    apply Permutation_sym, Permutation_nil in Pc. contradiction. }
  destruct (post_process_tool_runs to_list t1) as [t2 H2]; [|exact Htr|].
  { rewrite Hfd. apply fd_after_iterable, Hit. }
  exists t2. split; [exact H2|].
  apply post_process_tool_fields in H2.
  destruct H2 as (Hn & Hsd & Hsl & Hmt & Hmd & Hpt2 & Htags2 & _ & _ & Hc1' & _).
  unfold settled. repeat split; try assumption.
  - rewrite Hpt2. rewrite Hpt.
    destruct (truthy (get Product_Type t)) eqn:E; [rewrite E|]; reflexivity.
  - rewrite (Hc1' Htr), Ec, Edc. exact Pc.
  - rewrite Htags2, Htags, Et, Edt. exact Pt.
Qed.

(** ** Idempotence of [clean_text] *)

(** C5, as stated, fails: a link whose target ends in a link is rewritten
    once by each application. *)
Lemma clean_text_not_idempotent :
  clean_text "[a]([b](c))" = "[b](c)"
  /\ clean_text (clean_text "[a]([b](c))") = "c"
  /\ clean_text (clean_text "[a]([b](c))") <> clean_text "[a]([b](c))".
Proof.
  split; [|split]; vm_compute; [reflexivity | reflexivity | discriminate].
Qed.

(** C5, amended. A second application of [clean_text] changes nothing
    exactly when the first result holds no link pattern any more. *)
Theorem clean_text_idempotent_iff : forall s,
  clean_text (clean_text s) = clean_text s
  <-> Re.re_search Pat.markdown_link (clean_text s) = None.
Proof.
  intro s. split.
  - intro H. destruct (Re.re_search Pat.markdown_link (clean_text s)) as [m|] eqn:E;
      [|reflexivity].
    apply clean_text_shrinks in E. rewrite H in E. lia.
  - apply clean_text_fixed.
Qed.

Lemma clean_text_idempotent_iff_witness :
  clean_text (clean_text "**Acme** [site](https://acme.example) ")
  = clean_text "**Acme** [site](https://acme.example) ".
Proof.
  apply (proj2 (clean_text_idempotent_iff _)). vm_compute. reflexivity.
Defined.

(** ** The scenarios of the specification, run on the model *)

Example scenario_a_result :
  doc_to_json distinct scenario_a
  = Ok [set Category (VList ["AI Tool"])
            (set Product_Type (VStr "AI Tool")
                 (set Website_Link (VStr "https://acme.example/a")
                      (set Tool_Name (VStr "Acme") new_tool)))].
Proof. vm_compute. reflexivity. Qed.

Example scenario_b_result :
  doc_to_json distinct
    ["### Tool Name:"; "Widget"; "Screenshots:"; "https://x.example/1.png";
     "https://x.example/2.png"; "Short Description: A widget."]
  = Ok [set Category (VList ["AI Tool"])
            (set Product_Type (VStr "AI Tool")
                 (set Short_Description (VStr "A widget.")
                      (set Screenshots
                           (VList ["https://x.example/1.png"; "https://x.example/2.png"])
                           (set Tool_Name (VStr "Widget") new_tool))))].
Proof. vm_compute. reflexivity. Qed.

(** Two markers in a row: the first record has no name and is dropped. *)
Example scenario_d_result :
  parse ["Tool Name:"; "Tool Name:"; "Acme"]
  = Ok [set Tool_Name (VStr "Acme") new_tool].
Proof. vm_compute. reflexivity. Qed.

(** The one exception of the loop: an inline value stored under
    "Full Description" (line 143) replaces the dict by a string, and the
    next subsection line indexes that string (line 197). *)
Example subsection_after_inline_value_raises :
  run_lines initial_state
    ["Tool Name:"; "Acme"; "Full Description: An overview"; "Introduction: hello"]
  = Raise TypeError.
Proof. vm_compute. reflexivity. Qed.

(** Without a later subsection line the string reaches post-processing,
    whose loop over the subsections raises (line 243). *)
Example inline_full_description_raises :
  parse ["Tool Name:"; "Acme"; "Full Description: An overview"]
  = Ok [set Full_Description (VStr "An overview")
            (set Tool_Name (VStr "Acme") new_tool)]
  /\ doc_to_json distinct ["Tool Name:"; "Acme"; "Full Description: An overview"]
     = Raise TypeError.
Proof. split; vm_compute; reflexivity. Qed.

(** The sample cursors are states of the loop. *)
Example in_list_state_reached :
  run_lines initial_state ["Tool Name:"; "Widget"; "Screenshots:"] = Ok in_list_state.
Proof. vm_compute. reflexivity. Qed.

Example open_state_reached :
  run_lines initial_state ["Tool Name:"; "Acme"] = Ok open_state.
Proof. vm_compute. reflexivity. Qed.

Example pending_state_reached :
  run_lines initial_state ["Tool Name:"; "Acme"; "Website Link: www.acme.example"]
  = Ok pending_state.
Proof. vm_compute. reflexivity. Qed.

(* ================================================================== *)
(** * Further properties *)

(** ** More on the matcher *)

Lemma star_greedy_consumed : forall (R : Type) p s (k : string -> option R) x,
  star_greedy p s k = Some x ->
  exists pre s', s = pre ++ s' /\ all_chars p pre = true /\ k s' = Some x.
Proof.
  intros R p s k x. induction s as [|a s IH]; simpl; intro H.
  - exists "", "". auto.
  - destruct (p a) eqn:Ea.
    + destruct (star_greedy p s k) as [y|] eqn:E.
      * inversion H; subst y. destruct (IH eq_refl) as [pre [s' [-> [Hp Hk]]]].
        exists (String a pre), s'. simpl. rewrite Ea, Hp. auto.
      * exists "", (String a s). auto.
    + exists "", (String a s). auto.
Qed.

(** A lazy repetition stops at the first position where the rest of the
    pattern matches: no character it takes could have started that rest. *)
Lemma star_lazy_consumed : forall (R : Type) p q s (k : string -> option R) x,
  (forall a r, q a = false -> k (String a r) <> None) ->
  star_lazy p s k = Some x ->
  exists pre s', s = pre ++ s' /\ all_chars (fun a => q a && p a) pre = true
                 /\ k s' = Some x.
Proof.
  intros R p q s k x Hq. induction s as [|a s IH]; simpl; intro H.
  - destruct (k "") eqn:E; [|discriminate]. exists "", "". split; [reflexivity|].
    split; [reflexivity | congruence].
  - destruct (k (String a s)) eqn:E.
    + exists "", (String a s). split; [reflexivity|]. split; [reflexivity | congruence].
    + destruct (p a) eqn:Ea; [|discriminate].
      destruct (IH H) as [pre [s' [-> [Hp Hk]]]].
      exists (String a pre), s'. simpl. rewrite Ea, Hp.
      destruct (q a) eqn:Eq; [auto|]. exfalso. apply (Hq a (pre ++ s') Eq). exact E.
Qed.

Lemma star_greedy_all : forall (R : Type) p s (k : string -> option R) x,
  all_chars p s = true -> k "" = Some x -> star_greedy p s k = Some x.
Proof.
  intros R p s k x. induction s as [|a s IH]; simpl; intros Hs Hk; [exact Hk|].
  apply andb_prop in Hs. destruct Hs as [Ha Hs]. rewrite Ha, (IH Hs Hk). reflexivity.
Qed.

Lemma startswith_split : forall w s,
  Py.startswith w s = true -> s = w ++ drop_chars (String.length w) s.
Proof.
  induction w as [|a w IH]; intros s H; [destruct s; reflexivity|].
  destruct s as [|b s]; [discriminate|]. simpl in H.
  apply andb_prop in H. destruct H as [Hab H]. apply Ascii.eqb_eq in Hab. subst b.
  simpl. f_equal. apply IH, H.
Qed.

Lemma startswith_app : forall w s, Py.startswith w (w ++ s) = true.
Proof.
  induction w as [|a w IH]; intro s; simpl; [reflexivity|].
  rewrite Ascii.eqb_refl. apply IH.
Qed.

Lemma drop_chars_app : forall w s, drop_chars (String.length w) (w ++ s) = s.
Proof. induction w as [|a w IH]; intro s; simpl; [destruct s; reflexivity | apply IH]. Qed.

(** A literal matches exactly when the text starts with it. *)
Lemma run_lit : forall (R : Type) w n s c (k : string -> captures -> option R),
  run (lit w) n s c k
  = if Py.startswith w s then k (drop_chars (String.length w) s) c else None.
Proof.
  intros R w n. induction w as [|a w IH]; intros s c k.
  - destruct s; reflexivity.
  - destruct s as [|b s]; [reflexivity|]. cbn -[Ascii.eqb].
    destruct (Ascii.eqb a b); [apply IH | reflexivity].
Qed.

(** The shape of a link match. *)
Lemma link_match_shape : forall n s m,
  match_at Pat.markdown_link n s = Some m ->
  exists q g rest,
    s = String "[" (q ++ String "]" (String "(" (g ++ String ")" rest)))
    /\ group1 m = g /\ m_after m = rest
    /\ all_chars target_char g = true.
Proof.
  intros n s m H. unfold match_at, Pat.markdown_link in H.
  cbn -[Ascii.eqb consumed] in H.
  destruct s as [|a s1]; [discriminate|].
  destruct (Ascii.eqb "[" a) eqn:Ea; [|discriminate]. apply Ascii.eqb_eq in Ea. subst a.
  apply star_lazy_suffix in H. destruct H as [s' [H Hq]]. destruct Hq as [q ->].
  destruct s' as [|b [|c s3]]; try discriminate.
  - destruct (Ascii.eqb "]" b); discriminate.
  - destruct (Ascii.eqb "]" b) eqn:Eb; [|discriminate]. apply Ascii.eqb_eq in Eb. subst b.
    destruct (Ascii.eqb "(" c) eqn:Ec; [|discriminate]. apply Ascii.eqb_eq in Ec. subst c.
    apply (star_lazy_consumed _ _ (fun a => negb (Ascii.eqb ")" a))) in H.
    + destruct H as [g [s'' [-> [Hg H]]]].
      destruct s'' as [|d s4]; [discriminate|].
      destruct (Ascii.eqb ")" d) eqn:Ed; [|discriminate]. apply Ascii.eqb_eq in Ed. subst d.
      inversion H; subst m; clear H. exists q, g, s4.
      unfold group1. cbn -[consumed]. rewrite consumed_app. auto.
    + intros a r Ha. apply negb_false_iff in Ha. rewrite Ha. discriminate.
Qed.

Lemma all_chars_impl : forall (p q : ascii -> bool) s,
  (forall a, p a = true -> q a = true) -> all_chars p s = true -> all_chars q s = true.
Proof.
  intros p q s Hpq. induction s as [|a s IH]; simpl; [auto|].
  intro H. apply andb_prop in H. destruct H as [Ha Hs].
  rewrite (Hpq a Ha), (IH Hs). reflexivity.
Qed.

(** No link pattern without a closing parenthesis. *)
Lemma no_paren_no_link : forall n s,
  all_chars (fun a => negb (Ascii.eqb ")" a)) s = true ->
  search_from Pat.markdown_link n s = None.
Proof.
  intros n s. induction s as [|a s IH]; intro H.
  - reflexivity.
  - cbn [search_from].
    destruct (match_at Pat.markdown_link n (String a s)) as [m|] eqn:E.
    + exfalso. apply link_match_shape in E.
      destruct E as [q [g [rest [E _]]]]. rewrite E in H.
      change (String "[" (q ++ String "]" (String "(" (g ++ String ")" rest))))
        with ("[" ++ q ++ "](" ++ g ++ String ")" rest) in H.
      rewrite !all_chars_app in H. simpl in H.
      repeat (apply andb_prop in H; destruct H as [? H]). discriminate.
    + simpl in H. apply andb_prop in H. destruct H as [_ H].
      rewrite (IH H). reflexivity.
Qed.

(** A link found by a search has the shape of a link match. *)
Lemma search_link_target : forall n s m,
  search_from Pat.markdown_link n s = Some m ->
  all_chars target_char (group1 m) = true.
Proof.
  intros n s m H. apply search_from_match in H.
  destruct H as [s' [m' [E [_ [_ Hg]]]]]. apply link_match_shape in E.
  destruct E as [q [g [rest [_ [Eg [_ Ht]]]]]].
  unfold group1 in *. rewrite Hg, Eg. exact Ht.
Qed.

(** The scheme matches the longer prefix when it can. *)
Lemma run_scheme : forall (R : Type) n s c (k : string -> captures -> option R),
  run Pat.scheme n s c k
  = if Py.startswith "https://" s then k (drop_chars 8 s) c
    else if Py.startswith "http://" s then k (drop_chars 7 s) c
    else None.
Proof.
  intros R n s c k. unfold Pat.scheme. cbn -[Ascii.eqb].
  destruct s as [|a1 s]; [reflexivity|]. destruct (Ascii.eqb "h" a1); [|reflexivity].
  destruct s as [|a2 s]; [reflexivity|]. destruct (Ascii.eqb "t" a2); [|reflexivity].
  destruct s as [|a3 s]; [reflexivity|]. destruct (Ascii.eqb "t" a3); [|reflexivity].
  destruct s as [|a4 s]; [reflexivity|]. destruct (Ascii.eqb "p" a4); [|reflexivity].
  destruct s as [|a5 s]; [reflexivity|].
  destruct (Ascii.eqb "s" a5) eqn:E5.
  - apply Ascii.eqb_eq in E5. subst a5. cbn -[Ascii.eqb].
    destruct s as [|a6 s]; [reflexivity|]. destruct (Ascii.eqb ":" a6); [|reflexivity].
    destruct s as [|a7 s]; [reflexivity|]. destruct (Ascii.eqb "/" a7); [|reflexivity].
    destruct s as [|a8 s]; [reflexivity|]. destruct (Ascii.eqb "/" a8); [|reflexivity].
    cbn. destruct (k s c); reflexivity.
  - cbn -[Ascii.eqb].
    destruct (Ascii.eqb ":" a5); [|reflexivity].
    destruct s as [|a6 s]; [reflexivity|]. destruct (Ascii.eqb "/" a6); [|reflexivity].
    destruct s as [|a7 s]; [reflexivity|]. destruct (Ascii.eqb "/" a7); reflexivity.
Qed.

Lemma consumed_all : forall u, consumed u "" = u.
Proof.
  intro u. rewrite <- (app_empty_r u) at 1. apply consumed_app.
Qed.

(** The shape of a bare-URL match. *)
Lemma bare_url_match_shape : forall n s m,
  match_at Pat.bare_url n s = Some m ->
  url_shaped (m_text m) /\ s = m_text m ++ m_after m.
Proof.
  intros n s m H. unfold match_at, Pat.bare_url in H. cbn [seq run] in H.
  rewrite run_scheme in H.
  assert (Hplus : forall w rest,
            s = w ++ rest ->
            (w = "http://" \/ w = "https://") ->
            run (Seq (Plus Pat.url_char) Eps) n rest []
                (fun s' c => Some (mkMatch "" (consumed s s') s' c)) = Some m ->
            url_shaped (m_text m) /\ s = m_text m ++ m_after m).
  { intros w rest Hs Hw Hr. cbn [run] in Hr.
    destruct rest as [|a r]; [discriminate|].
    destruct (Pat.url_char a) eqn:Ea; [|discriminate].
    apply star_greedy_consumed in Hr. destruct Hr as [pre [s' [-> [Hp Hr]]]].
    inversion Hr; subst m; clear Hr. cbn [m_text m_after].
    assert (Es : s = (w ++ String a pre) ++ s')
      by (rewrite Hs, app_assoc; reflexivity).
    rewrite Es, consumed_app. split; [|reflexivity].
    exists (String a pre). split; [destruct Hw; subst w; auto|].
    split; [discriminate|]. simpl. rewrite Ea, Hp. reflexivity. }
  destruct (Py.startswith "https://" s) eqn:E8.
  - apply (Hplus "https://" (drop_chars 8 s)); auto.
    apply (startswith_split "https://" s E8).
  - destruct (Py.startswith "http://" s) eqn:E7; [|discriminate].
    apply (Hplus "http://" (drop_chars 7 s)); auto.
    apply (startswith_split "http://" s E7).
Qed.

Lemma search_bare_url_shape : forall n s m,
  search_from Pat.bare_url n s = Some m -> url_shaped (m_text m).
Proof.
  intros n s m H. apply search_from_match in H.
  destruct H as [s' [m' [E [Ht _]]]]. apply bare_url_match_shape in E.
  rewrite Ht. tauto.
Qed.

Lemma url_char_no_paren : forall a,
  Pat.url_char a = true -> negb (Ascii.eqb ")" a) = true.
Proof.
  intros a H. unfold Pat.url_char in H. apply negb_true_iff in H.
  repeat (apply orb_false_elim in H; destruct H as [H ?]).
  rewrite Ascii.eqb_sym. apply negb_true_iff. assumption.
Qed.

Lemma url_shaped_no_paren : forall u,
  url_shaped u -> all_chars (fun a => negb (Ascii.eqb ")" a)) u = true.
Proof.
  intros u [rest [Hu [_ Hr]]].
  apply (all_chars_impl _ _ _ url_char_no_paren) in Hr.
  destruct Hu; subst u; rewrite all_chars_app, Hr; reflexivity.
Qed.

(** A bare URL is found whole in itself. *)
Lemma url_shaped_found : forall u,
  url_shaped u -> re_search Pat.bare_url u = Some (mkMatch "" u "" []).
Proof.
  intros u [rest [Hu [Hne Hr]]]. unfold re_search.
  assert (Hm : match_at Pat.bare_url (String.length u) u = Some (mkMatch "" u "" [])).
  { unfold match_at, Pat.bare_url. cbn [seq run]. rewrite run_scheme.
    destruct rest as [|a r]; [congruence|].
    simpl in Hr. apply andb_prop in Hr. destruct Hr as [Ha Hr'].
    destruct Hu; subst u.
    - replace (Py.startswith "https://" ("http://" ++ String a r)) with false
        by reflexivity.
      rewrite (startswith_app "http://"), (drop_chars_app "http://").
      cbn [run]. rewrite Ha. apply star_greedy_all; [exact Hr'|].
      rewrite consumed_all. reflexivity.
    - rewrite (startswith_app "https://"), (drop_chars_app "https://").
      cbn [run]. rewrite Ha. apply star_greedy_all; [exact Hr'|].
      rewrite consumed_all. reflexivity. }
  destruct u; cbn [search_from]; rewrite Hm; reflexivity.
Qed.

Lemma extract_url_fixed : forall u, url_shaped u -> extract_url u = Some u.
Proof.
  intros u Hu. unfold extract_url, re_search.
  rewrite (no_paren_no_link _ u (url_shaped_no_paren u Hu)).
  fold (re_search Pat.bare_url u). rewrite (url_shaped_found u Hu). reflexivity.
Qed.

(** ** [extract_url] *)

Lemma group1_within : forall s m,
  captured_in s (m_groups m) -> within (group1 m) s.
Proof.
  intros s m Hc. unfold group1.
  destruct (group 1 (m_groups m)) as [g|] eqn:E.
  - apply (Hc 1 g). clear Hc.
    induction (m_groups m) as [|[i g'] c IH]; simpl in E; [discriminate|].
    destruct (Nat.eqb i 1) eqn:Ei.
    + apply Nat.eqb_eq in Ei. inversion E; subst. left; reflexivity.
    + right. apply IH, E.
  - exists "", s. reflexivity.
Qed.

(** X1. Whatever [extract_url] returns is a piece of its argument: the
    function copies, it never builds a URL of its own. *)
Theorem extract_url_is_piece : forall text u,
  extract_url text = Some u -> within u text.
Proof.
  intros text u H. unfold extract_url in H.
  destruct (re_search Pat.markdown_link text) as [m|] eqn:El.
  - inversion H; subst u. apply search_from_parts in El.
    apply group1_within. tauto.
  - destruct (re_search Pat.bare_url text) as [m|] eqn:Eb; [|discriminate].
    inversion H; subst u. apply search_from_parts in Eb. destruct Eb as [Eb _].
    exists (m_before m), (m_after m). exact Eb.
Qed.

Lemma extract_url_is_piece_witness :
  within "https://acme.example/a" "see https://acme.example/a (home page)".
Proof.
  apply extract_url_is_piece. vm_compute. reflexivity.
Defined.

(** X2. On a text without link pattern the result is a bare URL: "http://"
    or "https://", then at least one character, none of them white space,
    a quote, [>], a closing bracket or a closing parenthesis. *)
Theorem extract_url_bare_shape : forall text u,
  re_search Pat.markdown_link text = None ->
  extract_url text = Some u ->
  url_shaped u.
Proof.
  intros text u Hl H. unfold extract_url in H. rewrite Hl in H.
  destruct (re_search Pat.bare_url text) as [m|] eqn:Eb; [|discriminate].
  inversion H; subst u. apply (search_bare_url_shape _ _ _ Eb).
Qed.

Lemma extract_url_bare_shape_witness :
  url_shaped "https://acme.example/a".
Proof.
  apply (extract_url_bare_shape "see https://acme.example/a (home page)");
    vm_compute; reflexivity.
Defined.

(** X3. A link pattern takes precedence over a bare URL wherever the two
    stand: when the text holds a link, the result is the target of the
    first link, and it holds neither a closing parenthesis nor a line
    break. *)
Theorem extract_url_link_first : forall text m,
  re_search Pat.markdown_link text = Some m ->
  extract_url text = Some (group1 m)
  /\ all_chars target_char (group1 m) = true.
Proof.
  intros text m H. unfold extract_url. rewrite H. split; [reflexivity|].
  apply (search_link_target _ _ _ H).
Qed.

Lemma extract_url_link_first_witness :
  extract_url "http://a.example then [b](http://b.example)" = Some "http://b.example"
  /\ all_chars target_char "http://b.example" = true.
Proof.
  apply (extract_url_link_first "http://a.example then [b](http://b.example)"
           (mkMatch "http://a.example then " "[b](http://b.example)" ""
                    [(1, "http://b.example")])).
  vm_compute. reflexivity.
Defined.

(** ** [extract_url(url) or url] *)

Lemma resolve_url_shaped : forall u, url_shaped u -> resolve_url u = u.
Proof.
  intros u Hu. unfold resolve_url. rewrite (extract_url_fixed u Hu).
  unfold Py.or_else. destruct (Py.nonempty u); reflexivity.
Qed.

Lemma url_shaped_nonempty : forall u, url_shaped u -> Py.nonempty u = true.
Proof. intros u [rest [[-> | ->] _]]; reflexivity. Qed.

Lemma target_char_no_paren : forall t,
  all_chars target_char t = true ->
  all_chars (fun a => negb (Ascii.eqb ")" a)) t = true.
Proof.
  intro t. apply all_chars_impl. intros a H. unfold target_char in H.
  apply andb_prop in H. tauto.
Qed.

(** What one re-extraction returns: its argument, a link target, or a
    bare URL. *)
Lemma resolve_url_cases : forall v,
  resolve_url v = v
  \/ all_chars (fun a => negb (Ascii.eqb ")" a)) (resolve_url v) = true
  \/ url_shaped (resolve_url v).
Proof.
  intro v. unfold resolve_url, extract_url.
  destruct (re_search Pat.markdown_link v) as [m|] eqn:El.
  - unfold Py.or_else. destruct (Py.nonempty (group1 m)); [|auto].
    right. left. apply target_char_no_paren. apply (search_link_target _ _ _ El).
  - destruct (re_search Pat.bare_url v) as [m|] eqn:Eb; [|auto].
    pose proof (search_bare_url_shape _ _ _ Eb) as Hs.
    unfold Py.or_else. rewrite (url_shaped_nonempty _ Hs). auto.
Qed.

Lemma resolve_url_no_paren : forall t,
  all_chars (fun a => negb (Ascii.eqb ")" a)) t = true ->
  resolve_url t = t \/ url_shaped (resolve_url t).
Proof.
  intros t Ht. unfold resolve_url, extract_url, re_search.
  rewrite (no_paren_no_link _ t Ht).
  destruct (search_from Pat.bare_url (String.length t) t) as [m|] eqn:Eb; [|auto].
  pose proof (search_bare_url_shape _ _ _ Eb) as Hs.
  unfold Py.or_else. rewrite (url_shaped_nonempty _ Hs). auto.
Qed.

(** X4. Re-extraction settles at the second application: a third one, and
    every later one, returns what the second returned. *)
Theorem resolve_url_settles : forall v,
  resolve_url (resolve_url (resolve_url v)) = resolve_url (resolve_url v).
Proof.
  intro v. destruct (resolve_url_cases v) as [E | [Hp | Hs]].
  - rewrite !E. reflexivity.
  - destruct (resolve_url_no_paren _ Hp) as [E | Hs].
    + rewrite !E. reflexivity.
    + apply resolve_url_shaped, Hs.
  - rewrite (resolve_url_shaped _ Hs). apply resolve_url_shaped, Hs.
Qed.

(** ** [clean_text] *)

Lemma sub_emphasis_length : forall fuel s,
  String.length (sub_loop fuel Pat.emphasis (fun _ => "") s) <= String.length s.
Proof.
  induction fuel as [|fuel IH]; intro s; simpl; [lia|].
  unfold re_search. destruct (search_from _ _ s) as [m|] eqn:E; [|lia].
  apply search_from_parts in E. destruct E as [E _].
  apply (f_equal String.length) in E. rewrite !length_app in *.
  specialize (IH (m_after m)). simpl. lia.
Qed.

(** X5. The result of [clean_text] holds no star and no underscore, has no
    white space at either end, and is never longer than the argument. *)
Theorem clean_text_shape : forall text,
  no_emphasis (clean_text text) = true
  /\ Py.strip (clean_text text) = clean_text text
  /\ String.length (clean_text text) <= String.length text.
Proof.
  intro text. split; [apply clean_text_no_emphasis|]. split.
  - unfold clean_text. apply strip_idem.
  - unfold clean_text, re_sub.
    eapply Nat.le_trans; [apply strip_length|].
    eapply Nat.le_trans; [apply sub_link_length|]. apply sub_emphasis_length.
Qed.

Lemma no_bracket_no_link : forall n s,
  all_chars (fun a => negb (Ascii.eqb "[" a)) s = true ->
  search_from Pat.markdown_link n s = None.
Proof.
  intros n s. induction s as [|a s IH]; intro H; [reflexivity|].
  simpl in H. apply andb_prop in H. destruct H as [Ha Hs].
  apply negb_true_iff in Ha. cbn [search_from].
  rewrite (match_at_link_start n a s Ha), (IH Hs). reflexivity.
Qed.

Lemma unmarked_parts : forall s,
  all_chars unmarked s = true ->
  no_emphasis s = true /\ all_chars (fun a => negb (Ascii.eqb "[" a)) s = true.
Proof.
  intros s H. split; revert H; apply all_chars_impl;
    intros a Ha; unfold unmarked in Ha; apply andb_prop in Ha; tauto.
Qed.

Lemma remove_links_id : forall s,
  all_chars (fun a => negb (Ascii.eqb "[" a)) s = true ->
  re_sub Pat.markdown_link group1 s = s.
Proof.
  intros s H. unfold re_sub. apply sub_loop_no_match, no_bracket_no_link, H.
Qed.

(** X6. A text without star, underscore and opening bracket is only
    trimmed. *)
Theorem clean_text_unmarked : forall text,
  all_chars unmarked text = true -> clean_text text = Py.strip text.
Proof.
  intros text H. destruct (unmarked_parts text H) as [He Hb].
  unfold clean_text. rewrite (remove_emphasis_id text He), (remove_links_id text Hb).
  reflexivity.
Qed.

Lemma clean_text_unmarked_witness :
  clean_text "  Short (plain) text: 100% ok  " = Py.strip "  Short (plain) text: 100% ok  ".
Proof.
  apply clean_text_unmarked. vm_compute. reflexivity.
Defined.

(** ** [comma_items] *)

Lemma split_pieces : forall sep s p,
  In p (Py.split sep s) -> all_chars (fun a => negb (Ascii.eqb a sep)) p = true.
Proof.
  intros sep s. induction s as [|a s IH]; intros p H.
  - destruct H as [<- | []]. reflexivity.
  - simpl in H. destruct (Ascii.eqb a sep) eqn:Ea.
    + destruct H as [<- | H]; [reflexivity | apply IH, H].
    + destruct (Py.split sep s) as [|q qs] eqn:E.
      * destruct H as [<- | []]. simpl. rewrite Ea. reflexivity.
      * destruct H as [<- | H].
        -- simpl. rewrite Ea. apply IH. left; reflexivity.
        -- apply IH. right; exact H.
Qed.

(** X7. The entries that [comma_items] makes of a text are never empty,
    carry no white space at either end and hold no comma. *)
Theorem comma_items_entries : forall text x,
  In x (comma_items text) ->
  Py.nonempty x = true /\ Py.strip x = x
  /\ all_chars (fun a => negb (Ascii.eqb a ",")) x = true.
Proof.
  intros text x H. unfold comma_items in H.
  apply filter_In in H. destruct H as [H Hne]. apply in_map_iff in H.
  destruct H as [p [<- Hp]]. split; [exact Hne|]. split; [apply strip_idem|].
  apply all_chars_strip. apply (split_pieces _ _ _ Hp).
Qed.

Lemma comma_items_entries_witness :
  Py.nonempty "b c" = true /\ Py.strip "b c" = "b c"
  /\ all_chars (fun a => negb (Ascii.eqb a ",")) "b c" = true.
Proof.
  apply (comma_items_entries "a , b c ,, d"). vm_compute. auto.
Defined.

(** ** What a line does to the open record *)

Lemma carried_same : forall line st t st',
  current_tool st' = Some t ->
  expect_tool_name_value st' = expect_tool_name_value st ->
  carried line st t (Ok st').
Proof.
  intros line st t st' Ht He. exists t. split; [exact Ht|].
  split; [left; reflexivity|]. split; [intro H; exact H | exact He].
Qed.

Lemma carried_other : forall line st t st' t',
  current_tool st' = Some t' ->
  get Full_Description t' = get Full_Description t ->
  get Tool_Name t' = get Tool_Name t ->
  expect_tool_name_value st' = expect_tool_name_value st ->
  carried line st t (Ok st').
Proof.
  intros line st t st' t' Ht Hfd Hn He. exists t'. split; [exact Ht|].
  split; [left; exact Hfd|]. split; [|exact He].
  unfold name_kept. rewrite Hn. auto.
Qed.

Lemma field_in_url_other : forall k,
  field_in k URL_FIELDS = true -> Full_Description <> k /\ Tool_Name <> k.
Proof. destruct k; intro H; try discriminate H; split; discriminate. Qed.

Lemma append_to_other : forall f s t t' g,
  append_to f s t = Ok t' -> g <> f -> get g t' = get g t.
Proof.
  intros f s t t' g H Hg. unfold append_to in H.
  destruct (get f t); inversion H; subst t'. apply get_set_other. congruence.
Qed.

Lemma pending_url_line_carried : forall st t pending line cleaned_line,
  cursor_ok st = true -> current_tool st = Some t ->
  Py.truthy_opt (partial_url st) = true ->
  carried line st t (pending_url_line st t pending line cleaned_line).
Proof.
  intros st t pending line cl Hok Hct Hp.
  destruct (cursor_ok_open st t Hok Hct) as (_ & _ & Hpu & _).
  destruct (Hpu Hp) as [k [Hk Hurl]].
  destruct (field_in_url_other k Hurl) as [Hfd Hn].
  unfold pending_url_line. rewrite Hk.
  destruct (is_match _).
  - destruct (assign_url (Some k) pending t) as [t'|] eqn:E; [|exact I].
    cbn [bind]. apply (carried_other _ _ _ _ t'); try reflexivity.
    + apply (assign_url_other _ _ _ _ _ E Hfd).
    + apply (assign_url_other _ _ _ _ _ E Hn).
  - destruct (Py.truthy_opt (extract_url (pending ++ " " ++ cl))).
    + destruct (assign_url (Some k) _ t) as [t'|] eqn:E; [|exact I].
      cbn [bind]. apply (carried_other _ _ _ _ t'); try reflexivity.
      * apply (assign_url_other _ _ _ _ _ E Hfd).
      * apply (assign_url_other _ _ _ _ _ E Hn).
    + apply carried_same; [exact Hct | reflexivity].
Qed.

Lemma field_line_carried : forall st t line f v,
  current_tool st = Some t ->
  field_decl line = Some (f, v) ->
  carried line st t (Ok (field_line st t f v)).
Proof.
  intros st t line f v Hct Hdecl. unfold field_line.
  destruct (Py.nonempty v) eqn:Ev; [|apply carried_same; [exact Hct | reflexivity]].
  assert (Hset : forall x, fits f x = true ->
            (f = Full_Description -> x = VStr v) ->
            (f = Tool_Name -> truthy x = true) ->
            carried line st t
              (Ok (set_tool (set f x t)
                     (enter_field f (field_eqb f Full_Description)
                                  (field_eqb f Screenshots) st)))).
  { intros x _ Hfd Hn. exists (set f x t). split; [reflexivity|].
    split; [|split; [|reflexivity]].
    - destruct (field_eq_dec f Full_Description) as [-> | Hne].
      + right. right. exists v. rewrite get_set_same. auto.
      + left. apply get_set_other. exact Hne.
    - intro Ht. destruct (field_eq_dec f Tool_Name) as [-> | Hne].
      + rewrite get_set_same. auto.
      + rewrite get_set_other by exact Hne. exact Ht. }
  destruct (field_in f ARRAY_FIELDS) eqn:Ea.
  { apply Hset; [destruct f; try discriminate Ea; reflexivity| |];
      intros ->; discriminate Ea. }
  destruct (field_in f URL_FIELDS) eqn:Eu.
  { destruct (Py.truthy_opt (extract_url v));
      [|apply carried_same; [exact Hct | reflexivity]].
    destruct (field_eqb f Screenshots) eqn:Es.
    - apply field_eqb_eq in Es. subst f. discriminate Ea.
    - apply Hset; [destruct f; try discriminate Ea; try discriminate Eu; reflexivity| |];
        intros ->; discriminate Eu. }
  apply Hset.
  - destruct f; try discriminate Ea; try discriminate Eu; reflexivity.
  - reflexivity.
  - intros _. exact Ev.
Qed.

Lemma logo_line_carried : forall st t line cleaned_line,
  current_tool st = Some t ->
  carried line st t (logo_line st t cleaned_line).
Proof.
  intros st t line cl Hct. unfold logo_line.
  destruct (Py.after_first ":" cl) as [rest|]; [|exact I].
  destruct (Py.truthy_opt _).
  - apply (carried_other _ _ _ _ (set Logo (VStr (Py.or_else (extract_url (Py.strip rest)) "")) t));
      try reflexivity; apply get_set_other; discriminate.
  - destruct (Py.nonempty _); apply carried_same; try exact Hct; reflexivity.
Qed.

Lemma screenshots_line_carried : forall st t line cleaned_line,
  current_tool st = Some t ->
  carried line st t (screenshots_line st t cleaned_line).
Proof.
  intros st t line cl Hct. unfold screenshots_line.
  destruct (Py.after_first ":" cl) as [rest|]; [|exact I].
  destruct (Py.truthy_opt _).
  - destruct (append_to Screenshots _ t) as [t'|] eqn:E; [|exact I]. cbn [bind].
    apply (carried_other _ _ _ _ t'); try reflexivity;
      apply (append_to_other _ _ _ _ _ E); discriminate.
  - destruct (Py.nonempty _); apply carried_same; try exact Hct; reflexivity.
Qed.

Lemma screenshots_mode_carried : forall st t line cleaned_line,
  current_tool st = Some t ->
  carried line st t (screenshots_mode st t cleaned_line).
Proof.
  intros st t line cl Hct. unfold screenshots_mode.
  destruct (Py.truthy_opt _).
  - destruct (append_to Screenshots _ t) as [t'|] eqn:E; [|exact I]. cbn [bind].
    apply (carried_other _ _ _ _ t'); try reflexivity;
      apply (append_to_other _ _ _ _ _ E); discriminate.
  - destruct (is_match _); apply carried_same; try exact Hct; reflexivity.
Qed.

Lemma carried_dict : forall line st t st' t',
  current_tool st' = Some t' ->
  is_dict (get Full_Description t) = true ->
  is_dict (get Full_Description t') = true ->
  get Tool_Name t' = get Tool_Name t ->
  expect_tool_name_value st' = expect_tool_name_value st ->
  carried line st t (Ok st').
Proof.
  intros line st t st' t' Ht Hd Hd' Hn He. exists t'. split; [exact Ht|].
  split; [right; left; auto|]. split; [|exact He].
  unfold name_kept. rewrite Hn. auto.
Qed.

Lemma full_description_mode_carried : forall st t line cleaned_line,
  current_tool st = Some t ->
  carried line st t (full_description_mode st t line cleaned_line).
Proof.
  intros st t line cl Hct. unfold full_description_mode.
  destruct (subsection_decl line) as [[s v]|].
  - unfold fd_assign. destruct (get Full_Description t) eqn:E; try exact I.
    cbn [bind].
    apply (carried_dict _ _ _ _ (set Full_Description (VDict (sub_set s v d)) t));
      try reflexivity.
    + rewrite E. reflexivity.
    + rewrite get_set_same. reflexivity.
    + apply get_set_other. discriminate.
  - destruct (current_subsection st) as [s|];
      [|apply carried_same; [exact Hct | reflexivity]].
    unfold fd_iadd. destruct (get Full_Description t) eqn:E; try exact I.
    cbn [bind].
    apply (carried_dict _ _ _ _
             (set Full_Description
                  (VDict (sub_set s (sub_get s d ++ " " ++ cl) d)) t));
      try reflexivity.
    + rewrite E. reflexivity.
    + rewrite get_set_same. reflexivity.
    + apply get_set_other. discriminate.
Qed.

Lemma nonempty_app : forall a b, Py.nonempty a = true -> Py.nonempty (a ++ b) = true.
Proof. intros [|x a] b H; [discriminate | reflexivity]. Qed.

Lemma general_continuation_carried : forall st t line cleaned_line,
  cursor_ok st = true -> current_tool st = Some t ->
  carried line st t (general_continuation st t cleaned_line).
Proof.
  intros st t line cl Hok Hct.
  destruct (cursor_ok_open st t Hok Hct) as (_ & _ & _ & _ & Hfd).
  unfold general_continuation.
  destruct (current_key st) as [k|]; [|apply carried_same; [exact Hct | reflexivity]].
  destruct (negb (in_screenshots st) && negb (in_full_description st)) eqn:Em;
    [|apply carried_same; [exact Hct | reflexivity]].
  apply andb_prop in Em. destruct Em as [_ Em]. apply negb_true_iff in Em.
  rewrite Em in Hfd. symmetry in Hfd.
  assert (Hk : Full_Description <> k) by (intros <-; discriminate Hfd).
  destruct (field_in k ARRAY_FIELDS) eqn:Ea.
  - unfold extend. destruct (get k t) eqn:E; try exact I. cbn [bind].
    apply (carried_other _ _ _ _ (set k (VList (l ++ comma_items cl)) t));
      try reflexivity; apply get_set_other; try congruence.
    intros ->. discriminate Ea.
  - destruct (field_in k URL_FIELDS) eqn:Eu.
    + destruct (negb (truthy (get k t))); [|apply carried_same; [exact Hct | reflexivity]].
      destruct (Py.truthy_opt (extract_url cl));
        [|apply carried_same; [exact Hct | reflexivity]].
      destruct (assign_url (Some k) _ t) as [t'|] eqn:E; [|exact I]. cbn [bind].
      destruct (field_in_url_other k Eu) as [_ Hn].
      apply (carried_other _ _ _ _ t'); try reflexivity.
      * apply (assign_url_other _ _ _ _ _ E Hk).
      * apply (assign_url_other _ _ _ _ _ E Hn).
    + unfold iadd_str. destruct (get k t) eqn:E; try exact I; cbn [bind].
      * eexists. split; [reflexivity|]. split; [left; apply get_set_other; congruence|].
        split; [|reflexivity]. intro Hn.
        destruct (field_eq_dec k Tool_Name) as [-> | Hne].
        -- rewrite get_set_same. rewrite E in Hn. apply nonempty_app. exact Hn.
        -- rewrite get_set_other by exact Hne. exact Hn.
      * eexists. split; [reflexivity|]. split; [left; apply get_set_other; congruence|].
        split; [|reflexivity]. intro Hn.
        destruct (field_eq_dec k Tool_Name) as [-> | Hne].
        -- rewrite get_set_same. rewrite E in Hn. destruct l; [discriminate | reflexivity].
        -- rewrite get_set_other by exact Hne. exact Hn.
Qed.

Lemma classify_line_carried : forall st t line cleaned_line,
  cursor_ok st = true -> current_tool st = Some t ->
  carried line st t (classify_line st t line cleaned_line).
Proof.
  intros st t line cl Hok Hct. unfold classify_line.
  destruct (field_decl line) as [[f v]|] eqn:Ed.
  { apply field_line_carried; assumption. }
  destruct (Py.startswith "logo:" (Py.lower line)).
  { apply logo_line_carried; assumption. }
  destruct (Py.startswith "screenshots:" (Py.lower line)).
  { apply screenshots_line_carried; assumption. }
  destruct (in_screenshots st).
  { apply screenshots_mode_carried; assumption. }
  destruct (in_full_description st).
  { apply full_description_mode_carried; assumption. }
  apply general_continuation_carried; assumption.
Qed.

(** A line that is no marker leaves an open record open; it changes
    "Full Description" only as [fd_change] says and never empties the
    name. *)
Lemma step_carried : forall st t para_text st',
  cursor_ok st = true -> fresh_ok st ->
  current_tool st = Some t ->
  is_new_tool (Py.strip para_text) = false ->
  step st para_text = Ok st' ->
  (exists t', current_tool st' = Some t'
              /\ fd_change (Py.strip para_text) t t' /\ name_kept t t')
  /\ fresh_ok st'.
Proof.
  intros st t p st' Hok Hfresh Hct Hnew H. unfold step in H.
  destruct (Py.nonempty (Py.strip p)); cbn [negb] in H.
  2:{ inversion H; subst st'. split; [|exact Hfresh].
      exists t. split; [exact Hct|]. split; [left; reflexivity | intro; assumption]. }
  rewrite Hnew, Hct in H.
  destruct (expect_tool_name_value st) eqn:Eex.
  { inversion H; subst st'. split; [|intro Hx; discriminate Hx].
    eexists. split; [reflexivity|].
    split; [left; apply get_set_other; discriminate|].
    intro Hn. specialize (Hfresh Eex). rewrite Hct in Hfresh.
    inversion Hfresh; subst t. discriminate Hn. }
  assert (Hc : carried (Py.strip p) st t (Ok st')).
  { rewrite <- H. destruct (Py.truthy_opt (partial_url st)) eqn:Ep.
    - apply pending_url_line_carried; assumption.
    - apply classify_line_carried; assumption. }
  destruct Hc as [t' [Ht' [Hfd [Hn He]]]].
  split; [eauto|]. intro Hx. rewrite He, Eex in Hx. discriminate Hx.
Qed.

Lemma step_closed : forall st para_text,
  cursor_ok st = true -> current_tool st = None ->
  is_new_tool (Py.strip para_text) = false ->
  step st para_text = Ok st.
Proof.
  intros st p Hok Hct Hnew. unfold step.
  destruct (Py.nonempty (Py.strip p)); cbn [negb]; [|reflexivity].
  rewrite Hnew, (cursor_ok_closed st Hok Hct), Hct. reflexivity.
Qed.

Lemma step_marker : forall st para_text,
  is_new_tool (Py.strip para_text) = true ->
  step st para_text
  = Ok (mkState (close_record st) (Some new_tool) (Some Tool_Name) None
                false false None true).
Proof.
  intros st p Hnew. unfold step.
  destruct (Py.strip p) eqn:E; [discriminate Hnew|].
  cbn [Py.nonempty negb]. rewrite Hnew. reflexivity.
Qed.

(** ** The loop as a whole *)

Lemma run_lines_app : forall ps qs st,
  run_lines st (ps ++ qs) = (st' <- run_lines st ps ;; run_lines st' qs).
Proof.
  induction ps as [|p ps IH]; intros qs st; simpl; [reflexivity|].
  destruct (step st p); cbn [bind]; [apply IH | reflexivity].
Qed.

Lemma reachable_fresh : forall st, reachable st -> fresh_ok st.
Proof.
  induction 1 as [|st p st' Hr IH Hstep].
  - intro H. discriminate H.
  - pose proof (reachable_cursor_ok st Hr) as Hok.
    destruct (is_new_tool (Py.strip p)) eqn:Enew.
    + rewrite (step_marker st p Enew) in Hstep. inversion Hstep; subst st'.
      intros _. reflexivity.
    + destruct (current_tool st) as [t|] eqn:Ect.
      * apply (step_carried st t p st' Hok IH Ect Enew Hstep).
      * rewrite (step_closed st p Hok Ect Enew) in Hstep.
        inversion Hstep; subst st'. exact IH.
Qed.

(** X8. Paragraphs before the first marker have no effect: the loop is in
    its initial state when it reaches the marker. *)
Theorem text_before_first_marker_ignored : forall before rest,
  forallb (fun p => negb (is_marker p)) before = true ->
  run_lines initial_state (before ++ rest) = run_lines initial_state rest.
Proof.
  induction before as [|p ps IH]; intros rest H; [reflexivity|].
  simpl in H. apply andb_prop in H. destruct H as [Hp Hps].
  apply negb_true_iff in Hp. simpl.
  rewrite (step_closed initial_state p eq_refl eq_refl Hp). cbn [bind].
  apply IH, Hps.
Qed.

Lemma text_before_first_marker_ignored_witness :
  run_lines initial_state (["Catalogue of tools"; "Logo: https://x.example/l.png"]
                           ++ scenario_a)
  = run_lines initial_state scenario_a.
Proof.
  apply text_before_first_marker_ignored. vm_compute. reflexivity.
Defined.

(** X9. A record that is in the output collection stays there as it is:
    later paragraphs only append to the collection. *)
Theorem emitted_records_stay : forall paragraphs st st',
  reachable st ->
  run_lines st paragraphs = Ok st' ->
  exists more, all_tools st' = (all_tools st ++ more)%list.
Proof.
  induction paragraphs as [|p ps IH]; intros st st' Hr H; simpl in H.
  - inversion H; subst st'. exists []. symmetry. apply app_nil_r.
  - destruct (step st p) as [st1|e] eqn:E; [|discriminate H]. cbn [bind] in H.
    pose proof (step_spec st p (reachable_cursor_ok st Hr)) as Hs.
    rewrite E in Hs. destruct Hs as [_ Hall].
    destruct (IH st1 st' (reach_step _ _ _ Hr E) H) as [more Hmore].
    rewrite Hmore, Hall. destruct (is_new_tool (Py.strip p)); [|eauto].
    unfold close_record. destruct (current_tool st) as [t|]; [|eauto].
    destruct (truthy (get Tool_Name t)); [|eauto].
    exists (t :: more). rewrite <- List.app_assoc. reflexivity.
Qed.

Lemma emitted_records_stay_witness :
  exists more,
    all_tools (mkState [set Tool_Name (VStr "Acme") new_tool;
                        set Slug (VStr "bolt") (set Tool_Name (VStr "Bolt") new_tool)]
                       (Some (set Tool_Name (VStr "Cog") new_tool))
                       (Some Tool_Name) None false false None false)
    = (all_tools second_record_state ++ more)%list.
Proof.
  apply (emitted_records_stay ["Slug: bolt"; "Tool Name:"; "Cog"] second_record_state).
  - apply (run_lines_reachable ["Tool Name:"; "Acme"; "Tool Name:"; "Bolt"] initial_state);
      [constructor | vm_compute; reflexivity].
  - vm_compute. reflexivity.
Defined.

Lemma step_weight : forall st para_text st',
  reachable st -> step st para_text = Ok st' ->
  weight st' <= weight st + (if is_marker para_text then 1 else 0).
Proof.
  intros st p st' Hr H. unfold is_marker.
  pose proof (reachable_cursor_ok st Hr) as Hok.
  destruct (is_new_tool (Py.strip p)) eqn:Enew.
  - rewrite (step_marker st p Enew) in H. inversion H; subst st'.
    unfold weight, close_record. cbn [all_tools current_tool is_some].
    destruct (current_tool st) as [t|]; cbn [is_some]; [|lia].
    destruct (truthy (get Tool_Name t)); [rewrite List.length_app; simpl|]; lia.
  - destruct (current_tool st) as [t|] eqn:Ect.
    + pose proof (step_spec st p Hok) as Hs. rewrite H in Hs.
      destruct Hs as [_ Hall]. rewrite Enew in Hall.
      destruct (step_carried st t p st' Hok (reachable_fresh st Hr) Ect Enew H)
        as [[t' [Ht' _]] _].
      unfold weight. rewrite Hall, Ht', Ect. simpl. lia.
    + rewrite (step_closed st p Hok Ect Enew) in H. inversion H; subst st'. lia.
Qed.

Lemma run_lines_weight : forall paragraphs st st',
  reachable st -> run_lines st paragraphs = Ok st' ->
  weight st' <= weight st + List.length (filter is_marker paragraphs).
Proof.
  induction paragraphs as [|p ps IH]; intros st st' Hr H; simpl in H.
  - inversion H; subst st'. simpl. lia.
  - destruct (step st p) as [st1|e] eqn:E; [|discriminate H]. cbn [bind] in H.
    pose proof (step_weight st p st1 Hr E) as H1.
    pose proof (IH st1 st' (reach_step _ _ _ Hr E) H) as H2.
    simpl. destruct (is_marker p); simpl; lia.
Qed.

Lemma finish_weight : forall st ts, finish st = Ok ts -> List.length ts <= weight st.
Proof.
  intros st ts H. unfold finish in H. unfold weight.
  destruct (current_tool st) as [t|]; cbn [is_some].
  - destruct (truthy (get Tool_Name t)).
    + match type of H with
      | bind ?r _ = _ => destruct r as [t'|]; [|discriminate H]
      end.
      cbn [bind] in H. inversion H; subst ts. rewrite List.length_app. simpl. lia.
    + inversion H; subst ts. lia.
  - inversion H; subst ts. lia.
Qed.

(** X10. The parser returns at most one record per marker paragraph; in
    particular a document without marker gives no record. *)
Theorem at_most_one_record_per_marker : forall paragraphs ts,
  parse paragraphs = Ok ts ->
  List.length ts <= List.length (filter is_marker paragraphs).
Proof.
  intros ps ts H. unfold parse in H.
  destruct (run_lines initial_state ps) as [st|e] eqn:E; [|discriminate H].
  cbn [bind] in H.
  pose proof (run_lines_weight ps initial_state st reach_initial E) as H1.
  pose proof (finish_weight st ts H) as H2.
  change (weight initial_state) with 0 in H1. lia.
Qed.

Lemma at_most_one_record_per_marker_witness :
  List.length [set Tool_Name (VStr "Acme") new_tool]
  <= List.length (filter is_marker ["Tool Name:"; "### Tool Name:"; "Acme"]).
Proof.
  apply at_most_one_record_per_marker. vm_compute. reflexivity.
Defined.

(** ** Exceptions *)

Lemma mentions_error : forall w t e,
  mentions w t = Raise e -> e = TypeError /\ is_dict (get Full_Description t) = false.
Proof.
  intros w t e H. unfold mentions in H.
  destruct (py_in w (get Short_Description t)); [discriminate H|].
  destruct (get Full_Description t); inversion H; auto.
Qed.

Lemma default_category_error : forall t e,
  default_category t = Raise e ->
  e = TypeError /\ is_dict (get Full_Description t) = false.
Proof.
  intros t e H. unfold default_category in H.
  destruct (negb (truthy (get Category t))); [|discriminate H].
  destruct (mentions "Writing" t) as [[|]|e1] eqn:Ew; cbn [bind] in H.
  - discriminate H.
  - destruct (mentions "Image" t) as [[|]|e2] eqn:Ei; cbn [bind] in H;
      try discriminate H. inversion H; subst e2. apply (mentions_error _ _ _ Ei).
  - inversion H; subst e1. apply (mentions_error _ _ _ Ew).
Qed.

Lemma is_dict_fd_after : forall g, is_dict (fd_after g) = is_dict g.
Proof. destruct g; reflexivity. Qed.

(** The pass raises nothing but [TypeError], and only on a record whose
    "Full Description" is not the dict. *)
Lemma post_process_tool_error : forall to_list t e,
  post_process_tool to_list t = Raise e ->
  e = TypeError /\ is_dict (get Full_Description t) = false.
Proof.
  intros to_list [a b c d e0 g h i j k l m n] e H.
  rewrite post_process_tool_unfold, normalize_subsections_spec in H.
  cbn [get k_full_description] in *.
  destruct (fd_iterable g) eqn:Eg.
  - cbn [bind] in H. apply default_category_error in H. destruct H as [He H].
    split; [exact He|].
    rewrite (proj1 (default_product_type_spec _)) in H by discriminate.
    cbn in H. rewrite is_dict_fd_after in H. exact H.
  - cbn [bind] in H. inversion H. split; [reflexivity|].
    destruct g; try reflexivity. discriminate Eg.
Qed.

Lemma post_process_tool_string : forall to_list t v,
  get Full_Description t = VStr v -> Py.nonempty v = true ->
  post_process_tool to_list t = Raise TypeError.
Proof.
  intros to_list [a b c d e0 g h i j k l m n] v Hg Hv.
  cbn [get k_full_description] in Hg. subst g.
  rewrite post_process_tool_unfold, normalize_subsections_spec.
  cbn [get k_full_description fd_iterable]. rewrite Hv. reflexivity.
Qed.

Lemma post_process_error : forall to_list ts e,
  post_process to_list ts = Raise e ->
  e = TypeError
  /\ exists t, In t ts /\ is_dict (get Full_Description t) = false.
Proof.
  intros to_list ts e. induction ts as [|t ts IH]; simpl; intro H; [discriminate H|].
  destruct (post_process_tool to_list t) as [t'|e1] eqn:Et; cbn [bind] in H.
  - destruct (post_process to_list ts) as [ts'|e2] eqn:Er; cbn [bind] in H;
      [discriminate H|].
    inversion H; subst e2. destruct (IH eq_refl) as [He [t0 [Hin Hd]]].
    split; [exact He|]. exists t0. auto.
  - inversion H; subst e1. apply post_process_tool_error in Et.
    destruct Et as [He Hd]. split; [exact He|]. exists t. auto.
Qed.

Lemma post_process_string : forall to_list ts t v,
  In t ts -> get Full_Description t = VStr v -> Py.nonempty v = true ->
  post_process to_list ts = Raise TypeError.
Proof.
  intros to_list ts t v. induction ts as [|t0 ts IH]; intros Hin Hg Hv; [destruct Hin|].
  simpl. destruct (post_process_tool to_list t0) as [t'|e] eqn:Et; cbn [bind].
  - destruct Hin as [-> | Hin].
    + rewrite (post_process_tool_string to_list t v Hg Hv) in Et. discriminate Et.
    + rewrite (IH Hin Hg Hv). reflexivity.
  - apply post_process_tool_error in Et. destruct Et as [-> _]. reflexivity.
Qed.

Lemma run_lines_error : forall paragraphs st e,
  reachable st -> run_lines st paragraphs = Raise e -> e = TypeError.
Proof.
  induction paragraphs as [|p ps IH]; intros st e Hr H; simpl in H; [discriminate H|].
  destruct (step st p) as [st1|e1] eqn:E; cbn [bind] in H.
  - apply (IH st1 e (reach_step _ _ _ Hr E) H).
  - inversion H; subst e1.
    pose proof (step_spec st p (reachable_cursor_ok st Hr)) as Hs.
    rewrite E in Hs. tauto.
Qed.

(** ** Documents without an inline "Full Description" *)

Lemma fd_dicts_initial : fd_dicts initial_state.
Proof. split; [constructor | intros t H; discriminate H]. Qed.

Lemma step_fd_dicts : forall st para_text,
  reachable st -> fd_dicts st ->
  inline_full_description para_text = false ->
  exists st', step st para_text = Ok st' /\ fd_dicts st'.
Proof.
  intros st p Hr [Hall Hcur] Hin.
  pose proof (reachable_cursor_ok st Hr) as Hok.
  pose proof (step_spec st p Hok) as Hs.
  destruct (step st p) as [st'|e] eqn:E.
  2:{ destruct Hs as (_ & _ & _ & t & Ht & Hd). rewrite (Hcur t Ht) in Hd. discriminate Hd. }
  exists st'. split; [reflexivity|]. destruct Hs as [_ Hall'].
  destruct (is_new_tool (Py.strip p)) eqn:Enew.
  - rewrite (step_marker st p Enew) in E. inversion E; subst st'.
    split; cbn [all_tools current_tool].
    + unfold close_record. destruct (current_tool st) as [t|] eqn:Ect; [|exact Hall].
      destruct (truthy (get Tool_Name t)); [|exact Hall].
      apply Forall_app. split; [exact Hall|]. constructor; [auto | constructor].
    + intros t Ht. inversion Ht; subst t. reflexivity.
  - split; [rewrite Hall'; exact Hall|].
    destruct (current_tool st) as [t|] eqn:Ect.
    + destruct (step_carried st t p st' Hok (reachable_fresh st Hr) Ect Enew E)
        as [[t' [Ht' [Hfd _]]] _].
      intros t0 Ht0. rewrite Ht' in Ht0. inversion Ht0; subst t0.
      destruct Hfd as [Hfd | [[_ Hfd] | [v [Hdecl [Hv _]]]]].
      * rewrite Hfd. auto.
      * exact Hfd.
      * unfold inline_full_description in Hin. rewrite Hdecl, Hv in Hin. discriminate Hin.
    + rewrite (step_closed st p Hok Ect Enew) in E. inversion E; subst st'.
      intros t Ht. rewrite Ect in Ht. discriminate Ht.
Qed.

Lemma run_lines_fd_dicts : forall paragraphs st,
  reachable st -> fd_dicts st ->
  forallb (fun p => negb (inline_full_description p)) paragraphs = true ->
  exists st', run_lines st paragraphs = Ok st' /\ reachable st' /\ fd_dicts st'.
Proof.
  induction paragraphs as [|p ps IH]; intros st Hr Hd H.
  - exists st. auto.
  - simpl in H. apply andb_prop in H. destruct H as [Hp Hps].
    apply negb_true_iff in Hp.
    destruct (step_fd_dicts st p Hr Hd Hp) as [st1 [E Hd1]].
    simpl. rewrite E. cbn [bind].
    apply (IH st1 (reach_step _ _ _ Hr E) Hd1 Hps).
Qed.

Lemma finish_fd_dicts : forall st ts,
  cursor_ok st = true -> fd_dicts st -> finish st = Ok ts ->
  Forall (fun t => is_dict (get Full_Description t) = true) ts.
Proof.
  intros st ts Hok [Hall Hcur] H. unfold finish in H.
  destruct (current_tool st) as [t|] eqn:Ect; [|inversion H; subst; exact Hall].
  destruct (truthy (get Tool_Name t)); [|inversion H; subst; exact Hall].
  destruct (Py.truthy_opt (partial_url st)
            && match current_key st with
               | Some key => field_in key URL_FIELDS
               | None => false
               end) eqn:Ep.
  - apply andb_prop in Ep. destruct Ep as [_ Ek].
    destruct (current_key st) as [k|]; [|discriminate Ek].
    destruct (assign_url (Some k) _ t) as [t'|] eqn:E; [|discriminate H].
    cbn [bind] in H. inversion H; subst ts.
    apply Forall_app. split; [exact Hall|]. constructor; [|constructor].
    rewrite (assign_url_other _ _ _ _ Full_Description E); [auto|].
    apply (field_in_url_other k Ek).
  - cbn [bind] in H. inversion H; subst ts.
    apply Forall_app. split; [exact Hall|]. constructor; [auto | constructor].
Qed.

Lemma post_process_dicts : forall to_list ts,
  Forall (fun t => is_dict (get Full_Description t) = true) ts ->
  exists out, post_process to_list ts = Ok out.
Proof.
  intros to_list ts H. destruct (post_process to_list ts) as [out|e] eqn:E; [eauto|].
  apply post_process_error in E. destruct E as [_ [t [Hin Hd]]].
  rewrite Forall_forall in H. rewrite (H t Hin) in Hd. discriminate Hd.
Qed.

(** Without an inline value for "Full Description", each of the three
    stages returns. *)
Lemma stages_without_inline_value : forall to_list paragraphs,
  forallb (fun p => negb (inline_full_description p)) paragraphs = true ->
  exists st ts out,
    run_lines initial_state paragraphs = Ok st
    /\ finish st = Ok ts
    /\ post_process to_list ts = Ok out.
Proof.
  intros to_list ps H.
  destruct (run_lines_fd_dicts ps initial_state reach_initial fd_dicts_initial H)
    as [st [E [Hr Hd]]].
  pose proof (reachable_cursor_ok st Hr) as Hok.
  destruct (finish_ok st Hok (reachable_tools st Hr)) as [ts [Ef _]].
  destruct (post_process_dicts to_list ts (finish_fd_dicts st ts Hok Hd Ef)) as [out Eo].
  exists st, ts, out. auto.
Qed.

(** X11. A document in which no paragraph gives "Full Description" an
    inline value is always converted: neither the loop nor the
    post-processing raises. *)
Theorem converts_without_inline_full_description : forall to_list paragraphs,
  forallb (fun p => negb (inline_full_description p)) paragraphs = true ->
  exists out, doc_to_json to_list paragraphs = Ok out.
Proof.
  intros to_list ps H. unfold doc_to_json, parse.
  destruct (stages_without_inline_value to_list ps H) as (st & ts & out & E & Ef & Eo).
  rewrite E. cbn [bind]. rewrite Ef. cbn [bind]. eauto.
Qed.

Lemma converts_without_inline_full_description_witness :
  exists out,
    doc_to_json distinct
      ["Tool Name:"; "Acme"; "Full Description:"; "Introduction: a tool";
       "and more"; "Tags: x, y"] = Ok out.
Proof.
  apply converts_without_inline_full_description. vm_compute. reflexivity.
Defined.

(** X12. [doc_to_json] fails with no other exception than [TypeError], and
    only on a document in which some paragraph gives "Full Description" an
    inline value. *)
Theorem fails_only_with_type_error : forall to_list paragraphs e,
  doc_to_json to_list paragraphs = Raise e ->
  e = TypeError /\ existsb inline_full_description paragraphs = true.
Proof.
  intros to_list ps e H. split.
  - unfold doc_to_json, parse in H.
    destruct (run_lines initial_state ps) as [st|e1] eqn:E; cbn [bind] in H.
    + assert (Hr : reachable st)
        by (eapply run_lines_reachable; [constructor | exact E]).
      destruct (finish_ok st (reachable_cursor_ok st Hr) (reachable_tools st Hr))
        as [ts [Ef _]].
      rewrite Ef in H. cbn [bind] in H. apply post_process_error in H. tauto.
    + inversion H; subst e1. apply (run_lines_error ps initial_state e reach_initial E).
  - destruct (existsb inline_full_description ps) eqn:Ex; [reflexivity|].
    exfalso.
    assert (Hall : forallb (fun p => negb (inline_full_description p)) ps = true).
    { apply forallb_forall. intros p Hp. apply negb_true_iff.
      destruct (inline_full_description p) eqn:Ei; [|reflexivity].
      assert (existsb inline_full_description ps = true)
        by (apply existsb_exists; eauto).
      congruence. }
    destruct (stages_without_inline_value to_list ps Hall) as (st & ts & out & E & Ef & Eo).
    unfold doc_to_json, parse in H. rewrite E in H. cbn [bind] in H.
    rewrite Ef in H. cbn [bind] in H. congruence.
Qed.

Lemma fails_only_with_type_error_witness :
  doc_to_json distinct ["Tool Name:"; "Acme"; "Full Description: An overview"]
  = Raise TypeError
  /\ existsb inline_full_description
       ["Tool Name:"; "Acme"; "Full Description: An overview"] = true.
Proof.
  split; [vm_compute; reflexivity|].
  apply (fails_only_with_type_error distinct _ TypeError). vm_compute. reflexivity.
Defined.

(** ** A string under "Full Description" *)

Lemma bad_carried : forall line t t',
  bad t -> fd_change line t t' -> name_kept t t' -> bad t'.
Proof.
  intros line t t' [Hn [v [Hv Hne]]] Hfd Hk. split; [apply Hk, Hn|].
  destruct Hfd as [Hfd | [[Hd _] | [v' [_ [Hv' Hfd]]]]].
  - exists v. rewrite Hfd. auto.
  - rewrite Hv in Hd. discriminate Hd.
  - exists v'. auto.
Qed.

Lemma step_doomed : forall st para_text st',
  reachable st -> doomed st -> step st para_text = Ok st' -> doomed st'.
Proof.
  intros st p st' Hr Hd H.
  pose proof (reachable_cursor_ok st Hr) as Hok.
  pose proof (step_spec st p Hok) as Hs. rewrite H in Hs. destruct Hs as [_ Hall].
  destruct (is_new_tool (Py.strip p)) eqn:Enew.
  - left. rewrite Hall. unfold close_record.
    destruct Hd as [[t [Hin Hb]] | [t [Hct Hb]]].
    + exists t. split; [|exact Hb].
      destruct (current_tool st) as [t0|]; [|exact Hin].
      destruct (truthy (get Tool_Name t0)); [apply in_or_app; auto | exact Hin].
    + rewrite Hct. destruct Hb as [Hn Hv]. rewrite Hn.
      exists t. split; [apply in_or_app; right; left; reflexivity|].
      split; assumption.
  - destruct Hd as [[t [Hin Hb]] | [t [Hct Hb]]].
    + left. exists t. rewrite Hall. auto.
    + right.
      destruct (step_carried st t p st' Hok (reachable_fresh st Hr) Hct Enew H)
        as [[t' [Ht' [Hfd Hk]]] _].
      exists t'. split; [exact Ht'|]. apply (bad_carried _ _ _ Hb Hfd Hk).
Qed.

Lemma run_lines_doomed : forall paragraphs st st',
  reachable st -> doomed st -> run_lines st paragraphs = Ok st' ->
  reachable st' /\ doomed st'.
Proof.
  induction paragraphs as [|p ps IH]; intros st st' Hr Hd H; simpl in H.
  - inversion H; subst st'. auto.
  - destruct (step st p) as [st1|e] eqn:E; [|discriminate H]. cbn [bind] in H.
    apply (IH st1 st' (reach_step _ _ _ Hr E) (step_doomed _ _ _ Hr Hd E) H).
Qed.

Lemma finish_doomed : forall st ts,
  doomed st -> finish st = Ok ts ->
  exists t v, In t ts /\ get Full_Description t = VStr v /\ Py.nonempty v = true.
Proof.
  intros st ts Hd H. unfold finish in H.
  destruct Hd as [[t [Hin [_ [v [Hv Hne]]]]] | [t [Hct [Hn [v [Hv Hne]]]]]].
  - exists t, v. split; [|auto].
    destruct (current_tool st) as [t0|]; [|inversion H; subst; exact Hin].
    destruct (truthy (get Tool_Name t0)); [|inversion H; subst; exact Hin].
    match type of H with
    | bind ?r _ = _ => destruct r as [t'|]; [|discriminate H]
    end.
    cbn [bind] in H. inversion H; subst ts. apply in_or_app. auto.
  - rewrite Hct, Hn in H.
    destruct (Py.truthy_opt (partial_url st)
              && match current_key st with
                 | Some key => field_in key URL_FIELDS
                 | None => false
                 end) eqn:Ep.
    + apply andb_prop in Ep. destruct Ep as [_ Ek].
      destruct (current_key st) as [k|]; [|discriminate Ek].
      destruct (assign_url (Some k) _ t) as [t'|] eqn:E; [|discriminate H].
      cbn [bind] in H. inversion H; subst ts. exists t', v.
      split; [apply in_or_app; right; left; reflexivity|].
      rewrite (assign_url_other _ _ _ _ Full_Description E); [auto|].
      apply (field_in_url_other k Ek).
    + cbn [bind] in H. inversion H; subst ts. exists t, v.
      split; [apply in_or_app; right; left; reflexivity | auto].
Qed.

(** From a state with a named record that holds a string under
    "Full Description", every continuation ends in [TypeError]. *)
Lemma doomed_fails : forall to_list st rest,
  reachable st -> doomed st ->
  (st' <- run_lines st rest ;; ts <- finish st' ;; post_process to_list ts)
  = Raise TypeError.
Proof.
  intros to_list st rest Hr Hd.
  destruct (run_lines st rest) as [st'|e] eqn:E; cbn [bind].
  - destruct (run_lines_doomed rest st st' Hr Hd E) as [Hr' Hd'].
    destruct (finish_ok st' (reachable_cursor_ok st' Hr') (reachable_tools st' Hr'))
      as [ts [Ef _]].
    rewrite Ef. cbn [bind].
    destruct (finish_doomed st' ts Hd' Ef) as [t [v [Hin [Hv Hne]]]].
    apply (post_process_string to_list ts t v Hin Hv Hne).
  - f_equal. apply (run_lines_error rest st e Hr E).
Qed.

(** X13. Once a paragraph has given "Full Description" an inline value in
    a named record, the conversion fails whatever follows: the string that
    line 143 stores is never replaced by the dict again, and either a
    later subsection line or the post-processing raises [TypeError]. *)
Theorem inline_full_description_is_fatal :
  forall to_list before para_text rest st t v,
    run_lines initial_state before = Ok st ->
    current_tool st = Some t ->
    truthy (get Tool_Name t) = true ->
    expect_tool_name_value st = false ->
    Py.truthy_opt (partial_url st) = false ->
    is_marker para_text = false ->
    field_decl (Py.strip para_text) = Some (Full_Description, v) ->
    Py.nonempty v = true ->
    doc_to_json to_list (before ++ para_text :: rest) = Raise TypeError.
Proof.
  intros to_list before p rest st t v Hrun Hct Hn Hex Hp Hm Hdecl Hv.
  assert (Hr : reachable st)
    by (eapply run_lines_reachable; [constructor | exact Hrun]).
  assert (Hstep : step st p = Ok (field_line st t Full_Description v)).
  { unfold step. unfold is_marker in Hm.
    destruct (Py.strip p) eqn:Es; [discriminate Hdecl|].
    cbn [Py.nonempty negb]. rewrite Hm, Hex, Hct, Hp.
    unfold classify_line. rewrite Hdecl. reflexivity. }
  unfold doc_to_json, parse. rewrite run_lines_app, Hrun. cbn [bind run_lines].
  rewrite Hstep. cbn [bind].
  assert (Hbind : forall r : result state,
            (ts <- (st0 <- r ;; finish st0) ;; post_process to_list ts)
            = (st0 <- r ;; ts <- finish st0 ;; post_process to_list ts))
    by (intros [s|e]; reflexivity).
  rewrite Hbind. apply doomed_fails.
  - eapply reach_step; eauto.
  - right. unfold field_line. rewrite Hv. cbn.
    eexists. split; [reflexivity|]. split.
    + rewrite get_set_other by discriminate. exact Hn.
    + exists v. rewrite get_set_same. auto.
Qed.

Lemma inline_full_description_is_fatal_witness :
  doc_to_json distinct
    (["Tool Name:"; "Acme"] ++ "Full Description: An overview"
       :: ["Full Description:"; "Tool Name:"; "Bolt"; "Tags: x"])
  = Raise TypeError.
Proof.
  apply (inline_full_description_is_fatal distinct _ _ _ open_state
           (set Tool_Name (VStr "Acme") new_tool) "An overview");
    vm_compute; reflexivity.
Defined.

(** ** The output of the pass *)

Lemma post_process_tool_urls : forall to_list t t',
  post_process_tool to_list t = Ok t' ->
  get Website_Link t' = resolve_urls (get Website_Link t)
  /\ get Logo t' = resolve_urls (get Logo t)
  /\ get Screenshots t' = resolve_urls (dedup to_list (get Screenshots t))
  /\ k_none t' = k_none t.
Proof.
  intros to_list [a b c d e g h i j k l m n] t' H.
  rewrite post_process_tool_unfold, normalize_subsections_spec in H.
  cbn [get k_full_description] in H.
  destruct (fd_iterable g); [|discriminate H]. cbn [bind] in H.
  assert (Hnone : k_none t' = n).
  { unfold default_category, default_product_type in H.
    repeat match type of H with
    | context [if ?c then _ else _] => destruct c
    | context [bind ?r _] => destruct r as [[|]|]; cbn [bind] in H
    end; try discriminate H; inversion H; subst t';
      rewrite ?k_none_set; reflexivity. }
  apply default_category_spec in H. destruct H as (Hother & _).
  match type of Hother with
  | forall f, _ -> _ = get f (default_product_type ?t0) =>
      destruct (default_product_type_spec t0) as [Hp1 _]
  end.
  repeat split;
    try (rewrite Hother by discriminate; rewrite Hp1 by discriminate; reflexivity).
  exact Hnone.
Qed.

Lemma resolve_url_nonempty : forall x,
  Py.nonempty x = true -> Py.nonempty (resolve_url x) = true.
Proof.
  intros x Hx. unfold resolve_url, Py.or_else.
  destruct (extract_url x) as [u|]; [|exact Hx].
  destruct (Py.nonempty u) eqn:Eu; assumption.
Qed.

Lemma category_after : forall to_list t t',
  set_listing to_list ->
  post_process_tool to_list t = Ok t' ->
  exists lc, get Category t' = VList lc /\ tidy lc /\ lc <> [].
Proof.
  intros to_list t t' Hl H.
  apply post_process_tool_fields in H.
  destruct H as (_ & _ & _ & _ & _ & _ & _ & _ & _ & Hc1 & Hc2).
  destruct (dedup_tidy to_list (get Category t) Hl) as [lc [Ec Tc]].
  destruct (truthy (dedup to_list (get Category t))) eqn:Etr.
  - exists lc. rewrite (Hc1 eq_refl), Ec. split; [reflexivity|]. split; [exact Tc|].
    rewrite Ec in Etr. intros ->. discriminate Etr.
  - destruct (Hc2 eq_refl) as [c [Ecat Hin]]. exists [c].
    split; [exact Ecat|]. split; [|discriminate].
    split; [repeat constructor; intros []|].
    intros x [<- | []]. simpl in Hin.
    repeat (destruct Hin as [<- | Hin]; [reflexivity|]). destruct Hin.
Qed.

Lemma tags_after : forall to_list t t',
  set_listing to_list ->
  post_process_tool to_list t = Ok t' ->
  exists lt, get Tags t' = VList lt /\ tidy lt.
Proof.
  intros to_list t t' Hl H.
  apply post_process_tool_fields in H.
  destruct H as (_ & _ & _ & _ & _ & _ & Htags & _).
  destruct (dedup_tidy to_list (get Tags t) Hl) as [lt [Et Tt]].
  exists lt. rewrite Htags, Et. auto.
Qed.

Lemma screenshots_after : forall to_list t t',
  set_listing to_list ->
  post_process_tool to_list t = Ok t' ->
  exists ls, get Screenshots t' = VList ls
             /\ forall x, In x ls -> Py.nonempty x = true.
Proof.
  intros to_list t t' Hl H.
  pose proof (post_process_tool_urls to_list t t' H) as (_ & _ & Hss & _).
  destruct (dedup_tidy to_list (get Screenshots t) Hl) as [ls [Es [_ Ts]]].
  exists (map resolve_url ls). rewrite Hss, Es. split; [reflexivity|].
  intros x Hx. apply in_map_iff in Hx. destruct Hx as [y [<- Hy]].
  apply resolve_url_nonempty, Ts, Hy.
Qed.

(** X14. After a pass, whatever the record was, "Category" is a non-empty
    list, "Category" and "Tags" hold no entry twice and no empty entry, and
    "Screenshots" holds no empty entry. *)
Theorem post_process_tool_lists : forall to_list t t',
  set_listing to_list ->
  post_process_tool to_list t = Ok t' ->
  lists_tidy t'.
Proof.
  intros to_list t t' Hl H. split; [|split].
  - apply (category_after to_list t t' Hl H).
  - apply (tags_after to_list t t' Hl H).
  - apply (screenshots_after to_list t t' Hl H).
Qed.

Lemma post_process_tool_lists_witness :
  lists_tidy
    (set Category (VList ["AI Tool"])
         (set Product_Type (VStr "AI Tool")
              (set Tags (VList ["a"; "b"])
                   (set Tool_Name (VStr "Acme") new_tool)))).
Proof.
  apply (post_process_tool_lists distinct
           (set Tags (VList ["b"; "a"; ""; "b"]) (set Tool_Name (VStr "Acme") new_tool)));
    [exact distinct_listing | vm_compute; reflexivity].
Defined.

(** X15. Post-processing returns one record for each record it is given,
    in the same order, and leaves "Tool Name", "Short Description", "Slug",
    "Meta Title" and "Meta Description" as they are. *)
Theorem post_process_keeps_records : forall to_list ts out,
  post_process to_list ts = Ok out -> Forall2 untouched ts out.
Proof.
  intros to_list ts. induction ts as [|t ts IH]; intros out H; simpl in H.
  - inversion H; subst. constructor.
  - destruct (post_process_tool to_list t) as [t'|] eqn:Et; [|discriminate H].
    cbn [bind] in H.
    destruct (post_process to_list ts) as [out'|] eqn:Er; [|discriminate H].
    cbn [bind] in H. inversion H; subst out. constructor; [|apply IH; reflexivity].
    apply post_process_tool_fields in Et. unfold untouched. tauto.
Qed.

Lemma post_process_keeps_records_witness :
  Forall2 untouched
    [set Tool_Name (VStr "Acme") new_tool; set Tool_Name (VStr "Bolt") new_tool]
    [set Category (VList ["AI Tool"])
         (set Product_Type (VStr "AI Tool") (set Tool_Name (VStr "Acme") new_tool));
     set Category (VList ["AI Tool"])
         (set Product_Type (VStr "AI Tool") (set Tool_Name (VStr "Bolt") new_tool))].
Proof.
  apply (post_process_keeps_records distinct). vm_compute. reflexivity.
Defined.

(** ** The records of the final output *)

Lemma fd_good_carried : forall line t t', fd_good t -> fd_change line t t' -> fd_good t'.
Proof.
  intros line t t' Hg [Hfd | [[_ Hd] | [v [_ [Hv Hfd]]]]].
  - unfold fd_good. rewrite Hfd. exact Hg.
  - left. exact Hd.
  - right. eauto.
Qed.

Lemma step_fd_goods : forall st para_text st',
  reachable st -> fd_goods st -> step st para_text = Ok st' -> fd_goods st'.
Proof.
  intros st p st' Hr [Hall Hcur] H.
  pose proof (reachable_cursor_ok st Hr) as Hok.
  pose proof (step_spec st p Hok) as Hs. rewrite H in Hs. destruct Hs as [_ Hall'].
  destruct (is_new_tool (Py.strip p)) eqn:Enew.
  - rewrite (step_marker st p Enew) in H. inversion H; subst st'.
    split; cbn [all_tools current_tool].
    + unfold close_record. destruct (current_tool st) as [t|] eqn:Ect; [|exact Hall].
      destruct (truthy (get Tool_Name t)); [|exact Hall].
      apply Forall_app. split; [exact Hall|]. constructor; [auto | constructor].
    + intros t Ht. inversion Ht; subst t. left. reflexivity.
  - split; [rewrite Hall'; exact Hall|].
    destruct (current_tool st) as [t|] eqn:Ect.
    + destruct (step_carried st t p st' Hok (reachable_fresh st Hr) Ect Enew H)
        as [[t' [Ht' [Hfd _]]] _].
      intros t0 Ht0. rewrite Ht' in Ht0. inversion Ht0; subst t0.
      apply (fd_good_carried _ t t' (Hcur t eq_refl) Hfd).
    + rewrite (step_closed st p Hok Ect Enew) in H. inversion H; subst st'.
      intros t Ht. rewrite Ect in Ht. discriminate Ht.
Qed.

Lemma reachable_fd_goods : forall st, reachable st -> fd_goods st.
Proof.
  induction 1 as [|st p st' Hr IH Hstep].
  - split; [constructor | intros t H; discriminate H].
  - apply (step_fd_goods st p st' Hr IH Hstep).
Qed.

Lemma parse_fd_good : forall paragraphs raw,
  parse paragraphs = Ok raw -> Forall fd_good raw.
Proof.
  intros ps raw H. unfold parse in H.
  destruct (run_lines initial_state ps) as [st|e] eqn:E; [|discriminate H].
  cbn [bind] in H.
  assert (Hr : reachable st) by (eapply run_lines_reachable; [constructor | exact E]).
  destruct (reachable_fd_goods st Hr) as [Hall Hcur].
  unfold finish in H.
  destruct (current_tool st) as [t|] eqn:Ect; [|inversion H; subst; exact Hall].
  destruct (truthy (get Tool_Name t)); [|inversion H; subst; exact Hall].
  destruct (Py.truthy_opt (partial_url st)
            && match current_key st with
               | Some key => field_in key URL_FIELDS
               | None => false
               end) eqn:Ep.
  - apply andb_prop in Ep. destruct Ep as [_ Ek].
    destruct (current_key st) as [k|]; [|discriminate Ek].
    destruct (assign_url (Some k) _ t) as [t'|] eqn:Ea; [|discriminate H].
    cbn [bind] in H. inversion H; subst raw.
    apply Forall_app. split; [exact Hall|]. constructor; [|constructor].
    unfold fd_good.
    rewrite (assign_url_other _ _ _ _ Full_Description Ea);
      [apply (Hcur t eq_refl) | apply (field_in_url_other k Ek)].
  - cbn [bind] in H. inversion H; subst raw.
    apply Forall_app. split; [exact Hall|]. constructor; [auto | constructor].
Qed.

Lemma is_str_resolve_urls : forall v, is_str (resolve_urls v) = is_str v.
Proof. destruct v; reflexivity. Qed.

Lemma post_process_tool_output : forall to_list t t',
  set_listing to_list -> emitted_ok t -> fd_good t ->
  post_process_tool to_list t = Ok t' -> output_ok t'.
Proof.
  intros to_list t t' Hl Hem Hg H.
  assert (Hlists : lists_tidy t').
  { split; [|split].
    - apply (category_after to_list t t' Hl H).
    - apply (tags_after to_list t t' Hl H).
    - apply (screenshots_after to_list t t' Hl H). }
  pose proof (post_process_tool_urls to_list t t' H) as (Hwl & Hlogo & Hss & Hnone).
  pose proof (product_type_after to_list t t' Hem H) as [Hrule Hpt].
  pose proof (post_process_tool_fields to_list t t' H)
    as (Hn & Hsd & Hsl & Hmt & Hmd & _ & Htags & Hfd & Hit & _).
  destruct Hem as [Ht Hname].
  assert (Hdict : is_dict (get Full_Description t') = true).
  { rewrite Hfd, is_dict_fd_after. destruct Hg as [Hd | [v [Hv Hne]]]; [exact Hd|].
    rewrite Hv in Hit. cbn in Hit. rewrite Hne in Hit. discriminate Hit. }
  split; [|split; [|split; [|split]]]; try assumption.
  - apply well_typed_intro.
    + intro f. pose proof (well_typed_fits t f Ht) as Hf.
      destruct Hlists as ((lc & Ec & _) & (lt & Et & _) & (ls & Es & _)).
      destruct Hpt as [s [Es' _]].
      destruct f; cbv [fits] in *;
        rewrite ?Hn, ?Hsd, ?Hsl, ?Hmt, ?Hmd, ?Hwl, ?Hlogo, ?is_str_resolve_urls,
                ?Ec, ?Et, ?Es, ?Es', ?Hdict; try assumption; reflexivity.
    + rewrite Hnone. apply well_typed_none, Ht.
  - destruct (emitted_ok_named t (conj Ht Hname)) as [s [Es Hs]].
    exists s. rewrite Hn. auto.
Qed.

(** X16. Every record of the final output has the fixed shape: the scalar
    keys hold strings and the list keys lists, "Tool Name" and
    "Product Type" are non-empty, "Full Description" is the dict of the
    seven subsections, "Category" is non-empty, "Category" and "Tags" have
    no entry twice, and no list holds an empty entry. *)
Theorem final_output_shape : forall to_list paragraphs out,
  set_listing to_list ->
  doc_to_json to_list paragraphs = Ok out ->
  Forall output_ok out.
Proof.
  intros to_list ps out Hl H. unfold doc_to_json in H.
  destruct (parse ps) as [raw|e] eqn:Ep; [|discriminate H]. cbn [bind] in H.
  pose proof (parse_emitted_ok ps raw Ep) as Hem.
  pose proof (parse_fd_good ps raw Ep) as Hg.
  clear Ep. revert out H.
  induction raw as [|t raw IH]; intros out H; simpl in H.
  - inversion H; subst. constructor.
  - destruct (post_process_tool to_list t) as [t'|] eqn:Et; [|discriminate H].
    cbn [bind] in H.
    destruct (post_process to_list raw) as [out'|] eqn:Er; [|discriminate H].
    cbn [bind] in H. inversion H; subst out.
    inversion Hem; subst. inversion Hg; subst.
    constructor; [|apply IH; auto].
    apply (post_process_tool_output to_list t t'); assumption.
Qed.

Lemma final_output_shape_witness :
  Forall output_ok
    [set Category (VList ["AI Tool"])
         (set Product_Type (VStr "AI Tool")
              (set Website_Link (VStr "https://acme.example/a")
                   (set Tool_Name (VStr "Acme") new_tool)))].
Proof.
  apply (final_output_shape distinct scenario_a);
    [exact distinct_listing | vm_compute; reflexivity].
Defined.

(** ** Blank paragraphs and padding *)

Lemma step_strip : forall st para_text, step st (Py.strip para_text) = step st para_text.
Proof. intros st p. unfold step. rewrite strip_idem. reflexivity. Qed.

Lemma step_blank : forall st para_text,
  Py.nonempty (Py.strip para_text) = false -> step st para_text = Ok st.
Proof. intros st p H. unfold step. rewrite H. reflexivity. Qed.

Lemma run_lines_stripped : forall paragraphs st,
  run_lines st (filter Py.nonempty (map Py.strip paragraphs)) = run_lines st paragraphs.
Proof.
  induction paragraphs as [|p ps IH]; intro st; [reflexivity|].
  cbn [map filter run_lines].
  destruct (Py.nonempty (Py.strip p)) eqn:E.
  - cbn [run_lines]. rewrite step_strip.
    destruct (step st p); cbn [bind]; [apply IH | reflexivity].
  - rewrite (step_blank st p E). cbn [bind]. apply IH.
Qed.

(** X17. Padding and blank paragraphs do not count: stripping every
    paragraph and dropping the empty ones gives the same result, be it the
    records or the exception. *)
Theorem blank_and_padding_ignored : forall to_list paragraphs,
  doc_to_json to_list (filter Py.nonempty (map Py.strip paragraphs))
  = doc_to_json to_list paragraphs.
Proof.
  intros to_list ps. unfold doc_to_json, parse.
  rewrite run_lines_stripped. reflexivity.
Qed.

(** ** The collection is only appended to *)

Lemma map_result_bind : forall (A B C : Type) (f : B -> C) (r : result A) (k : A -> result B),
  map_result f (bind r k) = bind r (fun x => map_result f (k x)).
Proof. intros A B C f [x|e] k; reflexivity. Qed.

Lemma pending_url_line_prepend : forall pre st t pending line cleaned_line,
  pending_url_line (prepend pre st) t pending line cleaned_line
  = map_result (prepend pre) (pending_url_line st t pending line cleaned_line).
Proof.
  intros pre [a b c d e g h i] t pending line cl. unfold pending_url_line, prepend.
  cbn [current_key].
  repeat match goal with
  | |- context [if ?c then _ else _] => destruct c
  | |- context [bind ?r _] => destruct r; cbn [bind]
  end; reflexivity.
Qed.

Lemma classify_line_prepend : forall pre st t line cleaned_line,
  classify_line (prepend pre st) t line cleaned_line
  = map_result (prepend pre) (classify_line st t line cleaned_line).
Proof.
  intros pre [a b c d e g h i] t line cl. unfold classify_line.
  destruct (field_decl line) as [[f v]|].
  - unfold field_line, prepend. cbn.
    repeat match goal with
    | |- context [if ?c then _ else _] => destruct c
    end; reflexivity.
  - unfold logo_line, screenshots_line, screenshots_mode, full_description_mode,
      general_continuation, prepend.
    cbn [in_screenshots in_full_description current_key current_subsection].
    repeat match goal with
    | |- context [if ?c then _ else _] => destruct c
    | |- context [match Py.after_first ?x ?y with _ => _ end] =>
        destruct (Py.after_first x y)
    | |- context [match subsection_decl ?x with _ => _ end] =>
        destruct (subsection_decl x) as [[? ?]|]
    | |- context [match ?x with Some _ => _ | None => _ end] => destruct x
    | |- context [bind ?r _] => destruct r; cbn [bind]
    end; reflexivity.
Qed.

Lemma step_prepend : forall pre st para_text,
  step (prepend pre st) para_text = map_result (prepend pre) (step st para_text).
Proof.
  intros pre st p. unfold step.
  destruct (negb (Py.nonempty (Py.strip p))); [reflexivity|].
  destruct (is_new_tool (Py.strip p)).
  - unfold close_record, prepend. cbn [map_result current_tool all_tools].
    destruct (current_tool st) as [t|]; [|reflexivity].
    destruct (truthy (get Tool_Name t)); [|reflexivity].
    rewrite List.app_assoc. reflexivity.
  - change (expect_tool_name_value (prepend pre st)) with (expect_tool_name_value st).
    change (current_tool (prepend pre st)) with (current_tool st).
    change (partial_url (prepend pre st)) with (partial_url st).
    destruct (expect_tool_name_value st).
    + destruct (current_tool st); reflexivity.
    + destruct (current_tool st) as [t|]; [|reflexivity].
      destruct (Py.truthy_opt (partial_url st)).
      * apply pending_url_line_prepend.
      * apply classify_line_prepend.
Qed.

Lemma run_lines_prepend : forall paragraphs pre st,
  run_lines (prepend pre st) paragraphs
  = map_result (prepend pre) (run_lines st paragraphs).
Proof.
  induction paragraphs as [|p ps IH]; intros pre st; [reflexivity|].
  cbn [run_lines]. rewrite step_prepend.
  destruct (step st p) as [st1|e]; cbn [bind map_result]; [apply IH | reflexivity].
Qed.

Lemma finish_prepend : forall pre st,
  finish (prepend pre st) = map_result (app pre) (finish st).
Proof.
  intros pre [a b c d e g h i]. unfold finish, prepend.
  cbn [current_tool all_tools partial_url current_key].
  destruct b as [t|]; [|reflexivity].
  destruct (truthy (get Tool_Name t)); [|reflexivity].
  match goal with
  | |- context [bind ?r _] => destruct r; cbn [bind map_result]
  end; [rewrite List.app_assoc|]; reflexivity.
Qed.

Lemma finish_nothing_pending : forall st,
  Py.truthy_opt (partial_url st) = false -> finish st = Ok (close_record st).
Proof.
  intros st H. unfold finish, close_record. rewrite H. cbn [andb bind].
  destruct (current_tool st) as [t|]; [|reflexivity].
  destruct (truthy (get Tool_Name t)); reflexivity.
Qed.

Lemma post_process_app : forall to_list xs ys,
  post_process to_list (xs ++ ys)
  = (a <- post_process to_list xs ;;
     b <- post_process to_list ys ;; Ok (a ++ b)%list).
Proof.
  intros to_list xs ys. induction xs as [|x xs IH]; simpl.
  - destruct (post_process to_list ys); reflexivity.
  - destruct (post_process_tool to_list x) as [x'|]; cbn [bind]; [|reflexivity].
    rewrite IH. destruct (post_process to_list xs) as [a|]; cbn [bind]; [|reflexivity].
    destruct (post_process to_list ys); reflexivity.
Qed.

(** The records of a document that continues with a marker. *)
Lemma parse_at_marker : forall before marker rest st,
  run_lines initial_state before = Ok st ->
  is_marker marker = true ->
  parse (before ++ marker :: rest)
  = map_result (app (close_record st)) (parse (marker :: rest)).
Proof.
  intros A m B st E Hm. unfold parse. rewrite run_lines_app, E. cbn [bind run_lines].
  unfold is_marker in Hm.
  assert (Hne : Py.nonempty (Py.strip m) = true).
  { destruct (Py.strip m) eqn:Es; [vm_compute in Hm; discriminate Hm | reflexivity]. }
  assert (Hs : forall s, step s m
               = Ok (mkState (close_record s) (Some new_tool) (Some Tool_Name)
                             None false false None true)).
  { intro s. unfold step. rewrite Hne, Hm. reflexivity. }
  rewrite !Hs. cbn [bind].
  change (close_record initial_state) with (@nil tool).
  replace (mkState (close_record st) (Some new_tool) (Some Tool_Name) None
                   false false None true)
    with (prepend (close_record st)
                  (mkState [] (Some new_tool) (Some Tool_Name) None
                           false false None true))
    by (unfold prepend; cbn; rewrite app_nil_r; reflexivity).
  rewrite run_lines_prepend.
  destruct (run_lines _ B) as [st'|e]; cbn [bind map_result]; [|reflexivity].
  apply finish_prepend.
Qed.

(** X18. Records are converted independently.  When nothing is pending at
    a marker, the document converts to the records of the paragraphs before
    the marker followed by the records of the paragraphs from the marker
    on; it fails when either part does. *)
Theorem records_split_at_marker : forall to_list before marker rest st,
  run_lines initial_state before = Ok st ->
  Py.truthy_opt (partial_url st) = false ->
  is_marker marker = true ->
  doc_to_json to_list (before ++ marker :: rest)
  = (a <- doc_to_json to_list before ;;
     b <- doc_to_json to_list (marker :: rest) ;;
     Ok (a ++ b)%list).
Proof.
  intros to_list A m B st E Hp Hm. unfold doc_to_json.
  rewrite (parse_at_marker A m B st E Hm).
  unfold parse at 2. rewrite E. cbn [bind]. rewrite (finish_nothing_pending st Hp).
  cbn [bind].
  destruct (parse (m :: B)) as [rb|e] eqn:Eb; cbn [bind map_result].
  - rewrite post_process_app.
    destruct (post_process to_list (close_record st)); reflexivity.
  - destruct (post_process to_list (close_record st)) as [a|e'] eqn:Ea;
      cbn [bind]; [reflexivity|].
    apply post_process_error in Ea. destruct Ea as [-> _].
    unfold parse in Eb.
    destruct (run_lines initial_state (m :: B)) as [st'|e1] eqn:E1; cbn [bind] in Eb.
    + assert (Hr : reachable st')
        by (eapply run_lines_reachable; [constructor | exact E1]).
      destruct (finish_ok st' (reachable_cursor_ok st' Hr) (reachable_tools st' Hr))
        as [ts [Ef _]].
      rewrite Ef in Eb. discriminate Eb.
    + inversion Eb; subst e1.
      rewrite (run_lines_error (m :: B) initial_state e reach_initial E1). reflexivity.
Qed.

Lemma records_split_at_marker_witness :
  doc_to_json distinct (["Tool Name:"; "Acme"; "Slug: acme"]
                        ++ "### Tool Name:" :: ["Bolt"; "Tags: a, b"])
  = (a <- doc_to_json distinct ["Tool Name:"; "Acme"; "Slug: acme"] ;;
     b <- doc_to_json distinct ("### Tool Name:" :: ["Bolt"; "Tags: a, b"]) ;;
     Ok (a ++ b)%list).
Proof.
  apply (records_split_at_marker distinct _ _ _
           (mkState [] (Some (set Slug (VStr "acme")
                                  (set Tool_Name (VStr "Acme") new_tool)))
                    (Some Slug) None false false None false));
    vm_compute; reflexivity.
Defined.

(** ** More on [strip] *)

Lemma isspace_colon : forall a, Py.isspace a = true -> Ascii.eqb ":" a = false.
Proof.
  intros a H. destruct (Ascii.eqb ":" a) eqn:E; [|reflexivity].
  apply Ascii.eqb_eq in E. subst a. discriminate H.
Qed.

Lemma rstrip_nonspace : forall a s,
  Py.isspace a = false -> Py.rstrip (String a s) = String a (Py.rstrip s).
Proof. intros a s H. cbn [Py.rstrip]. rewrite H. destruct (Py.rstrip s); reflexivity. Qed.

Lemma rstrip_blank : forall s, all_chars space s = true -> Py.rstrip s = "".
Proof.
  induction s as [|a s IH]; intro H; [reflexivity|].
  cbn [all_chars] in H. apply andb_prop in H. destruct H as [Ha Hs].
  cbn [Py.rstrip]. rewrite (IH Hs). unfold space in Ha. rewrite Ha. reflexivity.
Qed.

Lemma rstrip_split : forall g,
  exists w, g = Py.rstrip g ++ w /\ all_chars space w = true.
Proof.
  induction g as [|a g IH]; [exists ""; auto|].
  destruct IH as [w [Hg Hw]]. cbn [Py.rstrip].
  destruct (Py.rstrip g) as [|b r] eqn:E.
  - destruct (Py.isspace a) eqn:Ea.
    + exists (String a g). split; [reflexivity|]. cbn [all_chars]. unfold space at 1.
      rewrite Ea. simpl in Hg. rewrite Hg. exact Hw.
    + exists w. simpl in Hg. subst w. split; [reflexivity | exact Hw].
  - exists w. split; [|exact Hw]. simpl. f_equal. exact Hg.
Qed.

Lemma rstrip_suffix_not_blank : forall g1 h,
  Py.rstrip (g1 ++ h) = g1 ++ h -> h <> "" -> all_chars space h = false.
Proof.
  induction g1 as [|a g1 IH]; intros h H Hne.
  - destruct (all_chars space h) eqn:E; [|reflexivity].
    simpl in H. rewrite (rstrip_blank h E) in H. congruence.
  - apply IH; [|exact Hne]. simpl in H. cbn [Py.rstrip] in H.
    destruct (Py.rstrip (g1 ++ h)) as [|b r] eqn:E.
    + destruct (Py.isspace a); [discriminate H|].
      inversion H as [H1]. symmetry in H1. apply app_is_empty in H1. tauto.
    + inversion H. reflexivity.
Qed.

Lemma lstrip_app_colon : forall h rest,
  Py.lstrip (h ++ ":" ++ rest) = Py.lstrip h ++ ":" ++ rest.
Proof.
  induction h as [|a h IH]; intro rest; [reflexivity|].
  simpl. destruct (Py.isspace a); [apply IH | reflexivity].
Qed.

Lemma lstrip_blank : forall w, all_chars space w = true -> Py.lstrip w = "".
Proof.
  induction w as [|a w IH]; intro H; [reflexivity|].
  cbn [all_chars] in H. apply andb_prop in H. destruct H as [Ha Hw].
  unfold space in Ha. cbn [Py.lstrip]. rewrite Ha. apply IH, Hw.
Qed.

Lemma lstrip_idem : forall s, Py.lstrip (Py.lstrip s) = Py.lstrip s.
Proof.
  intro s. destruct (lstrip_head s) as [-> | [a [r [-> Ha]]]]; [reflexivity|].
  apply lstrip_nonspace, Ha.
Qed.

Lemma lstrip_rstrip : forall s, Py.lstrip (Py.rstrip s) = Py.rstrip (Py.lstrip s).
Proof.
  induction s as [|a s IH]; [reflexivity|].
  destruct (Py.isspace a) eqn:Ea.
  - cbn [Py.lstrip Py.rstrip]. rewrite Ea, <- IH.
    destruct (Py.rstrip s) as [|b r]; [reflexivity|].
    cbn [Py.lstrip]. rewrite Ea. reflexivity.
  - rewrite (lstrip_nonspace a s Ea), (rstrip_nonspace a s Ea).
    apply lstrip_nonspace, Ea.
Qed.

Lemma strip_rstrip : forall s, Py.strip (Py.rstrip s) = Py.strip s.
Proof. intro s. unfold Py.strip. rewrite lstrip_rstrip. apply rstrip_idem. Qed.

Lemma strip_lstrip : forall s, Py.strip (Py.lstrip s) = Py.strip s.
Proof. intro s. unfold Py.strip. rewrite lstrip_idem. reflexivity. Qed.

Lemma all_chars_drop : forall q n s, all_chars q s = true -> all_chars q (drop_chars n s) = true.
Proof.
  intros q n. induction n as [|n IH]; intros s H; [destruct s; exact H|].
  destruct s as [|a s]; [exact H|]. simpl in H. apply andb_prop in H.
  apply IH. tauto.
Qed.

(** ** The label pattern on a line with a colon *)

Lemma star_greedy_lstrip : forall (R : Type) s (k : string -> option R) x,
  k (Py.lstrip s) = Some x -> star_greedy space s k = Some x.
Proof.
  intros R s k x. induction s as [|a s IH]; intro H; [exact H|].
  cbn [star_greedy Py.lstrip] in *. unfold space at 1.
  destruct (Py.isspace a); [rewrite (IH H); reflexivity | exact H].
Qed.

(** After blanks, a character that is no colon: the colon of the pattern
    cannot match, whatever number of blanks is given back. *)
Lemma colon_not_next : forall (R : Type) s (k : string -> option R),
  (forall b r, Ascii.eqb ":" b = false -> k (String b r) = None) ->
  (exists b r, Py.lstrip s = String b r /\ Ascii.eqb ":" b = false) ->
  star_greedy space s k = None.
Proof.
  intros R s k Hk. induction s as [|a s IH]; intros [b [r [Hs Hb]]]; [discriminate Hs|].
  cbn [star_greedy Py.lstrip] in *. unfold space at 1.
  destruct (Py.isspace a) eqn:Ea.
  - rewrite IH by eauto. apply Hk, isspace_colon, Ea.
  - inversion Hs; subst. apply Hk, Hb.
Qed.

Lemma lstrip_label : forall h tail,
  all_chars label_part h = true -> all_chars space h = false ->
  exists b r, Py.lstrip (h ++ tail) = String b r /\ Ascii.eqb ":" b = false.
Proof.
  induction h as [|a h IH]; intros tail Hl Hs; [discriminate Hs|].
  cbn [all_chars] in Hl, Hs. apply andb_prop in Hl. destruct Hl as [Ha Hl].
  simpl. unfold space in Hs at 1. destruct (Py.isspace a).
  - apply IH; assumption.
  - exists a, (h ++ tail). split; [reflexivity|].
    unfold label_part in Ha. apply andb_prop in Ha. destruct Ha as [_ Ha].
    apply negb_true_iff, Ha.
Qed.

(** A lazy repetition passes the characters at which the rest of the
    pattern fails and stops where it matches. *)
Lemma star_lazy_skip : forall (R : Type) p g tail (k : string -> option R) x,
  all_chars p g = true ->
  (forall g1 a g2, g = g1 ++ String a g2 -> k (String a g2 ++ tail) = None) ->
  k tail = Some x ->
  star_lazy p (g ++ tail) k = Some x.
Proof.
  intros R p g tail k x. induction g as [|a g IH]; intros Hp Hf Hk.
  - simpl. destruct tail; cbn [star_lazy]; rewrite Hk; reflexivity.
  - cbn [all_chars] in Hp. apply andb_prop in Hp. destruct Hp as [Ha Hp].
    change (String a g ++ tail) with (String a (g ++ tail)). cbn [star_lazy].
    rewrite (Hf "" a g eq_refl : k (String a (g ++ tail)) = None), Ha.
    apply IH; [exact Hp | | exact Hk].
    intros g1 b g2 E. apply (Hf (String a g1) b g2). simpl. f_equal. exact E.
Qed.

Lemma run_value : forall (R : Type) n rest c (k : string -> captures -> option R) x,
  all_chars dot rest = true ->
  k "" ((3, Py.lstrip rest) :: c) = Some x ->
  run value_re n rest c k = Some x.
Proof.
  intros R n rest c k x Hr Hk. unfold value_re. cbn [run].
  apply star_greedy_lstrip.
  rewrite (star_greedy_all _ dot (Py.lstrip rest) _ x); [reflexivity | |].
  - apply all_chars_lstrip, Hr.
  - rewrite consumed_all. exact Hk.
Qed.

Lemma run_label : forall (R : Type) n g rest c (k : string -> captures -> option R) x,
  all_chars label_part g = true ->
  all_chars dot rest = true ->
  k "" ((3, Py.lstrip rest) :: (2, Py.rstrip g) :: c) = Some x ->
  run label_re n (g ++ ":" ++ rest) c k = Some x.
Proof.
  intros R n g rest c k x Hg Hr Hk.
  destruct (rstrip_split g) as [w [Eg Hw]].
  assert (Hg0 : all_chars label_part (Py.rstrip g) = true)
    by (apply all_chars_rstrip, Hg).
  rewrite Eg at 1. rewrite app_assoc. unfold label_re. cbn [run].
  apply star_lazy_skip.
  - revert Hg0. apply all_chars_impl. intros a Ha. unfold label_part in Ha.
    apply andb_prop in Ha. tauto.
  - intros g1 a g2 E. apply colon_not_next.
    + intros b r Hb. unfold chr. cbn [run]. rewrite Hb. reflexivity.
    + apply lstrip_label.
      * rewrite E, all_chars_app in Hg0. apply andb_prop in Hg0. tauto.
      * apply (rstrip_suffix_not_blank g1); [|discriminate].
        rewrite <- E. apply rstrip_idem.
  - apply star_greedy_lstrip. rewrite lstrip_app_colon, (lstrip_blank w Hw).
    unfold chr. cbn [run append]. rewrite Ascii.eqb_refl.
    apply run_value; [exact Hr|]. rewrite consumed_app. exact Hk.
Qed.

Lemma startswith_marks_colon : forall g rest,
  Py.startswith "###" g = false ->
  Py.startswith "###" (g ++ ":" ++ rest) = false.
Proof.
  intros g rest H.
  destruct g as [|a [|b [|c g]]]; cbn -[Ascii.eqb] in *;
    change (Ascii.eqb "#" ":") with false;
    repeat match goal with
    | |- context [Ascii.eqb "#" ?y] => destruct (Ascii.eqb "#" y); cbn -[Ascii.eqb] in *
    end; try reflexivity; try discriminate H.
Qed.

(** The label pattern on a line with a colon: the label is the text before
    the first colon, the value the text after it. *)
Lemma labelled_match : forall g rest,
  all_chars label_part g = true ->
  all_chars dot rest = true ->
  exists m,
    re_match (Pat.labelled "###") (g ++ ":" ++ rest) = Some m
    /\ group_text 2 m = Py.rstrip (label_text g)
    /\ inline_value m = Py.strip rest.
Proof.
  intros g rest Hg Hr. unfold re_match, match_at.
  change (Pat.labelled "###")
    with (Seq Bol (Seq (Opt (Group 1 (Seq (lit "###") (Star space)))) label_re)).
  set (s := g ++ ":" ++ rest). cbn [run]. rewrite Nat.eqb_refl.
  rewrite run_lit. unfold label_text.
  assert (Hv : forall l : string,
            (if Py.nonempty (Py.lstrip l) then Py.strip (Py.lstrip l) else "")
            = Py.strip l).
  { intro l. rewrite strip_lstrip. unfold Py.strip.
    destruct (Py.lstrip l); reflexivity. }
  destruct (Py.startswith "###" g) eqn:Eh.
  - apply startswith_split in Eh. cbn [String.length] in Eh.
    set (d := drop_chars 3 g) in *.
    assert (Hd : all_chars label_part d = true) by (apply all_chars_drop, Hg).
    assert (Es : s = "###" ++ d ++ ":" ++ rest)
      by (unfold s; rewrite Eh at 1; reflexivity).
    rewrite Es. rewrite startswith_app, drop_chars_app.
    eexists. split.
    + erewrite star_greedy_lstrip; [reflexivity|].
      rewrite lstrip_app_colon. apply run_label;
        [apply all_chars_lstrip, Hd | exact Hr | reflexivity].
    + unfold group_text, inline_value. cbn [m_groups group Nat.eqb].
      split; [reflexivity | apply Hv].
  - unfold s at 1. rewrite (startswith_marks_colon g rest Eh).
    eexists. split.
    + unfold s. apply run_label; [exact Hg | exact Hr | reflexivity].
    + unfold group_text, inline_value. cbn [m_groups group Nat.eqb].
      split; [reflexivity | apply Hv].
Qed.

(** ** Letter case and [strip] *)

Lemma name_char_parts : forall a,
  name_char a = true ->
  label_part a = true /\ unmarked a = true /\ Ascii.eqb "#" a = false.
Proof.
  intros [[] [] [] [] [] [] [] []]; vm_compute; intro H;
    solve [auto | discriminate H].
Qed.

Lemma isspace_lower_char : forall a, Py.isspace (Py.lower_char a) = Py.isspace a.
Proof. intros [[] [] [] [] [] [] [] []]; vm_compute; reflexivity. Qed.

Lemma all_chars_lower : forall q g,
  all_chars q (Py.lower g) = all_chars (fun a => q (Py.lower_char a)) g.
Proof.
  intros q g. induction g as [|a g IH]; [reflexivity|].
  cbn [Py.lower all_chars]. rewrite IH. reflexivity.
Qed.

Lemma lower_lstrip : forall s, Py.lower (Py.lstrip s) = Py.lstrip (Py.lower s).
Proof.
  induction s as [|a s IH]; [reflexivity|].
  cbn [Py.lower Py.lstrip]. rewrite isspace_lower_char.
  destruct (Py.isspace a); [exact IH | reflexivity].
Qed.

Lemma lower_rstrip : forall s, Py.lower (Py.rstrip s) = Py.rstrip (Py.lower s).
Proof.
  induction s as [|a s IH]; [reflexivity|].
  cbn [Py.lower Py.rstrip]. rewrite isspace_lower_char, <- IH.
  destruct (Py.rstrip s); cbn [Py.lower]; [destruct (Py.isspace a)|]; reflexivity.
Qed.

Lemma lower_strip : forall s, Py.lower (Py.strip s) = Py.strip (Py.lower s).
Proof. intro s. unfold Py.strip. rewrite lower_rstrip, lower_lstrip. reflexivity. Qed.

Lemma lstrip_blank_app : forall w g,
  all_chars space w = true -> Py.lstrip (w ++ g) = Py.lstrip g.
Proof.
  induction w as [|a w IH]; intros g H; [reflexivity|].
  cbn [all_chars] in H. apply andb_prop in H. destruct H as [Ha Hw].
  unfold space in Ha. simpl. rewrite Ha. apply IH, Hw.
Qed.

(** ** Field lines *)

Lemma field_name_chars : forall f g,
  Py.lower g = Py.lower (field_name f) -> all_chars name_char g = true.
Proof.
  intros f g H. unfold name_char.
  rewrite <- (all_chars_lower
                (fun c => ((97 <=? Py.code c) && (Py.code c <=? 122)
                           || (Py.code c =? 32))%N) g).
  rewrite H. destruct f; reflexivity.
Qed.

Lemma field_named_strip : forall f g,
  Py.lower g = Py.lower (field_name f) -> field_named (Py.strip g) = Some f.
Proof.
  intros f g H. unfold field_named. rewrite lower_strip, H.
  destruct f; reflexivity.
Qed.

Lemma clean_text_name : forall g,
  all_chars name_char g = true -> clean_text (Py.strip g) = Py.strip g.
Proof.
  intros g H.
  assert (Hu : all_chars unmarked (Py.strip g) = true).
  { apply all_chars_strip. revert H. apply all_chars_impl.
    intros a Ha. apply name_char_parts in Ha. tauto. }
  destruct (unmarked_parts _ Hu) as [He Hb].
  unfold clean_text. rewrite (remove_emphasis_id _ He), (remove_links_id _ Hb).
  apply strip_idem.
Qed.

Lemma heading_label : forall h g,
  heading_marks h = true ->
  all_chars name_char g = true ->
  all_chars label_part (h ++ g) = true
  /\ Py.strip (label_text (h ++ g)) = Py.strip g.
Proof.
  intros h g Hh Hg.
  assert (Hl : all_chars label_part g = true).
  { revert Hg. apply all_chars_impl. intros a Ha. apply name_char_parts in Ha. tauto. }
  destruct h as [|a h].
  - split; [exact Hl|]. simpl. unfold label_text.
    destruct g as [|b g]; [reflexivity|].
    cbn [all_chars] in Hg. apply andb_prop in Hg. destruct Hg as [Hb _].
    apply name_char_parts in Hb. destruct Hb as (_ & _ & Hb).
    cbn -[Ascii.eqb]. rewrite Hb. reflexivity.
  - cbn [heading_marks] in Hh. apply andb_prop in Hh. destruct Hh as [Hs Hw].
    pose proof (startswith_split _ _ Hs) as Eh. cbn [String.length] in Eh.
    remember (drop_chars 3 (String a h)) as w eqn:Ew. clear Ew.
    assert (Hws : all_chars space w = true).
    { revert Hw. apply all_chars_impl. intros b Hb. apply andb_prop in Hb. tauto. }
    split.
    + rewrite all_chars_app, Hl, andb_true_r. rewrite Eh.
      change ("###" ++ w) with (String "#" (String "#" (String "#" w))).
      cbn [all_chars]. change (label_part "#") with true. cbn [andb].
      revert Hw. apply all_chars_impl. intros b Hb. apply andb_prop in Hb.
      destruct Hb as [Hb1 Hb2]. unfold label_part. rewrite Hb2.
      unfold space in Hb1. rewrite (isspace_colon b Hb1). reflexivity.
    + unfold label_text. rewrite Eh, app_assoc, startswith_app.
      change 3 with (String.length "###"). rewrite drop_chars_app.
      rewrite strip_lstrip. unfold Py.strip.
      rewrite (lstrip_blank_app w g Hws). reflexivity.
Qed.

(** A line made of a field name in any letter case, a colon and a value on
    the same line declares that field, with or without heading marks. *)
Lemma field_decl_named : forall h f g rest,
  heading_marks h = true ->
  Py.lower g = Py.lower (field_name f) ->
  all_chars dot rest = true ->
  field_decl (h ++ g ++ ":" ++ rest) = Some (f, Py.strip rest).
Proof.
  intros h f g rest Hh Hg Hr.
  pose proof (field_name_chars f g Hg) as Hn.
  destruct (heading_label h g Hh Hn) as [Hl Hs].
  destruct (labelled_match (h ++ g) rest Hl Hr) as [m [Em [E2 E3]]].
  rewrite app_assoc in Em.
  unfold field_decl, field_match. rewrite Em. unfold matched_field.
  rewrite E2, strip_rstrip, Hs, (clean_text_name g Hn), E3.
  fold (field_named (Py.strip g)). rewrite (field_named_strip f g Hg). reflexivity.
Qed.

(** X19. On a line that has a colon and no line break after it, the label
    is the text before the first colon, without the three heading marks it
    may start with, and the value is the whole text after that colon,
    stripped: later colons belong to the value. *)
Theorem field_decl_first_colon : forall g rest,
  all_chars label_part g = true ->
  all_chars dot rest = true ->
  field_decl (g ++ ":" ++ rest)
  = match field_named (clean_text (Py.strip (label_text g))) with
    | Some f => Some (f, Py.strip rest)
    | None => None
    end.
Proof.
  intros g rest Hg Hr.
  destruct (labelled_match g rest Hg Hr) as [m [Em [E2 E3]]].
  unfold field_decl, field_match. rewrite Em. unfold matched_field.
  rewrite E2, strip_rstrip, E3. reflexivity.
Qed.

Lemma field_decl_first_colon_witness :
  field_decl ("### **Meta Title** " ++ ":" ++ " Acme: the tool")
  = match field_named (clean_text (Py.strip (label_text "### **Meta Title** "))) with
    | Some f => Some (f, Py.strip " Acme: the tool")
    | None => None
    end.
Proof.
  apply field_decl_first_colon; vm_compute; reflexivity.
Defined.

(** X20. A line made of a field name in any letter case, a colon and a
    value declares that field with the stripped value, whatever the value
    holds on that line; the three heading marks before the name change
    nothing. *)
Theorem field_line_recognised : forall h f g rest,
  heading_marks h = true ->
  Py.lower g = Py.lower (field_name f) ->
  all_chars dot rest = true ->
  field_decl (h ++ g ++ ":" ++ rest) = Some (f, Py.strip rest).
Proof.
  intros h f g rest Hh Hg Hr. apply field_decl_named; assumption.
Qed.

Lemma field_line_recognised_witness :
  field_decl ("###  " ++ "SHORT description" ++ ":" ++ " see [docs](http://d.example): ok ")
  = Some (Short_Description, Py.strip " see [docs](http://d.example): ok ").
Proof.
  apply field_line_recognised; vm_compute; reflexivity.
Defined.

(** ** The dedicated "logo:" and "screenshots:" blocks *)

Lemma lower_app_inv : forall k1 k2 pre,
  Py.lower pre = k1 ++ k2 ->
  exists p1 p2, pre = p1 ++ p2 /\ Py.lower p1 = k1 /\ Py.lower p2 = k2.
Proof.
  induction k1 as [|b k1 IH]; intros k2 pre H.
  - exists "", pre. auto.
  - destruct pre as [|a pre]; [discriminate H|]. simpl in H. inversion H as [[Ha Hp]].
    destruct (IH k2 pre Hp) as [p1 [p2 [-> [H1 H2]]]].
    exists (String a p1), p2. simpl. rewrite H1. auto.
Qed.

Lemma lower_char_colon : forall a, Py.lower_char a = ":"%char -> a = ":"%char.
Proof.
  intros [[] [] [] [] [] [] [] []]; vm_compute; intro H;
    solve [reflexivity | discriminate H].
Qed.

Lemma lower_prefix_colon : forall k line,
  Py.startswith (k ++ ":") (Py.lower line) = true ->
  exists g rest, line = g ++ ":" ++ rest /\ Py.lower g = k.
Proof.
  intros k line H. apply startswith_lower in H. destruct H as [pre [r [-> Hp]]].
  apply lower_app_inv in Hp. destruct Hp as [g [p2 [-> [Hg H2]]]].
  destruct p2 as [|a [|b p2]]; try discriminate H2.
  simpl in H2. inversion H2 as [Ha]. apply lower_char_colon in Ha. subst a.
  exists g, r. rewrite app_assoc. auto.
Qed.

Lemma special_prefix_declares : forall f line,
  all_chars dot line = true ->
  Py.startswith (Py.lower (field_name f) ++ ":") (Py.lower line) = true ->
  exists v, field_decl line = Some (f, v).
Proof.
  intros f line Hl H. apply lower_prefix_colon in H.
  destruct H as [g [rest [-> Hg]]].
  rewrite !all_chars_app in Hl. apply andb_prop in Hl. destruct Hl as [_ Hl].
  apply andb_prop in Hl. destruct Hl as [_ Hr].
  exists (Py.strip rest). apply (field_decl_named "" f g rest eq_refl Hg Hr).
Qed.

(** X21. A line without line break that starts with "logo:" or
    "screenshots:", in any letter case, is taken by the field rule of lines
    118 to 144: the dedicated blocks of lines 146 to 172 are reached by no
    such line. *)
Theorem dedicated_blocks_need_line_break : forall st t line cleaned_line,
  all_chars dot line = true ->
  Py.startswith "logo:" (Py.lower line)
  || Py.startswith "screenshots:" (Py.lower line) = true ->
  exists f v,
    field_in f [Logo; Screenshots] = true
    /\ field_decl line = Some (f, v)
    /\ classify_line st t line cleaned_line = Ok (field_line st t f v).
Proof.
  intros st t line cl Hl H. apply orb_prop in H.
  assert (Hf : exists f v, field_in f [Logo; Screenshots] = true
                           /\ field_decl line = Some (f, v)).
  { destruct H as [H | H].
    - destruct (special_prefix_declares Logo line Hl H) as [v Hv].
      exists Logo, v. auto.
    - destruct (special_prefix_declares Screenshots line Hl H) as [v Hv].
      exists Screenshots, v. auto. }
  destruct Hf as [f [v [Hin Hd]]]. exists f, v.
  split; [exact Hin|]. split; [exact Hd|].
  unfold classify_line. rewrite Hd. reflexivity.
Qed.

Lemma dedicated_blocks_need_line_break_witness :
  exists f v,
    field_in f [Logo; Screenshots] = true
    /\ field_decl "LOGO: www.acme.example/logo.png" = Some (f, v)
    /\ classify_line open_state widget "LOGO: www.acme.example/logo.png"
         "LOGO: www.acme.example/logo.png"
       = Ok (field_line open_state widget f v).
Proof.
  apply dedicated_blocks_need_line_break; vm_compute; reflexivity.
Defined.

(** With a line break in the value the label pattern fails and the
    dedicated block is reached. *)
Example logo_block_reached :
  field_decl logo_two_lines = None
  /\ classify_line open_state widget logo_two_lines (clean_text logo_two_lines)
     = logo_line open_state widget (clean_text logo_two_lines).
Proof. vm_compute. split; reflexivity. Qed.

(** ** The fallback pattern with two heading marks *)

Lemma run_seq_suffix : forall (R : Type) r1 r2 n s0 s c
                              (k : string -> captures -> option R) x,
  suffix s s0 -> captured_in s0 c ->
  run (Seq r1 r2) n s c k = Some x ->
  exists s' c', run r2 n s' c' k = Some x /\ suffix s' s0 /\ captured_in s0 c'.
Proof.
  intros R r1 r2 n s0 s c k x Hs Hc H. cbn [run] in H.
  apply (run_suffix _ _ _ s0) in H; [|exact Hs | exact Hc].
  destruct H as [s' [c' [H [Hs' Hc']]]]. exists s', c'.
  split; [exact H|]. split; [|exact Hc']. apply (suffix_trans _ _ _ Hs' Hs).
Qed.

Lemma has_colon_suffix : forall s' s, suffix (String ":" s') s -> has_colon s = true.
Proof.
  intros s' s [p ->]. unfold has_colon. rewrite all_chars_app. simpl.
  rewrite andb_false_r. reflexivity.
Qed.

(** The label pattern matches only a text with a colon. *)
Lemma labelled_colon : forall marks s m,
  re_match (Pat.labelled marks) s = Some m -> has_colon s = true.
Proof.
  intros marks s m H. unfold re_match, match_at in H.
  change (Pat.labelled marks)
    with (Seq Bol (Seq (Opt (Group 1 (Seq (lit marks) (Star space))))
                       (Seq (Group 2 (StarLazy dot))
                            (Seq (Star space) (Seq (chr ":") value_re))))) in H.
  assert (Hc0 : captured_in s []) by (intros i g []).
  apply (run_seq_suffix _ _ _ _ s) in H; [|apply suffix_refl | exact Hc0].
  destruct H as [s1 [c1 [H [Hs1 Hc1]]]].
  apply (run_seq_suffix _ _ _ _ s) in H; [|exact Hs1 | exact Hc1].
  destruct H as [s2 [c2 [H [Hs2 Hc2]]]].
  apply (run_seq_suffix _ _ _ _ s) in H; [|exact Hs2 | exact Hc2].
  destruct H as [s3 [c3 [H [Hs3 Hc3]]]].
  apply (run_seq_suffix _ _ _ _ s) in H; [|exact Hs3 | exact Hc3].
  destruct H as [s4 [c4 [H [Hs4 Hc4]]]].
  unfold chr in H. cbn [run] in H.
  destruct s4 as [|a s4]; [discriminate H|].
  destruct (Ascii.eqb ":" a) eqn:Ea; [|discriminate H].
  apply Ascii.eqb_eq in Ea. subst a. apply (has_colon_suffix s4 s Hs4).
Qed.

Lemma first_colon : forall s,
  has_colon s = true ->
  exists g rest, s = g ++ ":" ++ rest
                 /\ all_chars (fun a => negb (Ascii.eqb ":" a)) g = true.
Proof.
  unfold has_colon. induction s as [|a s IH]; intro H; [discriminate H|].
  destruct (Ascii.eqb ":" a) eqn:Ea.
  - apply Ascii.eqb_eq in Ea. subst a. exists "", s. auto.
  - cbn [all_chars] in H. rewrite Ascii.eqb_sym, Ea in H. cbn [negb andb] in H.
    destruct (IH H) as [g [rest [-> Hg]]].
    exists (String a g), rest. split; [reflexivity|].
    cbn [all_chars]. rewrite Ea, Hg. reflexivity.
Qed.

(** X22. On a line without line break the fallback pattern of line 118,
    with two heading marks, is never the one that matches: when the first
    pattern fails, so does the fallback. *)
Theorem two_mark_pattern_never_used : forall line,
  all_chars dot line = true ->
  field_match line = re_match (Pat.labelled "###") line.
Proof.
  intros line Hl. unfold field_match.
  destruct (re_match (Pat.labelled "###") line) as [m|] eqn:E1; [reflexivity|].
  destruct (re_match (Pat.labelled "##") line) as [m2|] eqn:E2; [|reflexivity].
  exfalso. apply labelled_colon in E2. apply first_colon in E2.
  destruct E2 as [g [rest [-> Hg]]].
  rewrite !all_chars_app in Hl. apply andb_prop in Hl. destruct Hl as [Hd Hl].
  apply andb_prop in Hl. destruct Hl as [_ Hr].
  assert (Hlab : all_chars label_part g = true).
  { clear E1. induction g as [|a g IH]; [reflexivity|].
    cbn [all_chars] in *. apply andb_prop in Hg. apply andb_prop in Hd.
    unfold label_part at 1. destruct Hg as [-> Hg]. destruct Hd as [-> Hd].
    apply IH; assumption. }
  destruct (labelled_match g rest Hlab Hr) as [m [Em _]].
  rewrite Em in E1. discriminate E1.
Qed.

Lemma two_mark_pattern_never_used_witness :
  field_match "## Slug: acme" = re_match (Pat.labelled "###") "## Slug: acme".
Proof.
  apply two_mark_pattern_never_used. vm_compute. reflexivity.
Defined.

(** ** A record in the canonical layout *)

Lemma rstrip_app_colon : forall h rest,
  Py.rstrip (h ++ ":" ++ rest) = h ++ ":" ++ Py.rstrip rest.
Proof.
  induction h as [|a h IH]; intro rest.
  - apply rstrip_nonspace. reflexivity.
  - change (String a h ++ ":" ++ rest) with (String a (h ++ ":" ++ rest)).
    cbn [Py.rstrip]. rewrite IH. destruct h; reflexivity.
Qed.

Lemma strip_label_line : forall a k rest,
  Py.isspace a = false ->
  Py.strip (String a k ++ ":" ++ rest) = String a k ++ ":" ++ Py.rstrip rest.
Proof.
  intros a k rest Ha. unfold Py.strip.
  change (String a k ++ ":" ++ rest) with (String a (k ++ ":" ++ rest)).
  rewrite (lstrip_nonspace _ _ Ha). apply (rstrip_app_colon (String a k)).
Qed.

Lemma strip_no_space : forall u,
  all_chars (fun a => negb (Py.isspace a)) u = true -> Py.strip u = u.
Proof.
  intros u H. unfold Py.strip.
  assert (Hl : Py.lstrip u = u).
  { destruct u as [|a u]; [reflexivity|]. simpl in H. apply andb_prop in H.
    destruct H as [Ha _]. apply negb_true_iff in Ha. apply lstrip_nonspace, Ha. }
  rewrite Hl. induction u as [|a u IH]; [reflexivity|].
  cbn [all_chars] in H. apply andb_prop in H. destruct H as [Ha Hu].
  apply negb_true_iff in Ha. rewrite (rstrip_nonspace _ _ Ha). f_equal.
  apply IH; [exact Hu|].
  destruct u as [|b u]; [reflexivity|]. simpl in Hu. apply andb_prop in Hu.
  destruct Hu as [Hb _]. apply negb_true_iff in Hb. apply lstrip_nonspace, Hb.
Qed.

Lemma url_shaped_strip : forall u, url_shaped u -> Py.strip u = u.
Proof.
  intros u [rest [Hu [_ Hr]]]. apply strip_no_space.
  assert (Hs : all_chars (fun a => negb (Py.isspace a)) rest = true).
  { revert Hr. apply all_chars_impl. intros a Ha. unfold Pat.url_char in Ha.
    apply negb_true_iff in Ha.
    do 5 (apply orb_false_elim in Ha; destruct Ha as [Ha _]).
    rewrite Ha. reflexivity. }
  destruct Hu as [-> | ->]; rewrite all_chars_app, Hs; reflexivity.
Qed.

(** The header pattern needs a heading mark or the letters of "Tool Name"
    at the start. *)
Lemma header_start : forall a b s,
  not_header_start a b = true ->
  re_match Pat.tool_header (String a (String b s)) = None.
Proof.
  intros a b s H. unfold not_header_start in H.
  apply andb_prop in H. destruct H as [H1 H2].
  apply negb_true_iff in H1. apply negb_true_iff in H2.
  unfold re_match, match_at, Pat.tool_header, chr_i.
  cbn -[Ascii.eqb Py.lower_char Nat.eqb String.length].
  rewrite Nat.eqb_refl.
  change (Py.lower_char "#") with "#"%char.
  change (Py.lower_char "T") with "t"%char.
  change (Py.lower_char "o") with "o"%char.
  rewrite H1.
  destruct (Ascii.eqb (Py.lower_char a) "t"); [|reflexivity].
  cbn [andb] in H2. rewrite H2. reflexivity.
Qed.

Lemma not_marker_start : forall a b r,
  plain a = true -> plain b = true -> not_header_start a b = true ->
  is_new_tool (String a (String b r)) = false.
Proof.
  intros a b r Ha Hb H. unfold is_new_tool.
  destruct (clean_text_prefix (String a (String b "")) r) as [r' E];
    [discriminate | cbn [all_chars]; rewrite Ha, Hb; reflexivity |].
  cbn [append] in E. rewrite E, (header_start a b r' H). reflexivity.
Qed.

Lemma step_name : forall st t para_text,
  expect_tool_name_value st = true ->
  current_tool st = Some t ->
  is_marker para_text = false ->
  Py.nonempty (Py.strip para_text) = true ->
  step st para_text
  = Ok (set_expect false
          (set_tool (set Tool_Name (VStr (clean_text (Py.strip para_text))) t) st)).
Proof.
  intros st t p He Ht Hm Hn. unfold is_marker in Hm. unfold step.
  rewrite Hn, Hm, He, Ht. reflexivity.
Qed.

(** A field line in an open record with nothing pending. *)
Lemma step_field : forall st t f g rest para_text,
  current_tool st = Some t ->
  expect_tool_name_value st = false ->
  Py.truthy_opt (partial_url st) = false ->
  is_marker para_text = false ->
  Py.strip para_text = g ++ ":" ++ rest ->
  Py.lower g = Py.lower (field_name f) ->
  all_chars dot rest = true ->
  step st para_text = Ok (field_line st t f (Py.strip rest)).
Proof.
  intros st t f g rest p Ht He Hp Hm Hs Hg Hr. unfold is_marker in Hm. unfold step.
  rewrite Hm, He, Ht, Hp, Hs.
  assert (Hn : Py.nonempty (g ++ ":" ++ rest) = true) by (destruct g; reflexivity).
  rewrite Hn. cbn [negb]. unfold classify_line.
  pose proof (field_decl_named "" f g rest eq_refl Hg Hr) as Hd.
  change ("" ++ g ++ ":" ++ rest) with (g ++ ":" ++ rest) in Hd.
  rewrite Hd. reflexivity.
Qed.

Lemma step_canonical : forall st t f v,
  current_tool st = Some t ->
  expect_tool_name_value st = false ->
  Py.truthy_opt (partial_url st) = false ->
  f <> Tool_Name ->
  all_chars dot v = true ->
  step st (field_name f ++ ": " ++ v) = Ok (field_line st t f (Py.strip v)).
Proof.
  intros st t f v Ht He Hp Hf Hv.
  assert (Hs : Py.strip (field_name f ++ ": " ++ v)
               = field_name f ++ ":" ++ Py.rstrip (" " ++ v)).
  { destruct f; apply strip_label_line; reflexivity. }
  assert (Hv' : Py.strip (Py.rstrip (" " ++ v)) = Py.strip v)
    by (rewrite strip_rstrip; reflexivity).
  rewrite <- Hv'.
  apply (step_field st t f (field_name f) (Py.rstrip (" " ++ v)));
    try assumption; try reflexivity.
  - unfold is_marker. rewrite Hs.
    destruct f; try congruence; apply not_marker_start; reflexivity.
  - apply all_chars_rstrip. cbn [append all_chars]. rewrite Hv. reflexivity.
Qed.

Lemma field_line_link : forall st t u,
  url_shaped u ->
  field_line st t Website_Link u
  = set_tool (set Website_Link (VStr u) t) (enter_field Website_Link false false st).
Proof.
  intros st t u Hu. unfold field_line.
  rewrite (url_shaped_nonempty u Hu), (extract_url_fixed u Hu).
  cbn [field_in ARRAY_FIELDS URL_FIELDS existsb field_eqb orb Py.truthy_opt Py.or_else].
  rewrite (url_shaped_nonempty u Hu). reflexivity.
Qed.

Lemma field_line_text : forall st t f v,
  field_in f ARRAY_FIELDS = false -> field_in f URL_FIELDS = false ->
  Py.nonempty v = true ->
  field_line st t f v
  = set_tool (set f (VStr v) t)
             (enter_field f (field_eqb f Full_Description) (field_eqb f Screenshots) st).
Proof. intros st t f v Ha Hu Hv. unfold field_line. rewrite Hv, Ha, Hu. reflexivity. Qed.

Lemma field_line_items : forall st t f v,
  field_in f ARRAY_FIELDS = true ->
  Py.nonempty v = true ->
  field_line st t f v
  = set_tool (set f (VList (comma_items v)) t)
             (enter_field f (field_eqb f Full_Description) (field_eqb f Screenshots) st).
Proof. intros st t f v Ha Hv. unfold field_line. rewrite Hv, Ha. reflexivity. Qed.

Lemma not_space_dot : forall a, Py.isspace a = false -> dot a = true.
Proof.
  intros a H. unfold dot. destruct (Ascii.eqb a "010") eqn:E; [|reflexivity].
  apply Ascii.eqb_eq in E. subst a. discriminate H.
Qed.

Lemma url_shaped_one_line : forall u, url_shaped u -> all_chars dot u = true.
Proof.
  intros u [rest [Hu [_ Hr]]].
  assert (Hs : all_chars dot rest = true).
  { revert Hr. apply all_chars_impl. intros a Ha. unfold Pat.url_char in Ha.
    apply negb_true_iff in Ha.
    do 5 (apply orb_false_elim in Ha; destruct Ha as [Ha _]).
    apply not_space_dot, Ha. }
  destruct Hu as [-> | ->]; rewrite all_chars_app, Hs; reflexivity.
Qed.

Ltac field_step :=
  match goal with
  | |- context [step ?st (field_name ?f ++ ": " ++ ?v)] =>
      rewrite (step_canonical st _ f v eq_refl eq_refl eq_refl);
      [cbn [bind] | discriminate | try assumption]
  end.

Ltac tidy_state :=
  cbn [set_tool set_expect enter_field all_tools current_tool current_key
       current_subsection in_full_description in_screenshots partial_url
       expect_tool_name_value field_eqb].

(** X23. A record written in the canonical layout is read back.  After
    the marker and the name, one line each for "Website Link", "Short
    Description", "Slug" and "Tags" gives one record: the cleaned name, the
    URL, the stripped texts, the distinct tags, "AI Tool" as product type
    and the category that the keyword rule picks for the description. *)
Theorem canonical_record_read_back :
  forall to_list name url description slug tags,
  set_listing to_list ->
  is_marker name = false ->
  Py.nonempty (clean_text (Py.strip name)) = true ->
  url_shaped url ->
  all_chars dot description = true -> Py.nonempty (Py.strip description) = true ->
  all_chars dot slug = true -> Py.nonempty (Py.strip slug) = true ->
  all_chars dot tags = true -> Py.nonempty (Py.strip tags) = true ->
  doc_to_json to_list
    ["Tool Name:"; name; "Website Link: " ++ url;
     "Short Description: " ++ description; "Slug: " ++ slug; "Tags: " ++ tags]
  = Ok [set Category (VList [category_rule (Py.strip description) ""])
       (set Product_Type (VStr "AI Tool")
       (set Tags (VList (to_list (filter Py.nonempty (comma_items (Py.strip tags)))))
       (set Slug (VStr (Py.strip slug))
       (set Short_Description (VStr (Py.strip description))
       (set Website_Link (VStr url)
       (set Tool_Name (VStr (clean_text (Py.strip name))) new_tool))))))].
Proof.
  intros to_list name url sd slug tags Hl Hm Hn Hu Hd1 Hd2 Hs1 Hs2 Ht1 Ht2.
  assert (Hne : Py.nonempty (Py.strip name) = true).
  { destruct (Py.strip name); [vm_compute in Hn; discriminate Hn | reflexivity]. }
  pose proof (url_shaped_one_line url Hu) as Hu1.
  unfold doc_to_json, parse. cbn [run_lines].
  change (step initial_state "Tool Name:")
    with (Ok (mkState [] (Some new_tool) (Some Tool_Name) None false false None true)).
  cbn [bind].
  rewrite (step_name (mkState [] (Some new_tool) (Some Tool_Name) None
                              false false None true)
                     new_tool name eq_refl eq_refl Hm Hne).
  cbn [bind]. tidy_state.
  change ("Website Link: " ++ url) with (field_name Website_Link ++ ": " ++ url).
  change ("Short Description: " ++ sd) with (field_name Short_Description ++ ": " ++ sd).
  change ("Slug: " ++ slug) with (field_name Slug ++ ": " ++ slug).
  change ("Tags: " ++ tags) with (field_name Tags ++ ": " ++ tags).
  field_step.
  rewrite (url_shaped_strip url Hu), (field_line_link _ _ url Hu). tidy_state.
  field_step.
  rewrite (field_line_text _ _ Short_Description _ eq_refl eq_refl Hd2). tidy_state.
  field_step.
  rewrite (field_line_text _ _ Slug _ eq_refl eq_refl Hs2). tidy_state.
  field_step.
  rewrite (field_line_items _ _ Tags _ eq_refl Ht2). tidy_state.
  unfold finish. tidy_state. cbn [get set new_tool k_tool_name truthy].
  rewrite Hn. cbn [Py.truthy_opt andb bind app post_process].
  rewrite post_process_tool_unfold.
  cbn [resolve_urls dedup filter map]. rewrite (set_listing_nil to_list Hl).
  cbn [map]. rewrite (resolve_url_shaped url Hu).
  change (resolve_url "") with "".
  unfold normalize_subsections. cbn [get set k_full_description bind].
  change (sub_map (fun x => Py.strip (clean_text x)) empty_subsections)
    with empty_subsections.
  unfold default_product_type. cbn [get set k_product_type truthy Py.nonempty negb].
  unfold default_category, mentions, category_rule.
  cbn [get set k_category k_short_description k_full_description truthy negb
       py_in sub_get s_introduction empty_subsections].
  change (Py.contains "Writing" "") with false.
  change (Py.contains "Image" "") with false.
  rewrite !orb_false_r.
  destruct (Py.contains "Writing" (Py.strip sd)); cbn [bind]; [reflexivity|].
  destruct (Py.contains "Image" (Py.strip sd)); reflexivity.
Qed.

Lemma canonical_record_read_back_witness :
  doc_to_json distinct
    ["Tool Name:"; "**Acme**"; "Website Link: " ++ "https://acme.example";
     "Short Description: " ++ "An Image tool"; "Slug: " ++ "acme";
     "Tags: " ++ "art, image, art"]
  = Ok [set Category (VList [category_rule (Py.strip "An Image tool") ""])
       (set Product_Type (VStr "AI Tool")
       (set Tags (VList (distinct (filter Py.nonempty
                                     (comma_items (Py.strip "art, image, art")))))
       (set Slug (VStr (Py.strip "acme"))
       (set Short_Description (VStr (Py.strip "An Image tool"))
       (set Website_Link (VStr "https://acme.example")
       (set Tool_Name (VStr (clean_text (Py.strip "**Acme**"))) new_tool))))))].
Proof.
  apply (canonical_record_read_back distinct);
    try (vm_compute; reflexivity); [exact distinct_listing|].
  exists "acme.example". split; [right; reflexivity|].
  split; [discriminate | reflexivity].
Defined.

(** ** The header pattern *)

Lemma lower_char_idem : forall a, Py.lower_char (Py.lower_char a) = Py.lower_char a.
Proof. intros [[] [] [] [] [] [] [] []]; vm_compute; reflexivity. Qed.

Lemma lower_idem : forall s, Py.lower (Py.lower s) = Py.lower s.
Proof.
  induction s as [|a s IH]; [reflexivity|].
  cbn [Py.lower]. rewrite lower_char_idem, IH. reflexivity.
Qed.

Lemma drop_chars_lower : forall n s,
  Py.lower (drop_chars n s) = drop_chars n (Py.lower s).
Proof.
  induction n as [|n IH]; intro s; [destruct s; reflexivity|].
  destruct s as [|a s]; [reflexivity|]. cbn [drop_chars Py.lower]. apply IH.
Qed.

(** A literal under [re.IGNORECASE] matches when the lower-cased text
    starts with the lower-cased literal. *)
Lemma run_lit_i : forall (R : Type) w n s c (k : string -> captures -> option R),
  run (lit_i w) n s c k
  = if Py.startswith (Py.lower w) (Py.lower s)
    then k (drop_chars (String.length w) s) c else None.
Proof.
  intros R w n. induction w as [|a w IH]; intros s c k.
  - destruct s; reflexivity.
  - destruct s as [|b s]; [reflexivity|].
    cbn -[Ascii.eqb Py.lower_char]. rewrite (Ascii.eqb_sym (Py.lower_char b)).
    destruct (Ascii.eqb (Py.lower_char a) (Py.lower_char b)); [apply IH | reflexivity].
Qed.

(** A greedy run of blanks before something that no blank can start: the
    run takes every blank. *)
Lemma star_greedy_blanks : forall (R : Type) s (k : string -> option R),
  (forall a r, Py.isspace a = true -> k (String a r) = None) ->
  star_greedy space s k = k (Py.lstrip s).
Proof.
  intros R s k Hk. induction s as [|a s IH]; [reflexivity|].
  cbn [star_greedy Py.lstrip]. unfold space at 1.
  destruct (Py.isspace a) eqn:Ea; [|reflexivity].
  rewrite IH, (Hk a s Ea). destruct (k (Py.lstrip s)); reflexivity.
Qed.

Lemma blank_not_letter : forall a c,
  Py.isspace a = true -> Py.isspace c = false ->
  Ascii.eqb (Py.lower_char c) (Py.lower_char a) = false.
Proof.
  intros a c Ha Hc. destruct (Ascii.eqb _ _) eqn:E; [|reflexivity].
  apply Ascii.eqb_eq in E.
  rewrite <- (isspace_lower_char a), <- E, isspace_lower_char, Hc in Ha.
  discriminate Ha.
Qed.

Lemma suffix_drop : forall n s, suffix (drop_chars n s) s.
Proof.
  induction n as [|n IH]; intro s; [destruct s; apply suffix_refl|].
  destruct s as [|a s]; [apply suffix_refl|]. apply suffix_cons, IH.
Qed.

Lemma suffix_lstrip : forall s, suffix (Py.lstrip s) s.
Proof.
  induction s as [|a s IH]; [apply suffix_refl|].
  cbn [Py.lstrip]. destruct (Py.isspace a); [apply suffix_cons, IH | apply suffix_refl].
Qed.

Lemma suffix_label_text : forall s, suffix (label_text s) s.
Proof.
  intro s. unfold label_text. destruct (Py.startswith "###" s); [|apply suffix_refl].
  apply (suffix_trans _ _ _ (suffix_lstrip _) (suffix_drop 3 s)).
Qed.

(** A stripped text does not end with a colon and a line break. *)
Lemma stripped_end : forall s s2,
  Py.rstrip s = s -> suffix s2 s -> s2 <> ":" ++ String "010" "".
Proof.
  intros s s2 Hs [p ->] ->.
  rewrite rstrip_app_colon in Hs. apply (f_equal String.length) in Hs.
  rewrite !length_app in Hs. simpl in Hs. lia.
Qed.

(** The pattern after the heading marks, as a test on the text. *)
Lemma name_re_spec : forall n s0 s c,
  is_match (run name_re n s c (fun s' c' => Some (mkMatch "" (consumed s0 s') s' c')))
  = Py.startswith "tool name" (Py.lower s)
    && (String.eqb (Py.lstrip (drop_chars 9 s)) ":"
        || String.eqb (Py.lstrip (drop_chars 9 s)) (":" ++ String "010" "")).
Proof.
  intros n s0 s c. unfold name_re. cbn [seq]. cbn [run]. rewrite run_lit_i.
  change (Py.lower "Tool Name") with "tool name".
  change (String.length "Tool Name") with 9.
  destruct (Py.startswith "tool name" (Py.lower s)); [|reflexivity].
  cbn [andb]. rewrite star_greedy_blanks.
  - unfold chr_i. cbn [run].
    destruct (Py.lstrip (drop_chars 9 s)) as [|a r] eqn:E; [reflexivity|].
    change (Py.lower_char ":") with ":"%char.
    destruct (Ascii.eqb (Py.lower_char a) ":") eqn:Ea.
    + apply Ascii.eqb_eq, lower_char_colon in Ea. subst a.
      destruct r as [|b [|b' r]]; [reflexivity| |].
      * cbv beta iota. destruct (Ascii.eqb b "010") eqn:Eb.
        -- apply Ascii.eqb_eq in Eb. subst b. reflexivity.
        -- cbn [is_match]. symmetry. apply String.eqb_neq. intro H.
           inversion H; subst b. discriminate Eb.
      * cbv beta iota. cbn [is_match]. symmetry.
        apply orb_false_intro; apply String.eqb_neq; intro H; inversion H.
    + cbn [is_match]. symmetry. apply orb_false_intro; apply String.eqb_neq;
        intro H; inversion H; subst a; discriminate Ea.
  - intros a r Ha. unfold chr_i. cbn [run].
    rewrite (Ascii.eqb_sym (Py.lower_char a)), (blank_not_letter a ":" Ha eq_refl).
    reflexivity.
Qed.

Lemma is_match_none : forall o, is_match o = false -> o = None.
Proof. intros [m|] H; [discriminate H | reflexivity]. Qed.

Lemma startswith_marks_lower : forall s,
  Py.startswith "###" (Py.lower s) = Py.startswith "###" s.
Proof.
  assert (H : forall a, Ascii.eqb "#" (Py.lower_char a) = Ascii.eqb "#" a)
    by (intros [[] [] [] [] [] [] [] []]; vm_compute; reflexivity).
  intros [|a [|b [|c s]]]; cbn -[Ascii.eqb Py.lower_char]; rewrite ?H; reflexivity.
Qed.

Lemma name_re_blank : forall n s0 a r c,
  Py.isspace a = true ->
  run name_re n (String a r) c (fun s' c' => Some (mkMatch "" (consumed s0 s') s' c'))
  = None.
Proof.
  intros n s0 a r c Ha. apply is_match_none. rewrite name_re_spec.
  cbn -[Ascii.eqb Py.lower_char String.eqb drop_chars Py.lstrip].
  pose proof (blank_not_letter a "t" Ha eq_refl) as Hb.
  change (Py.lower_char "t") with "t"%char in Hb. rewrite Hb. reflexivity.
Qed.

Lemma name_re_marks : forall n s0 s c,
  Py.startswith "###" s = true ->
  run name_re n s c (fun s' c' => Some (mkMatch "" (consumed s0 s') s' c')) = None.
Proof.
  intros n s0 s c H. apply is_match_none. rewrite name_re_spec.
  destruct s as [|a s]; [discriminate H|].
  cbn -[Ascii.eqb] in H. destruct (Ascii.eqb "#" a) eqn:Ea; [|discriminate H].
  apply Ascii.eqb_eq in Ea. subst a. reflexivity.
Qed.

(** The header pattern as a test on the text. *)
Lemma header_spec : forall s,
  is_match (re_match Pat.tool_header s)
  = Py.startswith "tool name" (Py.lower (label_text s))
    && (String.eqb (Py.lstrip (drop_chars 9 (label_text s))) ":"
        || String.eqb (Py.lstrip (drop_chars 9 (label_text s)))
                      (":" ++ String "010" "")).
Proof.
  intro s. unfold re_match, match_at.
  change Pat.tool_header
    with (Seq Bol (Seq (Opt (Group 1 (Seq (lit_i "###") (Star space)))) name_re)).
  cbn [run]. rewrite Nat.eqb_refl, run_lit_i.
  change (Py.lower "###") with "###". change (String.length "###") with 3.
  rewrite startswith_marks_lower. unfold label_text.
  destruct (Py.startswith "###" s) eqn:E.
  - rewrite star_greedy_blanks by (intros a r Ha; apply name_re_blank, Ha).
    rewrite (name_re_marks _ s s [] E).
    match goal with
    | |- is_match (match ?x with Some y => Some y | None => None end) = _ =>
        replace (match x with Some y => Some y | None => None end) with x
          by (destruct x; reflexivity)
    end.
    apply name_re_spec.
  - apply name_re_spec.
Qed.

(** X24. A paragraph opens a record exactly when its cleaned text is: the
    three heading marks and blanks, or nothing; then the words "tool name"
    in any letter case; then blanks, if any; then a colon that ends the
    text. *)
Theorem marker_shape : forall line,
  is_new_tool line = header_shape (clean_text line).
Proof.
  intro line. unfold is_new_tool, header_shape. rewrite header_spec.
  f_equal.
  match goal with
  | |- _ || String.eqb ?s2 ?e = _ =>
      assert (H : String.eqb s2 e = false); [|rewrite H; apply orb_false_r]
  end.
  apply String.eqb_neq. apply (stripped_end (clean_text line)).
  - unfold clean_text, Py.strip. apply rstrip_idem.
  - eapply suffix_trans; [apply suffix_lstrip|].
    eapply suffix_trans; [apply suffix_drop | apply suffix_label_text].
Qed.

(** Some markers and some near misses. *)
Example marker_samples :
  map is_new_tool
      ["Tool Name:"; "### **tool NAME** :"; "_Tool Name:_"; "Tool Name: Acme";
       "## Tool Name:"; "Tool  Name:"; "Tool Name: [x]()"]
  = [true; true; true; false; false; false; true].
Proof. vm_compute. reflexivity. Qed.

(** ** The URL fields of parsed records *)

Lemma settled_cases : forall u,
  resolve_url u = u \/ url_shaped (resolve_url u) -> url_settled u.
Proof.
  intros u [E | Hs]; unfold url_settled.
  - rewrite !E. reflexivity.
  - apply resolve_url_shaped, Hs.
Qed.

(** What [extract_url] returns settles in one pass. *)
Lemma extract_settled : forall text u, extract_url text = Some u -> url_settled u.
Proof.
  intros text u H. apply settled_cases. unfold extract_url in H.
  destruct (re_search Pat.markdown_link text) as [m|] eqn:El.
  - inversion H; subst u. apply resolve_url_no_paren, target_char_no_paren.
    apply (search_link_target _ _ _ El).
  - destruct (re_search Pat.bare_url text) as [m|] eqn:Eb; [|discriminate H].
    inversion H; subst u. left. apply resolve_url_shaped.
    apply (search_bare_url_shape _ _ _ Eb).
Qed.

(** A text from which nothing is extracted is left alone. *)
Lemma falsy_settled : forall p,
  Py.truthy_opt (extract_url p) = false -> url_settled p.
Proof.
  intros p H. apply settled_cases. left. unfold resolve_url, Py.or_else.
  destruct (extract_url p) as [u|]; [|reflexivity].
  cbn [Py.truthy_opt] in H. rewrite H. reflexivity.
Qed.

Lemma or_else_settled : forall o,
  (forall u, o = Some u -> url_settled u) -> url_settled (Py.or_else o "").
Proof.
  intros [u|] H; unfold Py.or_else.
  - destruct (Py.nonempty u); [apply H; reflexivity | vm_compute; reflexivity].
  - vm_compute. reflexivity.
Qed.

Lemma extracted_settled : forall text, url_settled (Py.or_else (extract_url text) "").
Proof. intro text. apply or_else_settled. intros u. apply extract_settled. Qed.

Lemma link_settled_str : forall u, url_settled u -> link_settled (VStr u).
Proof. intros u H. unfold link_settled. cbn [resolve_urls]. f_equal. exact H. Qed.

Lemma links_ok_new : links_ok new_tool.
Proof. split; vm_compute; reflexivity. Qed.

Lemma links_ok_same : forall t t',
  get Website_Link t' = get Website_Link t -> get Logo t' = get Logo t ->
  links_ok t -> links_ok t'.
Proof. intros t t' Hw Hg [H1 H2]. unfold links_ok. rewrite Hw, Hg. auto. Qed.

Lemma links_ok_set_other : forall f v t,
  f <> Website_Link -> f <> Logo -> links_ok t -> links_ok (set f v t).
Proof.
  intros f v t Hw Hg. apply links_ok_same; apply get_set_other; congruence.
Qed.

Lemma links_ok_set_str : forall f u t,
  url_settled u -> links_ok t -> links_ok (set f (VStr u) t).
Proof.
  intros f u t Hu [H1 H2]. unfold links_ok.
  destruct (field_eq_dec f Website_Link) as [-> | Hw];
    [rewrite get_set_same, get_set_other by discriminate;
     split; [apply link_settled_str, Hu | exact H2]|].
  destruct (field_eq_dec f Logo) as [-> | Hg];
    [rewrite get_set_same, get_set_other by discriminate;
     split; [exact H1 | apply link_settled_str, Hu]|].
  rewrite !get_set_other by congruence. auto.
Qed.

Lemma set_item_none_get : forall v t f, get f (set_item None v t) = get f t.
Proof. intros v [a b c d e g h i j k l m n] f. destruct f; reflexivity. Qed.

Lemma assign_url_links : forall key u t t',
  assign_url key u t = Ok t' -> url_settled u -> links_ok t -> links_ok t'.
Proof.
  intros key u t t' H Hu Ht. destruct key as [k|].
  - destruct (field_eq_dec k Screenshots) as [-> | Hk].
    + cbn [assign_url] in H.
      apply (links_ok_same t); [| |exact Ht];
        apply (append_to_other _ _ _ _ _ H); discriminate.
    + assert (E : t' = set k (VStr u) t)
        by (destruct k; try congruence; inversion H; reflexivity).
      subst t'. apply links_ok_set_str; assumption.
  - inversion H; subst t'.
    apply (links_ok_same t); [| |exact Ht]; apply set_item_none_get.
Qed.

Lemma links_tool : forall st st' t',
  links_inv st -> links_ok t' ->
  all_tools st' = all_tools st -> current_tool st' = Some t' ->
  partial_url st' = partial_url st ->
  links_inv st'.
Proof.
  intros st st' t' (Ha & _ & Hp) Ht Ea Ec Ep. unfold links_inv.
  rewrite Ea, Ec, Ep. split; [exact Ha|]. split; [|exact Hp].
  intros t0 H0. inversion H0; subst t0. exact Ht.
Qed.

Lemma links_pending : forall st st',
  links_inv st ->
  all_tools st' = all_tools st -> current_tool st' = current_tool st ->
  (forall p, partial_url st' = Some p -> url_settled p) ->
  links_inv st'.
Proof.
  intros st st' (Ha & Hc & _) Ea Ec Hp. unfold links_inv.
  rewrite Ea, Ec. auto.
Qed.

Lemma links_same : forall st st',
  links_inv st ->
  all_tools st' = all_tools st -> current_tool st' = current_tool st ->
  partial_url st' = partial_url st ->
  links_inv st'.
Proof.
  intros st st' H Ea Ec Ep. apply (links_pending st); try assumption.
  rewrite Ep. apply H.
Qed.

Lemma field_in_array_other : forall k,
  field_in k ARRAY_FIELDS = true -> k <> Website_Link /\ k <> Logo.
Proof. destruct k; intro H; try discriminate H; split; discriminate. Qed.

Lemma field_not_url_other : forall k,
  field_in k URL_FIELDS = false -> k <> Website_Link /\ k <> Logo.
Proof. destruct k; intro H; try discriminate H; split; discriminate. Qed.

Lemma pending_url_line_links : forall st t pending line cleaned_line,
  links_inv st -> current_tool st = Some t -> url_settled pending ->
  links_res (pending_url_line st t pending line cleaned_line).
Proof.
  intros st t pending line cl Hi Hct Hp.
  assert (Ht : links_ok t) by (apply Hi, Hct).
  unfold pending_url_line. destruct (is_match _).
  - destruct (assign_url (current_key st) pending t) as [t'|] eqn:E; [|exact I].
    cbn [bind links_res].
    apply (links_pending (set_tool t' st)); try reflexivity.
    + apply (links_tool st _ t'); try reflexivity; [exact Hi|].
      apply (assign_url_links _ _ _ _ E Hp Ht).
    + intros p Hx. apply (extract_settled cl). exact Hx.
  - destruct (Py.truthy_opt (extract_url (pending ++ " " ++ cl))) eqn:Et.
    + destruct (assign_url (current_key st) _ t) as [t'|] eqn:E; [|exact I].
      cbn [bind links_res].
      apply (links_pending (set_tool t' st)); try reflexivity.
      * apply (links_tool st _ t'); try reflexivity; [exact Hi|].
        apply (assign_url_links _ _ _ _ E (extracted_settled _) Ht).
      * intros p Hx. discriminate Hx.
    + cbn [links_res]. apply (links_pending st); try reflexivity; [exact Hi|].
      intros p Hx. inversion Hx; subst p. apply falsy_settled, Et.
Qed.

Lemma field_line_links : forall st t f v,
  links_inv st -> current_tool st = Some t ->
  links_inv (field_line st t f v).
Proof.
  intros st t f v Hi Hct.
  assert (Ht : links_ok t) by (apply Hi, Hct).
  unfold field_line.
  destruct (Py.nonempty v); [|apply (links_same st); try reflexivity; exact Hi].
  destruct (field_in f ARRAY_FIELDS) eqn:Ea.
  { destruct (field_in_array_other f Ea) as [Hw Hg].
    apply (links_tool st _ (set f (VList (comma_items v)) t)); try reflexivity;
      [exact Hi | apply links_ok_set_other; assumption]. }
  destruct (field_in f URL_FIELDS) eqn:Eu.
  { destruct (Py.truthy_opt (extract_url v)) eqn:Et.
    - destruct (field_eqb f Screenshots).
      + apply (links_tool st _ (set Screenshots (VList [Py.or_else (extract_url v) ""]) t));
          try reflexivity; [exact Hi|].
        apply links_ok_set_other; [discriminate | discriminate | exact Ht].
      + apply (links_tool st _ (set f (VStr (Py.or_else (extract_url v) "")) t));
          try reflexivity; [exact Hi|].
        apply links_ok_set_str; [apply extracted_settled | exact Ht].
    - apply (links_pending
               (enter_field f (field_eqb f Full_Description) (field_eqb f Screenshots) st));
        try reflexivity.
      + apply (links_same st); try reflexivity. exact Hi.
      + intros p Hx. inversion Hx; subst p. apply falsy_settled, Et. }
  destruct (field_not_url_other f Eu) as [Hw Hg].
  apply (links_tool st _ (set f (VStr v) t)); try reflexivity;
    [exact Hi | apply links_ok_set_other; assumption].
Qed.

Lemma logo_line_links : forall st t cleaned_line,
  links_inv st -> current_tool st = Some t ->
  links_res (logo_line st t cleaned_line).
Proof.
  intros st t cl Hi Hct.
  assert (Ht : links_ok t) by (apply Hi, Hct).
  unfold logo_line. destruct (Py.after_first ":" cl) as [rest|]; [|exact I].
  destruct (Py.truthy_opt (extract_url (Py.strip rest))) eqn:Et; cbn [links_res].
  - apply (links_tool st _ (set Logo (VStr (Py.or_else (extract_url (Py.strip rest)) "")) t));
      try reflexivity; [exact Hi|].
    apply links_ok_set_str; [apply extracted_settled | exact Ht].
  - destruct (Py.nonempty (Py.strip rest)); cbn [links_res].
    + apply (links_pending (enter_field Logo false false st)); try reflexivity.
      * apply (links_same st); try reflexivity. exact Hi.
      * intros p Hx. inversion Hx; subst p. apply falsy_settled, Et.
    + apply (links_same st); try reflexivity. exact Hi.
Qed.

Lemma append_screenshot_links : forall st st' t t' u,
  links_inv st -> current_tool st = Some t ->
  append_to Screenshots u t = Ok t' ->
  all_tools st' = all_tools st -> current_tool st' = Some t' ->
  partial_url st' = partial_url st ->
  links_inv st'.
Proof.
  intros st st' t t' u Hi Hct E Ea Ec Ep.
  apply (links_tool st st' t'); try assumption.
  apply (links_ok_same t); [| |apply Hi, Hct];
    apply (append_to_other _ _ _ _ _ E); discriminate.
Qed.

Lemma screenshots_line_links : forall st t cleaned_line,
  links_inv st -> current_tool st = Some t ->
  links_res (screenshots_line st t cleaned_line).
Proof.
  intros st t cl Hi Hct.
  unfold screenshots_line. destruct (Py.after_first ":" cl) as [rest|]; [|exact I].
  destruct (Py.truthy_opt (extract_url (Py.strip rest))) eqn:Et.
  - destruct (append_to Screenshots _ t) as [t'|] eqn:E; [|exact I].
    cbn [bind links_res].
    apply (append_screenshot_links st _ t t' _ Hi Hct E); reflexivity.
  - destruct (Py.nonempty (Py.strip rest)); cbn [links_res].
    + apply (links_pending (enter_field Screenshots false true st)); try reflexivity.
      * apply (links_same st); try reflexivity. exact Hi.
      * intros p Hx. inversion Hx; subst p. apply falsy_settled, Et.
    + apply (links_same st); try reflexivity. exact Hi.
Qed.

Lemma screenshots_mode_links : forall st t cleaned_line,
  links_inv st -> current_tool st = Some t ->
  links_res (screenshots_mode st t cleaned_line).
Proof.
  intros st t cl Hi Hct. unfold screenshots_mode.
  destruct (Py.truthy_opt (extract_url cl)) eqn:Et.
  - destruct (append_to Screenshots _ t) as [t'|] eqn:E; [|exact I].
    cbn [bind links_res].
    apply (append_screenshot_links st _ t t' _ Hi Hct E); reflexivity.
  - destruct (is_match _); cbn [links_res].
    + apply (links_pending st); try reflexivity; [exact Hi|].
      intros p Hx. inversion Hx; subst p. apply falsy_settled, Et.
    + apply (links_same st); try reflexivity. exact Hi.
Qed.

Lemma full_description_mode_links : forall st t line cleaned_line,
  links_inv st -> current_tool st = Some t ->
  links_res (full_description_mode st t line cleaned_line).
Proof.
  intros st t line cl Hi Hct.
  assert (Ht : links_ok t) by (apply Hi, Hct).
  unfold full_description_mode.
  destruct (subsection_decl line) as [[s v]|].
  - unfold fd_assign. destruct (get Full_Description t); try exact I.
    cbn [bind links_res].
    eapply (links_tool st); try reflexivity; [exact Hi|].
    apply links_ok_set_other; [discriminate | discriminate | exact Ht].
  - destruct (current_subsection st) as [s|];
      [|apply (links_same st); try reflexivity; exact Hi].
    unfold fd_iadd. destruct (get Full_Description t); try exact I.
    cbn [bind links_res].
    eapply (links_tool st); try reflexivity; [exact Hi|].
    apply links_ok_set_other; [discriminate | discriminate | exact Ht].
Qed.

Lemma general_continuation_links : forall st t cleaned_line,
  links_inv st -> current_tool st = Some t ->
  links_res (general_continuation st t cleaned_line).
Proof.
  intros st t cl Hi Hct.
  assert (Ht : links_ok t) by (apply Hi, Hct).
  unfold general_continuation.
  destruct (current_key st) as [k|]; [|exact Hi].
  destruct (negb (in_screenshots st) && negb (in_full_description st)); [|exact Hi].
  destruct (field_in k ARRAY_FIELDS) eqn:Ea.
  - destruct (field_in_array_other k Ea) as [Hw Hg].
    unfold extend. destruct (get k t); try exact I. cbn [bind links_res].
    eapply (links_tool st); try reflexivity; [exact Hi|].
    apply links_ok_set_other; assumption.
  - destruct (field_in k URL_FIELDS) eqn:Eu.
    + destruct (negb (truthy (get k t))); [|exact Hi].
      destruct (Py.truthy_opt (extract_url cl)) eqn:Et.
      * destruct (assign_url (Some k) _ t) as [t'|] eqn:E; [|exact I].
        cbn [bind links_res].
        apply (links_tool st _ t'); try reflexivity; [exact Hi|].
        apply (assign_url_links _ _ _ _ E (extracted_settled _) Ht).
      * cbn [links_res]. apply (links_pending st); try reflexivity; [exact Hi|].
        intros p Hx. inversion Hx; subst p. apply falsy_settled, Et.
    + destruct (field_not_url_other k Eu) as [Hw Hg].
      unfold iadd_str. destruct (get k t); try exact I; cbn [bind links_res];
        (eapply (links_tool st); try reflexivity; [exact Hi|];
         apply links_ok_set_other; assumption).
Qed.

Lemma classify_line_links : forall st t line cleaned_line,
  links_inv st -> current_tool st = Some t ->
  links_res (classify_line st t line cleaned_line).
Proof.
  intros st t line cl Hi Hct. unfold classify_line.
  destruct (field_decl line) as [[f v]|].
  { apply field_line_links; assumption. }
  destruct (Py.startswith "logo:" (Py.lower line)).
  { apply logo_line_links; assumption. }
  destruct (Py.startswith "screenshots:" (Py.lower line)).
  { apply screenshots_line_links; assumption. }
  destruct (in_screenshots st).
  { apply screenshots_mode_links; assumption. }
  destruct (in_full_description st).
  { apply full_description_mode_links; assumption. }
  apply general_continuation_links; assumption.
Qed.

Lemma step_links : forall st para_text,
  links_inv st -> links_res (step st para_text).
Proof.
  intros st p Hi. unfold step.
  destruct (negb (Py.nonempty (Py.strip p))); [exact Hi|].
  destruct (is_new_tool (Py.strip p)).
  - cbn [links_res]. unfold links_inv. cbn [all_tools current_tool partial_url].
    split; [|split].
    + unfold close_record. destruct (current_tool st) as [t|] eqn:Ect; [|apply Hi].
      destruct (truthy (get Tool_Name t)); [|apply Hi].
      apply Forall_app. split; [apply Hi|]. constructor; [apply Hi, Ect | constructor].
    + intros t H. inversion H; subst t. apply links_ok_new.
    + intros p0 H. discriminate H.
  - destruct (expect_tool_name_value st).
    + destruct (current_tool st) as [t|] eqn:Ect; [|exact I]. cbn [links_res].
      eapply (links_tool st); try reflexivity; [exact Hi|].
      apply links_ok_set_other; [discriminate | discriminate | apply Hi, Ect].
    + destruct (current_tool st) as [t|] eqn:Ect; [|exact Hi].
      destruct (Py.truthy_opt (partial_url st)) eqn:Ep.
      * apply pending_url_line_links; [exact Hi | exact Ect|].
        destruct (partial_url st) as [p0|] eqn:Eq; [|discriminate Ep].
        cbn [Py.truthy_opt] in Ep. unfold Py.or_else. rewrite Ep. apply Hi, Eq.
      * apply classify_line_links; assumption.
Qed.

Lemma run_lines_links : forall paragraphs st st',
  links_inv st -> run_lines st paragraphs = Ok st' -> links_inv st'.
Proof.
  induction paragraphs as [|p ps IH]; intros st st' Hi H; simpl in H.
  - inversion H; subst st'. exact Hi.
  - pose proof (step_links st p Hi) as Hs.
    destruct (step st p) as [st1|e]; [|discriminate H]. cbn [bind] in H.
    apply (IH st1 st' Hs H).
Qed.

(** The parser stores under "Website Link" and "Logo" only texts that one
    pass settles. *)
Lemma parse_links : forall paragraphs raw,
  parse paragraphs = Ok raw -> Forall links_ok raw.
Proof.
  intros ps raw H. unfold parse in H.
  destruct (run_lines initial_state ps) as [st|e] eqn:E; [|discriminate H].
  cbn [bind] in H.
  assert (Hi : links_inv st).
  { apply (run_lines_links ps initial_state st); [|exact E].
    split; [constructor|]. split; intros x Hx; discriminate Hx. }
  unfold finish in H.
  destruct (current_tool st) as [t|] eqn:Ect; [|inversion H; subst; apply Hi].
  destruct (truthy (get Tool_Name t)); [|inversion H; subst; apply Hi].
  assert (Ht : links_ok t) by (apply Hi, Ect).
  destruct (Py.truthy_opt (partial_url st)
            && match current_key st with
               | Some key => field_in key URL_FIELDS
               | None => false
               end) eqn:Ep.
  - destruct (assign_url (current_key st) _ t) as [t'|] eqn:Ea; [|discriminate H].
    cbn [bind] in H. inversion H; subst raw.
    apply Forall_app. split; [apply Hi|]. constructor; [|constructor].
    apply (assign_url_links _ _ _ _ Ea); [|exact Ht].
    apply andb_prop in Ep. destruct Ep as [Ep _].
    destruct (partial_url st) as [p0|] eqn:Eq; [|discriminate Ep].
    cbn [Py.truthy_opt] in Ep. unfold Py.or_else. rewrite Ep. apply Hi, Eq.
  - cbn [bind] in H. inversion H; subst raw.
    apply Forall_app. split; [apply Hi|]. constructor; [exact Ht | constructor].
Qed.

Lemma post_process_links_kept : forall to_list ts once twice,
  Forall links_ok ts ->
  post_process to_list ts = Ok once ->
  post_process to_list once = Ok twice ->
  Forall2 links_kept once twice.
Proof.
  intros to_list ts. induction ts as [|t ts IH]; intros once twice Hl H1 H2;
    simpl in H1.
  - inversion H1; subst once. simpl in H2. inversion H2; subst twice. constructor.
  - destruct (post_process_tool to_list t) as [t1|] eqn:Et; [|discriminate H1].
    cbn [bind] in H1.
    destruct (post_process to_list ts) as [ts1|] eqn:Er; [|discriminate H1].
    cbn [bind] in H1. inversion H1; subst once. simpl in H2.
    destruct (post_process_tool to_list t1) as [t2|] eqn:Et2; [|discriminate H2].
    cbn [bind] in H2.
    destruct (post_process to_list ts1) as [ts2|] eqn:Er2; [|discriminate H2].
    cbn [bind] in H2. inversion H2; subst twice.
    inversion Hl as [|? ? [Hw Hg] Hl']; subst.
    constructor; [|apply IH; auto].
    pose proof (post_process_tool_urls to_list t t1 Et) as (Ew1 & Eg1 & _).
    pose proof (post_process_tool_urls to_list t1 t2 Et2) as (Ew2 & Eg2 & _).
    unfold links_kept. rewrite Ew2, Eg2, Ew1, Eg1. split; assumption.
Qed.

(** C4, as stated, fails: on a parsed record the second pass rewrites the
    screenshot entry and the introduction that the first pass produced. *)
Lemma post_process_not_idempotent :
  exists raw once twice,
    parse wrapped_link_lines = Ok raw
    /\ post_process distinct raw = Ok once
    /\ post_process distinct once = Ok twice
    /\ map (get Screenshots) once = [VList ["see http://x.example/1.png now"]]
    /\ map (get Screenshots) twice = [VList ["http://x.example/1.png"]]
    /\ map introduction once = [Some "[b](c)"]
    /\ map introduction twice = [Some "c"]
    /\ twice <> once.
Proof.
  do 3 eexists.
  split; [vm_compute; reflexivity|].
  split; [vm_compute; reflexivity|].
  split; [vm_compute; reflexivity|].
  repeat (split; [reflexivity|]). discriminate.
Qed.

(** C4, amended. A second pass over processed records succeeds and leaves
    them settled: the names, descriptions, slugs, meta fields and product
    types are those of the first pass, and the categories and tags are the
    same entries, possibly in another order.  On the records of a parsed
    document "Website Link" and "Logo" are those of the first pass as
    well: only the screenshot entries and the subsection texts can still
    move. *)
Theorem post_process_settles : forall to_list ts once,
  set_listing to_list ->
  post_process to_list ts = Ok once ->
  exists twice,
    post_process to_list once = Ok twice
    /\ Forall2 settled once twice
    /\ (forall paragraphs, parse paragraphs = Ok ts -> Forall2 links_kept once twice).
Proof.
  intros to_list ts once Hl H.
  assert (Hs : exists twice,
             post_process to_list once = Ok twice /\ Forall2 settled once twice).
  { clear - Hl H. revert once H.
    induction ts as [|t ts IH]; intros once H; simpl in H.
    - inversion H; subst. exists []. split; [reflexivity | constructor].
    - destruct (post_process_tool to_list t) as [t1|] eqn:Et; [|discriminate H].
      cbn [bind] in H.
      destruct (post_process to_list ts) as [ts1|] eqn:Er; [|discriminate H].
      cbn [bind] in H. inversion H; subst once.
      destruct (post_process_tool_settles to_list t t1 Hl Et) as [t2 [E2 S2]].
      destruct (IH ts1 eq_refl) as [ts2 [E2' S2']].
      exists (t2 :: ts2). simpl. rewrite E2, E2'. split; [reflexivity|].
      constructor; assumption. }
  destruct Hs as [twice [E2 S2]]. exists twice.
  split; [exact E2|]. split; [exact S2|].
  intros ps Hp.
  apply (post_process_links_kept to_list ts once twice (parse_links ps ts Hp) H E2).
Qed.

Lemma post_process_settles_witness :
  exists twice,
    post_process distinct linked_site_once = Ok twice
    /\ Forall2 settled linked_site_once twice
    /\ Forall2 links_kept linked_site_once twice.
Proof.
  destruct (post_process_settles distinct linked_site_raw linked_site_once
              distinct_listing)
    as [twice [E [S L]]]; [vm_compute; reflexivity|].
  exists twice. split; [exact E|]. split; [exact S|].
  apply (L linked_site_lines). vm_compute. reflexivity.
Defined.

(** The first pass turns the stored link target into the URL, and the
    second pass finds nothing more to do there. *)
Example linked_site_passes :
  map (get Website_Link) linked_site_raw = [VStr "see https://acme.example now"]
  /\ map (get Website_Link) linked_site_once = [VStr "https://acme.example"].
Proof. vm_compute. split; reflexivity. Qed.

(** The premise on the origin of the records is needed: a record that
    holds a whole link under "Website Link", which no document gives, moves
    in the second pass too. *)
Example unparsed_link_moves :
  exists once twice,
    post_process distinct [unparsed_link_record] = Ok once
    /\ post_process distinct once = Ok twice
    /\ map (get Website_Link) once = [VStr "see https://acme.example now"]
    /\ map (get Website_Link) twice = [VStr "https://acme.example"].
Proof.
  do 2 eexists. split; [vm_compute; reflexivity|].
  split; [vm_compute; reflexivity|]. split; reflexivity.
Qed.
